(** * transcribe.js: the client-side pipeline orchestrator

    A shallow embedding of the two client variants of the transcript
    generator and of the properties stated about them:

    - [Presigned]   is [src/frontend/src/app/page.tsx] (presigned-URL upload
      of the original file);
    - [Transcoding] is the first component of [src/unnamed/part_000]
      (client-side transcoding, inline multipart upload);
    - [Restyled]    is the second component of [src/unnamed/part_000]
      (the restyled page with stubbed submit), of which only the speaker
      count handler is used.

    JavaScript strings are Rocq strings read as sequences of code units below
    256; JavaScript numbers are exact ([Z] where the code only ever holds
    integers, [Q] for a duration in seconds), with [NaN] written out where the
    code can produce it.  An [async] handler is a finite tree of state
    updates and awaited actions, so that it can be run to completion against
    an environment or suspended at an [await] while another handler runs.
    What the page does around a handler, the effect of page.tsx keyed on the
    two handles and the other handlers that run while one is suspended, is
    modelled on top of the handlers ([Presigned_commit], [run_among]). *)

From Stdlib Require Import ZArith List String Ascii Bool Lia QArith Qround.
From Stdlib Require Import Numbers.DecimalString.
Import ListNotations.
Close Scope Q_scope.
Open Scope string_scope.

Set Implicit Arguments.

(* ===================================================================== *)
(** ** JavaScript values                                                   *)
(* ===================================================================== *)

Module JS.

(** A number that is an integer or [NaN] ([parseInt], [Math.max]). *)
Inductive num : Type :=
| NaN
| Num (z : Z).

(** [x || y] on values that are [undefined]/[null] or a string: the empty
    string is falsy like [null]. *)
Definition truthy (s : option string) : bool :=
  match s with
  | Some (String _ _) => true
  | _ => false
  end.

Definition or (a b : option string) : option string :=
  if truthy a then a else b.

(** [a || "lit"] where the right operand is a string literal. *)
Definition or_str (a : option string) (b : string) : string :=
  match a with
  | Some (String c r) => String c r
  | _ => b
  end.

(** [!s] on a string. *)
Definition nonempty (s : string) : bool :=
  match s with
  | EmptyString => false
  | String _ _ => true
  end.

(** White space and line terminators of ECMAScript among the code units
    below 256: TAB, LF, VT, FF, CR, SP and NBSP. *)
Definition is_space (c : ascii) : bool :=
  let n := nat_of_ascii c in
  (((9 <=? n) && (n <=? 13)) || (n =? 32) || (n =? 160))%nat.

(** [String.prototype.trim]. *)
Fixpoint trimStart (s : string) : string :=
  match s with
  | EmptyString => EmptyString
  | String c r => if is_space c then trimStart r else s
  end.

Fixpoint trimEnd (s : string) : string :=
  match s with
  | EmptyString => EmptyString
  | String c r =>
      match trimEnd r with
      | EmptyString => if is_space c then EmptyString else String c EmptyString
      | r' => String c r'
      end
  end.

Definition trim (s : string) : string := trimEnd (trimStart s).

(** [s.split(".")]: the list of the segments between dots, never empty. *)
Fixpoint split_dot (s : string) : list string :=
  match s with
  | EmptyString => [EmptyString]
  | String c r =>
      if Ascii.eqb c "." then EmptyString :: split_dot r
      else match split_dot r with
           | seg :: segs => String c seg :: segs
           | [] => [String c EmptyString]
           end
  end.

(** [s.split(".")[0]] and [s.split(".").pop()]. *)
Definition first_segment (s : string) : string := hd EmptyString (split_dot s).
Definition last_segment (s : string) : string := last (split_dot s) EmptyString.

(** [s.startsWith(p)] is [String.prefix p s]; [s.indexOf(p) !== -1]: *)
Fixpoint includes (p s : string) : bool :=
  prefix p s ||
  match s with
  | EmptyString => false
  | String _ r => includes p r
  end.

(** [String(n)] and [n.toString()] of an integer, below [1e21], from where
    the source switches to the exponent notation. *)
Definition toString (z : Z) : string := NilZero.string_of_int (Z.to_int z).

Fixpoint repeat_char (c : ascii) (n : nat) : string :=
  match n with
  | O => EmptyString
  | S n' => String c (repeat_char c n')
  end.

(** [s.padStart(n, "0")]. *)
Definition padStart0 (n : nat) (s : string) : string :=
  repeat_char "0" (n - String.length s) ++ s.

(** [parts.join(":")]. *)
Fixpoint join_colon (parts : list string) : string :=
  match parts with
  | [] => EmptyString
  | [p] => p
  | p :: rest => p ++ ":" ++ join_colon rest
  end.

(** [parseInt(s, 10)]: leading white space is skipped, then an optional
    sign, then the longest run of decimal digits; [NaN] when that run is
    empty.  What follows the digits is ignored. *)
Definition digit_of (c : ascii) : option Z :=
  let n := nat_of_ascii c in
  if ((48 <=? n) && (n <=? 57))%nat then Some (Z.of_nat (n - 48)) else None.

Fixpoint digits (acc : Z) (s : string) : Z :=
  match s with
  | EmptyString => acc
  | String c r =>
      match digit_of c with
      | Some d => digits (10 * acc + d) r
      | None => acc
      end
  end.

Definition starts_with_digit (s : string) : bool :=
  match s with
  | String c _ => match digit_of c with Some _ => true | None => false end
  | EmptyString => false
  end.

Definition parseInt (s : string) : num :=
  let t := trimStart s in
  let '(sign, body) :=
    match t with
    | String "-" r => ((-1)%Z, r)
    | String "+" r => (1%Z, r)
    | _ => (1%Z, t)
    end in
  if starts_with_digit body then Num (sign * digits 0 body) else NaN.

(** [Math.max(1, n)]: [NaN] when an argument is. *)
Definition max1 (n : num) : num :=
  match n with
  | NaN => NaN
  | Num z => Num (Z.max 1 z)
  end.

(** [n || 1] on a number: [NaN] and [0] are falsy. *)
Definition or1 (n : num) : num :=
  match n with
  | NaN => Num 1
  | Num 0 => Num 1
  | Num z => Num z
  end.

(** [n > len] where [len] is an array length: false on [NaN]. *)
Definition gt_length (n : num) (len : nat) : bool :=
  match n with
  | NaN => false
  | Num z => (Z.of_nat len <? z)%Z
  end.

(** [arr.slice(0, n)]: [NaN] counts as [0], a negative end is relative to
    the length of the array. *)
Definition slice0 (A : Type) (arr : list A) (n : num) : list A :=
  match n with
  | NaN => []
  | Num z =>
      if (z <? 0)%Z then firstn (Z.to_nat (Z.max (Z.of_nat (List.length arr) + z) 0)) arr
      else firstn (Z.to_nat z) arr
  end.

(** [[...arr, ...Array(n - arr.length).fill(empty)]] (padding with empty strings), reached only under
    [n > arr.length]; for a count [n] up to the largest array length, 2^32 - 1,
    beyond which the source throws a [RangeError]. *)
Definition pad_empty (arr : list string) (n : num) : list string :=
  match n with
  | NaN => arr
  | Num z => arr ++ repeat EmptyString (Z.to_nat (z - Z.of_nat (List.length arr)))
  end.

(** The resizing both count handlers apply to [speakerNames]. *)
Definition resize (n : num) (prev : list string) : list string :=
  if gt_length n (List.length prev) then pad_empty prev n else slice0 prev n.

(** A duration in seconds is an exact rational here, which is what the
    source computes for a finite number of seconds below 2^53 (no [NaN], no
    [Infinity], no rounding of the quotients).  [x % d] keeps the sign of
    [x]: it is [x - d * trunc(x / d)]. *)
Definition Qtrunc (x : Q) : Z :=
  if (Qnum x <? 0)%Z then Qceiling x else Qfloor x.

Definition Qrem (x : Q) (d : Z) : Q :=
  (x - inject_Z d * inject_Z (Qtrunc (x / inject_Z d)))%Q.

End JS.

(* ===================================================================== *)
(** ** The duration formatters                                             *)
(* ===================================================================== *)

(** [hhmmss] of page.tsx:
    [[3600, 60, 1].map((d) => String(Math.floor(seconds / d) % 60).padStart(2, "0")).join(":")] *)
Definition hhmmss (seconds : Q) : string :=
  JS.join_colon
    (map (fun d : Z =>
            JS.padStart0 2 (JS.toString (Z.rem (Qfloor (seconds / inject_Z d)%Q) 60)))
         [3600; 60; 1]%Z).

(** [formatDuration] of the transcoding variant. *)
Definition formatDuration (seconds : Q) : string :=
  let hours := Qfloor (seconds / inject_Z 3600)%Q in
  let minutes := Qfloor (JS.Qrem seconds 3600 / inject_Z 60)%Q in
  let secs := Qfloor (JS.Qrem seconds 60) in
  JS.padStart0 2 (JS.toString hours) ++ ":" ++
  JS.padStart0 2 (JS.toString minutes) ++ ":" ++
  JS.padStart0 2 (JS.toString secs).

(* ===================================================================== *)
(** ** Data shared by the variants                                         *)
(* ===================================================================== *)

Record TranscriptTurn : Type := { speaker : string; text : string }.

Record CaseInfo : Type := {
  case_name : option string;
  case_number : option string;
  firm_name : option string;
  input_date : option string;
  input_time : option string;
  location : option string
}.

(** A [File]: display name, declared MIME type and payload. *)
Record File : Type := { name : string; type : string; content : string }.

(** What a [catch] clause can receive: an [Error] object, or a bare
    string (a promise rejected with a string). *)
Inductive Thrown : Type :=
| Error (message : string)
| Bare (s : string).

(** A settled promise. *)
Inductive outcome (R : Type) : Type :=
| Resolve (r : R)
| Reject (e : Thrown).
Arguments Reject {R} e.

(** A fetch [Response]: the fields the handlers read. *)
Record Response : Type := {
  ok : bool;
  status : Z;
  statusText : string;
  content_disposition : option string   (* headers.get('content-disposition') *)
}.

(** A parsed JSON body; an absent field is [None]. *)
Record JsonBody : Type := {
  detail : option string;
  upload_url : option string;
  object_key : option string;
  transcript_turns : option (list TranscriptTurn);
  gemini_file_name : option string;
  r2_object_key : option string
}.

(** [{}] *)
Definition empty_json : JsonBody :=
  {| detail := None; upload_url := None; object_key := None;
     transcript_turns := None; gemini_file_name := None; r2_object_key := None |}.

(** [{ ...caseInfo, speaker_names }] *)
Record RequestData : Type := {
  case_fields : CaseInfo;
  speaker_names : option (list string)
}.

(** The second part of the multipart submission: a staged object key
    (presigned variant) or the audio itself (transcoding variant). *)
Inductive AudioBlob : Type :=
| OfFile (f : File)                      (* audioBlob = file *)
| Mp3 (data : string).                   (* new Blob([data], {type: 'audio/mp3'}) *)

Inductive Payload : Type :=
| part_r2_object_key (key : option string)
| part_audio_file (b : AudioBlob).

Record TitleData : Type := {
  title_case : CaseInfo;
  FILE_NAME : string;
  FILE_DURATION : string
}.

Record DocxRequest : Type := {
  docx_gemini_file_name : string;
  docx_title_data : TitleData;
  docx_transcript_turns : list TranscriptTurn
}.

(** The requests the client sends, by endpoint. *)
Inductive Request : Type :=
| GET_generate_r2_presigned (filename content_type : string)
| PUT_upload (url : option string) (content_type : string) (body : File)
| POST_transcribe (request_data_json : RequestData) (part : Payload)
| POST_cleanup (gemini : string) (r2 : option string)
| POST_cleanup_r2 (key : string)
| POST_generate_docx (body : DocxRequest).

(** Everything a handler awaits or does to the outside, indexed by the type
    of its result. *)
Inductive Action : Type -> Type :=
| fetch (r : Request) : Action Response
| json (r : Response) : Action JsonBody            (* r.json() *)
| blob (r : Response) : Action string              (* r.blob() *)
| loadedmetadata (b : File) : Action Q             (* <audio> metadata: a.duration *)
| download (filename : string) (data : string) : Action unit   (* a.click() *)
| fetchFile (f : File) : Action string
| ffmpeg_writeFile (path : string) (data : string) : Action unit
| ffmpeg_exec (args : list string) : Action unit
| ffmpeg_readFile (path : string) : Action string.

(** The log of a run: every action with how it settled, in order. *)
Inductive Event : Type :=
| Ev (R : Type) (a : Action R) (o : outcome R).

(** The network calls among the events. *)
Definition is_fetch (e : Event) : bool :=
  match e with
  | Ev (fetch _) _ => true
  | Ev _ _ => false
  end.

Definition network_calls (tr : list Event) : list Event := filter is_fetch tr.

(** The file names suggested to the browser, in order. *)
Definition download_of (e : Event) : option string :=
  match e with
  | Ev (download filename _) _ => Some filename
  | Ev _ _ => None
  end.

Fixpoint suggested_names (tr : list Event) : list string :=
  match tr with
  | [] => []
  | e :: rest =>
      match download_of e with
      | Some n => n :: suggested_names rest
      | None => suggested_names rest
      end
  end.

(** An exchange with an endpoint, and the reading of a response body. *)
Definition fetch_of (e : Event) : option (Request * outcome Response) :=
  match e with
  | Ev (fetch r) o => Some (r, o)
  | Ev _ _ => None
  end.

Definition json_of (e : Event) : option (Response * outcome JsonBody) :=
  match e with
  | Ev (json r) o => Some (r, o)
  | Ev _ _ => None
  end.

Definition blob_of (e : Event) : option (Response * outcome string) :=
  match e with
  | Ev (blob r) o => Some (r, o)
  | Ev _ _ => None
  end.

(** The probing of a duration by the audio element. *)
Definition metadata_of (e : Event) : option (File * outcome Q) :=
  match e with
  | Ev (loadedmetadata b) o => Some (b, o)
  | Ev _ _ => None
  end.

(** The environment settles every action, knowing what happened before. *)
Definition Env : Type := list Event -> forall R, Action R -> outcome R.

(* ===================================================================== *)
(** ** Handlers as trees of updates and awaits                             *)
(* ===================================================================== *)

Section Prog.
Variable St : Type.

Inductive prog (A : Type) : Type :=
| Ret (a : A)
| Throw (e : Thrown)
| Upd (f : St -> St) (k : prog A)
| Act (R : Type) (a : Action R) (k : outcome R -> prog A).

Arguments Ret {A} a.
Arguments Throw {A} e.
Arguments Upd {A} f k.
Arguments Act {A R} a k.

Fixpoint bind (A B : Type) (m : prog A) (f : A -> prog B) : prog B :=
  match m with
  | Ret a => f a
  | Throw e => Throw e
  | Upd g k => Upd g (bind k f)
  | Act a k => Act a (fun o => bind (k o) f)
  end.

(** [try { m } catch (err) { h err }] *)
Fixpoint try_catch (A : Type) (m : prog A) (h : Thrown -> prog A) : prog A :=
  match m with
  | Ret a => Ret a
  | Throw e => h e
  | Upd g k => Upd g (try_catch k h)
  | Act a k => Act a (fun o => try_catch (k o) h)
  end.

(** [try { m } finally { fin }] *)
Fixpoint finally (A : Type) (m : prog A) (fin : prog unit) : prog A :=
  match m with
  | Ret a => bind fin (fun _ => Ret a)
  | Throw e => bind fin (fun _ => Throw e)
  | Upd g k => Upd g (finally k fin)
  | Act a k => Act a (fun o => finally (k o) fin)
  end.

(** [await a] *)
Definition await (R : Type) (a : Action R) : prog R :=
  Act a (fun o => match o with Resolve r => Ret r | Reject e => Throw e end).

(** [await a.catch(() => d)] *)
Definition await_catch (R : Type) (a : Action R) (d : R) : prog R :=
  Act a (fun o => match o with Resolve r => Ret r | Reject _ => Ret d end).

(** A state setter [setX(v)]. *)
Definition upd (f : St -> St) : prog unit := Upd f (Ret tt).

(** Run to completion: the final state, the events in order and how the
    handler ended. *)
Fixpoint run (A : Type) (env : Env) (p : prog A) (st : St) (tr : list Event)
  : St * list Event * outcome A :=
  match p with
  | Ret a => (st, tr, Resolve a)
  | Throw e => (st, tr, Reject e)
  | Upd f k => run env k (f st) tr
  | Act a k => let o := env tr _ a in run env (k o) st (tr ++ [Ev a o])
  end.

(** Run until [n] awaited actions have settled; what is returned is the
    rest of the handler, suspended on its next action if it has one. *)
Fixpoint run_steps (A : Type) (env : Env) (n : nat) (p : prog A) (st : St)
    (tr : list Event) : St * list Event * prog A :=
  match p with
  | Ret _ | Throw _ => (st, tr, p)
  | Upd f k => run_steps env n k (f st) tr
  | Act a k =>
      match n with
      | O => (st, tr, p)
      | S n' => let o := env tr _ a in run_steps env n' (k o) st (tr ++ [Ev a o])
      end
  end.

(** A handler suspended on an action that has not settled yet. *)
Definition suspended (A : Type) (p : prog A) : bool :=
  match p with
  | Act _ _ => true
  | _ => false
  end.
End Prog.

Arguments Ret {St A} a.
Arguments Throw {St A} e.
Arguments Upd {St A} f k.
Arguments Act {St A R} a k.
Arguments bind {St A B} m f.
Arguments try_catch {St A} m h.
Arguments finally {St A} m fin.
Arguments await {St R} a.
Arguments await_catch {St R} a d.
Arguments upd {St} f.
Arguments run {St A} env p st tr.
Arguments run_steps {St A} env n p st tr.
Arguments suspended {St A} p.

Declare Scope prog_scope.
Delimit Scope prog_scope with prog.
Notation "x <- m ;; k" := (bind m (fun x => k))
  (at level 61, m at next level, right associativity) : prog_scope.
Notation "m ;; k" := (bind m (fun _ => k))
  (at level 61, right associativity) : prog_scope.
Notation "'try' m 'catch' h" := (try_catch m h)
  (at level 60, m at level 200, h at level 200) : prog_scope.

(** The state reached and the events produced from an empty history. *)
Definition final (St A : Type) (env : Env) (p : prog St A) (st : St) : St :=
  fst (fst (run env p st [])).
Definition events (St A : Type) (env : Env) (p : prog St A) (st : St) : list Event :=
  snd (fst (run env p st [])).

(** [err instanceof Error ? err.message : String(err)] *)
Definition message_of (err : Thrown) : string :=
  match err with
  | Error m => m
  | Bare s => s
  end.

(** [err.message] on an [any]: [undefined] on a bare string. *)
Definition dot_message (err : Thrown) : option string :=
  match err with
  | Error m => Some m
  | Bare _ => None
  end.

(** [speakerNames.filter((s) => s.trim())] (page.tsx) and
    [speakerNames.filter(name => name && name.trim() !== '')] (transcoding
    variant). *)
Definition filter_trim (names : list string) : list string :=
  filter (fun s => JS.nonempty (JS.trim s)) names.

Definition filter_name_and_trim (names : list string) : list string :=
  filter (fun name => JS.nonempty name && negb (String.eqb (JS.trim name) EmptyString)) names.

(** [`${(file?.name.split(".")[0] || "transcript")}_transcript.docx`] *)
Definition default_download_name (file : option File) : string :=
  JS.or_str (option_map (fun f => JS.first_segment (name f)) file) "transcript"
  ++ "_transcript.docx".

(** The header parsing of the transcoding variant's export, the regular
    expression applied to [disposition] by [filenameRegex.exec]: the literal
    [filename]; a greedy run of characters other than semicolon, equals sign
    and newline; an equals sign; then the captured group 1, which is either a
    quote (single or double, itself captured), a lazy run of any characters
    but line terminators, and the same quote again by back-reference, or
    else a greedy run of characters other than semicolon and newline.

    The first run is followed by an equals sign, which it excludes, so only
    the maximal run can match; the lazy run stops at the first closing
    quote; nothing follows the group, so its first success is final.  The
    leftmost start wins. *)
Definition LF : ascii := ascii_of_nat 10.
Definition CR : ascii := ascii_of_nat 13.
Definition DQUOTE : ascii := ascii_of_nat 34.
Definition is_quote (c : ascii) : bool := Ascii.eqb c "'" || Ascii.eqb c DQUOTE.

Fixpoint strip_prefix (p s : string) : option string :=
  match p, s with
  | EmptyString, _ => Some s
  | String a p', String b s' => if Ascii.eqb a b then strip_prefix p' s' else None
  | String _ _, EmptyString => None
  end.

(** [[^;=\n]*=]: what follows the equals sign. *)
Fixpoint after_equals (s : string) : option string :=
  match s with
  | EmptyString => None
  | String c r =>
      if Ascii.eqb c "=" then Some r
      else if Ascii.eqb c ";" || Ascii.eqb c LF then None
      else after_equals r
  end.

(** [.*?\2]: up to and including the first [q], no line terminator before. *)
Fixpoint until_quote (q : ascii) (s : string) : option string :=
  match s with
  | EmptyString => None
  | String c r =>
      if Ascii.eqb c q then Some (String q EmptyString)
      else if Ascii.eqb c LF || Ascii.eqb c CR then None
      else option_map (String c) (until_quote q r)
  end.

(** [[^;\n]*] *)
Fixpoint run_value (s : string) : string :=
  match s with
  | EmptyString => EmptyString
  | String c r =>
      if Ascii.eqb c ";" || Ascii.eqb c LF then EmptyString
      else String c (run_value r)
  end.

Definition group1 (s : string) : string :=
  match s with
  | String c r =>
      if is_quote c then
        match until_quote c r with
        | Some body => String c body
        | None => run_value s
        end
      else run_value s
  | EmptyString => EmptyString
  end.

(** [matches[1]] when the expression matches, [None] when [exec] is [null]. *)
Fixpoint filenameRegex_exec (s : string) : option string :=
  match match strip_prefix "filename" s with
        | Some rest => after_equals rest
        | None => None
        end with
  | Some v => Some (group1 v)
  | None =>
      match s with
      | EmptyString => None
      | String _ r => filenameRegex_exec r
      end
  end.

(** [s.replace(Q, '')] with the global expression [Q] matching one single
    or double quote. *)
Fixpoint strip_quotes (s : string) : string :=
  match s with
  | EmptyString => EmptyString
  | String c r =>
      if is_quote c then strip_quotes r
      else String c (strip_quotes r)
  end.

(** [downloadFilename] of the transcoding variant. *)
Definition downloadFilename (file : option File) (disposition : option string) : string :=
  let default := default_download_name file in
  match disposition with
  | Some d =>
      if JS.nonempty d && JS.includes "attachment" d then
        match filenameRegex_exec d with
        | Some m1 => if JS.nonempty m1 then strip_quotes m1 else default
        | None => default
        end
      else default
  | None => default
  end.

(* ===================================================================== *)
(** ** Presigned variant: src/frontend/src/app/page.tsx                    *)
(* ===================================================================== *)

Module Presigned.
Local Open Scope prog_scope.

(** The [useState] cells of [Home]. *)
Record State : Type := {
  file : option File;
  caseInfo : CaseInfo;
  specifySpeakers : bool;
  numSpeakers : JS.num;
  speakerNames : list string;
  isProcessing : bool;
  statusMessage : string;
  error : option string;
  transcriptTurns : option (list TranscriptTurn);
  geminiFileName : option string;
  r2ObjectKey : option string;
  audioDuration : option string
}.

(** The initial values given to [useState]. *)
Definition init : State :=
  {| file := None;
     caseInfo := {| case_name := None; case_number := None; firm_name := None;
                    input_date := None; input_time := None; location := None |};
     specifySpeakers := false; numSpeakers := JS.Num 1; speakerNames := [EmptyString];
     isProcessing := false; statusMessage := EmptyString; error := None;
     transcriptTurns := None; geminiFileName := None; r2ObjectKey := None;
     audioDuration := None |}.

Definition set_file v (s : State) : State :=
  {| file := v; caseInfo := caseInfo s; specifySpeakers := specifySpeakers s;
     numSpeakers := numSpeakers s; speakerNames := speakerNames s;
     isProcessing := isProcessing s; statusMessage := statusMessage s;
     error := error s; transcriptTurns := transcriptTurns s;
     geminiFileName := geminiFileName s; r2ObjectKey := r2ObjectKey s;
     audioDuration := audioDuration s |}.
Definition set_numSpeakers v (s : State) : State :=
  {| file := file s; caseInfo := caseInfo s; specifySpeakers := specifySpeakers s;
     numSpeakers := v; speakerNames := speakerNames s;
     isProcessing := isProcessing s; statusMessage := statusMessage s;
     error := error s; transcriptTurns := transcriptTurns s;
     geminiFileName := geminiFileName s; r2ObjectKey := r2ObjectKey s;
     audioDuration := audioDuration s |}.
Definition set_speakerNames v (s : State) : State :=
  {| file := file s; caseInfo := caseInfo s; specifySpeakers := specifySpeakers s;
     numSpeakers := numSpeakers s; speakerNames := v;
     isProcessing := isProcessing s; statusMessage := statusMessage s;
     error := error s; transcriptTurns := transcriptTurns s;
     geminiFileName := geminiFileName s; r2ObjectKey := r2ObjectKey s;
     audioDuration := audioDuration s |}.
Definition set_isProcessing v (s : State) : State :=
  {| file := file s; caseInfo := caseInfo s; specifySpeakers := specifySpeakers s;
     numSpeakers := numSpeakers s; speakerNames := speakerNames s;
     isProcessing := v; statusMessage := statusMessage s;
     error := error s; transcriptTurns := transcriptTurns s;
     geminiFileName := geminiFileName s; r2ObjectKey := r2ObjectKey s;
     audioDuration := audioDuration s |}.
Definition set_statusMessage v (s : State) : State :=
  {| file := file s; caseInfo := caseInfo s; specifySpeakers := specifySpeakers s;
     numSpeakers := numSpeakers s; speakerNames := speakerNames s;
     isProcessing := isProcessing s; statusMessage := v;
     error := error s; transcriptTurns := transcriptTurns s;
     geminiFileName := geminiFileName s; r2ObjectKey := r2ObjectKey s;
     audioDuration := audioDuration s |}.
Definition set_error v (s : State) : State :=
  {| file := file s; caseInfo := caseInfo s; specifySpeakers := specifySpeakers s;
     numSpeakers := numSpeakers s; speakerNames := speakerNames s;
     isProcessing := isProcessing s; statusMessage := statusMessage s;
     error := v; transcriptTurns := transcriptTurns s;
     geminiFileName := geminiFileName s; r2ObjectKey := r2ObjectKey s;
     audioDuration := audioDuration s |}.
Definition set_transcriptTurns v (s : State) : State :=
  {| file := file s; caseInfo := caseInfo s; specifySpeakers := specifySpeakers s;
     numSpeakers := numSpeakers s; speakerNames := speakerNames s;
     isProcessing := isProcessing s; statusMessage := statusMessage s;
     error := error s; transcriptTurns := v;
     geminiFileName := geminiFileName s; r2ObjectKey := r2ObjectKey s;
     audioDuration := audioDuration s |}.
Definition set_geminiFileName v (s : State) : State :=
  {| file := file s; caseInfo := caseInfo s; specifySpeakers := specifySpeakers s;
     numSpeakers := numSpeakers s; speakerNames := speakerNames s;
     isProcessing := isProcessing s; statusMessage := statusMessage s;
     error := error s; transcriptTurns := transcriptTurns s;
     geminiFileName := v; r2ObjectKey := r2ObjectKey s;
     audioDuration := audioDuration s |}.
Definition set_r2ObjectKey v (s : State) : State :=
  {| file := file s; caseInfo := caseInfo s; specifySpeakers := specifySpeakers s;
     numSpeakers := numSpeakers s; speakerNames := speakerNames s;
     isProcessing := isProcessing s; statusMessage := statusMessage s;
     error := error s; transcriptTurns := transcriptTurns s;
     geminiFileName := geminiFileName s; r2ObjectKey := v;
     audioDuration := audioDuration s |}.
Definition set_audioDuration v (s : State) : State :=
  {| file := file s; caseInfo := caseInfo s; specifySpeakers := specifySpeakers s;
     numSpeakers := numSpeakers s; speakerNames := speakerNames s;
     isProcessing := isProcessing s; statusMessage := statusMessage s;
     error := error s; transcriptTurns := transcriptTurns s;
     geminiFileName := geminiFileName s; r2ObjectKey := r2ObjectKey s;
     audioDuration := v |}.

Definition setFile v : prog State unit := upd (set_file v).
Definition setNumSpeakers v : prog State unit := upd (set_numSpeakers v).
Definition setIsProcessing v : prog State unit := upd (set_isProcessing v).
Definition setStatusMessage v : prog State unit := upd (set_statusMessage v).
Definition setError v : prog State unit := upd (set_error v).
Definition setTranscriptTurns v : prog State unit := upd (set_transcriptTurns v).
Definition setGeminiFileName v : prog State unit := upd (set_geminiFileName v).
Definition setR2ObjectKey v : prog State unit := upd (set_r2ObjectKey v).
Definition setAudioDuration v : prog State unit := upd (set_audioDuration v).

(** [getDuration]: resolves with [hhmmss(a.duration)] on [loadedmetadata],
    rejects with the string ["Could not read duration"] on [error]. *)
Definition getDuration (b : File) : prog State string :=
  Act (loadedmetadata b)
      (fun o => match o with
                | Resolve d => Ret (hhmmss d)
                | Reject _ => Throw (Bare "Could not read duration")
                end).

(** [handleFileChange]; the argument is [e.target.files?.[0] || null]. *)
Definition handleFileChange (f : option File) : prog State unit :=
  setFile f ;;
  setTranscriptTurns None ;;
  setError None ;;
  setStatusMessage EmptyString ;;
  setGeminiFileName None ;;
  setR2ObjectKey None ;;
  setAudioDuration None.

(** [changeNumSpeakers]; the argument is [e.target.value]. *)
Definition changeNumSpeakers (value : string) : prog State unit :=
  let n := JS.max1 (JS.parseInt (if JS.nonempty value then value else "1")) in
  setNumSpeakers n ;;
  upd (fun st => set_speakerNames (JS.resize n (speakerNames st)) st).

(** [handleSubmit].  The handler reads [file], [caseInfo],
    [specifySpeakers] and [speakerNames] from the render [s] it was created
    in; its setters act on the state current when they run. *)
Definition handleSubmit (s : State) : prog State unit :=
  match file s with
  | None => setError (Some "Choose a file first.")
  | Some f =>
    setIsProcessing true ;;
    setError None ;;
    setStatusMessage "Creating secure upload…" ;;
    finally
      (try
         (* 1: presign *)
         pre <- await (fetch (GET_generate_r2_presigned (name f) (type f))) ;;
         if negb (ok pre) then Throw (Error ("presign " ++ JS.toString (status pre))) else
         pj <- await (json pre) ;;
         (* 2: upload *)
         setStatusMessage "Uploading file…" ;;
         put <- await (fetch (PUT_upload (upload_url pj) (type f) f)) ;;
         if negb (ok put) then Throw (Error ("upload " ++ JS.toString (status put))) else
         (* 3: request transcript *)
         setStatusMessage "Requesting transcript…" ;;
         tr <- await (fetch (POST_transcribe
                 {| case_fields := caseInfo s;
                    speaker_names := if specifySpeakers s
                                     then Some (filter_trim (speakerNames s))
                                     else None |}
                 (part_r2_object_key (object_key pj)))) ;;
         tj <- await (json tr) ;;
         if negb (ok tr) then Throw (Error (JS.or_str (detail tj) (statusText tr))) else
         setTranscriptTurns (transcript_turns tj) ;;
         setGeminiFileName (gemini_file_name tj) ;;
         setR2ObjectKey (JS.or (r2_object_key tj) (object_key pj)) ;;
         (* 4: duration *)
         setStatusMessage "Calculating duration…" ;;
         d <- getDuration f ;;
         setAudioDuration (Some d) ;;
         setStatusMessage "Transcription complete!"
       catch (fun err =>
         setError (Some (message_of err)) ;;
         setStatusMessage EmptyString))
      (setIsProcessing false)
  end.

(** [cleanupFiles], the release operation. *)
Definition cleanupFiles (s : State) : prog State unit :=
  if negb (JS.truthy (geminiFileName s)) && negb (JS.truthy (r2ObjectKey s))
  then Ret tt
  else
    setStatusMessage "Cleaning up…" ;;
    try
      (if JS.truthy (geminiFileName s) && JS.truthy (r2ObjectKey s) then
         _ <- await (fetch (POST_cleanup (JS.or_str (geminiFileName s) EmptyString)
                                         (r2ObjectKey s))) ;; Ret tt
       else if JS.truthy (geminiFileName s) then
         _ <- await (fetch (POST_cleanup (JS.or_str (geminiFileName s) EmptyString) None)) ;; Ret tt
       else if JS.truthy (r2ObjectKey s) then
         _ <- await (fetch (POST_cleanup_r2 (JS.or_str (r2ObjectKey s) EmptyString))) ;; Ret tt
       else Ret tt) ;;
      setGeminiFileName None ;;
      setR2ObjectKey None ;;
      setStatusMessage "Temporary files deleted."
    catch (fun _ =>
      setStatusMessage "Cleanup attempted (see server logs for details).").

(** [handleDownloadDocx], the document export. *)
Definition handleDownloadDocx (s : State) : prog State unit :=
  match transcriptTurns s, JS.truthy (geminiFileName s) with
  | Some turns, true =>
    setIsProcessing true ;;
    setStatusMessage "Generating DOCX…" ;;
    finally
      (try
         resp <- await (fetch (POST_generate_docx
                   {| docx_gemini_file_name := JS.or_str (geminiFileName s) EmptyString;
                      docx_title_data :=
                        {| title_case := caseInfo s;
                           FILE_NAME := JS.or_str (option_map name (file s)) "file";
                           FILE_DURATION := JS.or_str (audioDuration s) "N/A" |};
                      docx_transcript_turns := turns |})) ;;
         (if negb (ok resp) then
            d <- await_catch (json resp) empty_json ;;
            Throw (Error (JS.or_str (detail d) (statusText resp)))
          else Ret tt) ;;
         b <- await (blob resp) ;;
         _ <- await (download (default_download_name (file s)) b) ;;
         setStatusMessage "DOCX downloaded."
       catch (fun err =>
         setError (Some (JS.or_str (Some (message_of err)) "Download failed")) ;;
         setStatusMessage EmptyString))
      (setIsProcessing false)
  | _, _ => setError (Some "Nothing to download.")
  end.

End Presigned.

(* ===================================================================== *)
(** ** Transcoding variant: src/unnamed/part_000, first component          *)
(* ===================================================================== *)

Module Transcoding.
Local Open Scope prog_scope.

Record State : Type := {
  file : option File;
  caseInfo : CaseInfo;
  specifySpeakers : bool;
  numSpeakers : JS.num;
  speakerNames : list string;
  isProcessing : bool;
  transcriptTurns : option (list TranscriptTurn);
  error : option string;
  statusMessage : string;
  geminiFileName : option string;
  audioDuration : option string;
  ffmpegLoaded : bool
}.

Definition init : State :=
  {| file := None;
     caseInfo := {| case_name := None; case_number := None; firm_name := None;
                    input_date := None; input_time := None; location := None |};
     specifySpeakers := false; numSpeakers := JS.Num 1; speakerNames := [EmptyString];
     isProcessing := false; transcriptTurns := None; error := None;
     statusMessage := EmptyString; geminiFileName := None; audioDuration := None;
     ffmpegLoaded := false |}.

Definition set_file v (s : State) : State :=
  {| file := v; caseInfo := caseInfo s; specifySpeakers := specifySpeakers s;
     numSpeakers := numSpeakers s; speakerNames := speakerNames s;
     isProcessing := isProcessing s; transcriptTurns := transcriptTurns s;
     error := error s; statusMessage := statusMessage s;
     geminiFileName := geminiFileName s; audioDuration := audioDuration s;
     ffmpegLoaded := ffmpegLoaded s |}.
Definition set_numSpeakers v (s : State) : State :=
  {| file := file s; caseInfo := caseInfo s; specifySpeakers := specifySpeakers s;
     numSpeakers := v; speakerNames := speakerNames s;
     isProcessing := isProcessing s; transcriptTurns := transcriptTurns s;
     error := error s; statusMessage := statusMessage s;
     geminiFileName := geminiFileName s; audioDuration := audioDuration s;
     ffmpegLoaded := ffmpegLoaded s |}.
Definition set_speakerNames v (s : State) : State :=
  {| file := file s; caseInfo := caseInfo s; specifySpeakers := specifySpeakers s;
     numSpeakers := numSpeakers s; speakerNames := v;
     isProcessing := isProcessing s; transcriptTurns := transcriptTurns s;
     error := error s; statusMessage := statusMessage s;
     geminiFileName := geminiFileName s; audioDuration := audioDuration s;
     ffmpegLoaded := ffmpegLoaded s |}.
Definition set_isProcessing v (s : State) : State :=
  {| file := file s; caseInfo := caseInfo s; specifySpeakers := specifySpeakers s;
     numSpeakers := numSpeakers s; speakerNames := speakerNames s;
     isProcessing := v; transcriptTurns := transcriptTurns s;
     error := error s; statusMessage := statusMessage s;
     geminiFileName := geminiFileName s; audioDuration := audioDuration s;
     ffmpegLoaded := ffmpegLoaded s |}.
Definition set_transcriptTurns v (s : State) : State :=
  {| file := file s; caseInfo := caseInfo s; specifySpeakers := specifySpeakers s;
     numSpeakers := numSpeakers s; speakerNames := speakerNames s;
     isProcessing := isProcessing s; transcriptTurns := v;
     error := error s; statusMessage := statusMessage s;
     geminiFileName := geminiFileName s; audioDuration := audioDuration s;
     ffmpegLoaded := ffmpegLoaded s |}.
Definition set_error v (s : State) : State :=
  {| file := file s; caseInfo := caseInfo s; specifySpeakers := specifySpeakers s;
     numSpeakers := numSpeakers s; speakerNames := speakerNames s;
     isProcessing := isProcessing s; transcriptTurns := transcriptTurns s;
     error := v; statusMessage := statusMessage s;
     geminiFileName := geminiFileName s; audioDuration := audioDuration s;
     ffmpegLoaded := ffmpegLoaded s |}.
Definition set_statusMessage v (s : State) : State :=
  {| file := file s; caseInfo := caseInfo s; specifySpeakers := specifySpeakers s;
     numSpeakers := numSpeakers s; speakerNames := speakerNames s;
     isProcessing := isProcessing s; transcriptTurns := transcriptTurns s;
     error := error s; statusMessage := v;
     geminiFileName := geminiFileName s; audioDuration := audioDuration s;
     ffmpegLoaded := ffmpegLoaded s |}.
Definition set_geminiFileName v (s : State) : State :=
  {| file := file s; caseInfo := caseInfo s; specifySpeakers := specifySpeakers s;
     numSpeakers := numSpeakers s; speakerNames := speakerNames s;
     isProcessing := isProcessing s; transcriptTurns := transcriptTurns s;
     error := error s; statusMessage := statusMessage s;
     geminiFileName := v; audioDuration := audioDuration s;
     ffmpegLoaded := ffmpegLoaded s |}.
Definition set_audioDuration v (s : State) : State :=
  {| file := file s; caseInfo := caseInfo s; specifySpeakers := specifySpeakers s;
     numSpeakers := numSpeakers s; speakerNames := speakerNames s;
     isProcessing := isProcessing s; transcriptTurns := transcriptTurns s;
     error := error s; statusMessage := statusMessage s;
     geminiFileName := geminiFileName s; audioDuration := v;
     ffmpegLoaded := ffmpegLoaded s |}.

Definition setFile v : prog State unit := upd (set_file v).
Definition setNumSpeakers v : prog State unit := upd (set_numSpeakers v).
Definition setIsProcessing v : prog State unit := upd (set_isProcessing v).
Definition setTranscriptTurns v : prog State unit := upd (set_transcriptTurns v).
Definition setError v : prog State unit := upd (set_error v).
Definition setStatusMessage v : prog State unit := upd (set_statusMessage v).
Definition setGeminiFileName v : prog State unit := upd (set_geminiFileName v).
Definition setAudioDuration v : prog State unit := upd (set_audioDuration v).

(** [handleFileChange]; the argument is [event.target.files?.[0]]. *)
Definition handleFileChange (selectedFile : option File) : prog State unit :=
  match selectedFile with
  | Some f =>
      setFile (Some f) ;;
      setTranscriptTurns None ;;
      setError None ;;
      setStatusMessage EmptyString ;;
      setGeminiFileName None ;;
      setAudioDuration None
  | None => Ret tt
  end.

(** [handleNumSpeakersChange]; the argument is [event.target.value]. *)
Definition handleNumSpeakersChange (value : string) : prog State unit :=
  let count := JS.or1 (JS.parseInt value) in
  setNumSpeakers count ;;
  upd (fun st => set_speakerNames (JS.resize count (speakerNames st)) st).

(** The duration probe: its failure is caught on the spot
    ([console.error] only). *)
Definition probe_args (inputFileName : string) : list string :=
  ["-i"; inputFileName; "-show_entries"; "format=duration"; "-of";
   "default=noprint_wrappers=1:nokey=1"; "-v"; "error"; "-sexagesimal"].

Definition probe (inputFileName : string) : prog State unit :=
  try await (ffmpeg_exec (probe_args inputFileName))
  catch (fun probeErr => Ret tt).

(** [handleSubmit] *)
Definition handleSubmit (s : State) : prog State unit :=
  match file s with
  | None => setError (Some "Please select a file first.")
  | Some f =>
    setIsProcessing true ;;
    setError None ;;
    setTranscriptTurns None ;;
    setStatusMessage "Starting process..." ;;
    setGeminiFileName None ;;
    setAudioDuration None ;;
    let calculatedDuration : option string := None in
    finally
      (try
         (* 1. file input and conversion *)
         audioBlob <-
           (if prefix "video/" (type f) then
              if negb (ffmpegLoaded s)
              then Throw (Error "FFmpeg not loaded. Cannot convert video.")
              else
                setStatusMessage "Converting video to MP3 audio..." ;;
                let inputFileName :=
                  "input." ++ JS.or_str (Some (JS.last_segment (name f))) "mp4" in
                let outputFileName := "output.mp3" in
                d0 <- await (fetchFile f) ;;
                _ <- await (ffmpeg_writeFile inputFileName d0) ;;
                _ <- await (ffmpeg_exec
                       ["-i"; inputFileName; "-vn"; "-acodec"; "libmp3lame"; "-ab";
                        "192k"; "-async"; "1"; "-loglevel"; "error"; outputFileName]) ;;
                setStatusMessage "Reading converted audio..." ;;
                data <- await (ffmpeg_readFile outputFileName) ;;
                d1 <- await (fetchFile f) ;;
                _ <- await (ffmpeg_writeFile inputFileName d1) ;;
                probe inputFileName ;;
                setStatusMessage "Video converted successfully." ;;
                Ret (Mp3 data)
            else if prefix "audio/" (type f) then
              setStatusMessage "Processing audio file..." ;;
              (if ffmpegLoaded s then
                 let inputFileName :=
                   "input." ++ JS.or_str (Some (JS.last_segment (name f))) "mp3" in
                 d0 <- await (fetchFile f) ;;
                 _ <- await (ffmpeg_writeFile inputFileName d0) ;;
                 probe inputFileName
               else Ret tt) ;;
              Ret (OfFile f)
            else Throw (Error ("Unsupported file type: " ++ type f))) ;;
         setAudioDuration calculatedDuration ;;
         (* 2. form data *)
         setStatusMessage "Preparing data for upload..." ;;
         let requestData :=
           {| case_fields := caseInfo s;
              speaker_names := if specifySpeakers s
                               then Some (filter_name_and_trim (speakerNames s))
                               else None |} in
         (* 3. transcribe *)
         setStatusMessage "Uploading audio and requesting transcript..." ;;
         response <- await (fetch (POST_transcribe requestData (part_audio_file audioBlob))) ;;
         (if negb (ok response) then
            errorData <- await_catch (json response)
                           {| detail := Some (statusText response); upload_url := None;
                              object_key := None; transcript_turns := None;
                              gemini_file_name := None; r2_object_key := None |} ;;
            Throw (Error ("API Error (" ++ JS.toString (status response) ++ "): "
                          ++ JS.or_str (detail errorData) "Unknown error"))
          else Ret tt) ;;
         result <- await (json response) ;;
         (* 4. response *)
         setTranscriptTurns (transcript_turns result) ;;
         setGeminiFileName (gemini_file_name result) ;;
         setStatusMessage "Transcription complete!"
       catch (fun err =>
         setError (Some (JS.or_str (dot_message err) "An unexpected error occurred.")) ;;
         setStatusMessage EmptyString))
      (setIsProcessing false)
  end.

(** [handleDownloadDocx] *)
Definition handleDownloadDocx (s : State) : prog State unit :=
  match transcriptTurns s, JS.truthy (geminiFileName s) with
  | Some turns, true =>
    setError None ;;
    setStatusMessage "Generating DOCX..." ;;
    setIsProcessing true ;;
    finally
      (try
         let titleData :=
           {| title_case := caseInfo s;
              FILE_NAME := JS.or_str (option_map name (file s)) "unknown_file";
              FILE_DURATION := JS.or_str (audioDuration s) "N/A" |} in
         response <- await (fetch (POST_generate_docx
                       {| docx_gemini_file_name := JS.or_str (geminiFileName s) EmptyString;
                          docx_title_data := titleData;
                          docx_transcript_turns := turns |})) ;;
         (if negb (ok response) then
            errorData <- await_catch (json response)
                           {| detail := Some (statusText response); upload_url := None;
                              object_key := None; transcript_turns := None;
                              gemini_file_name := None; r2_object_key := None |} ;;
            Throw (Error ("API Error (" ++ JS.toString (status response) ++ "): "
                          ++ JS.or_str (detail errorData) "Failed to generate DOCX"))
          else Ret tt) ;;
         b <- await (blob response) ;;
         _ <- await (download (downloadFilename (file s) (content_disposition response)) b) ;;
         setStatusMessage "DOCX downloaded successfully."
       catch (fun err =>
         setError (Some (JS.or_str (dot_message err) "Failed to download DOCX.")) ;;
         setStatusMessage EmptyString))
      (setIsProcessing false)
  | _, _ =>
    setError (Some "No transcript available to download or missing file identifier.")
  end.

End Transcoding.

(* ===================================================================== *)
(** ** Restyled variant: src/unnamed/part_000, second component            *)
(* ===================================================================== *)

Module Restyled.

(** [handleNumSpeakersChange], as the pair of what it gives [setNumSpeakers]
    and what its updater makes of [speakerNames]. *)
Definition handleNumSpeakersChange (value : string) (prev : list string)
  : JS.num * list string :=
  let n := JS.max1 (JS.or1 (JS.parseInt value)) in
  (n, JS.resize n prev).

End Restyled.

(* ===================================================================== *)
(** ** The vocabulary of the specification                                 *)
(* ===================================================================== *)

(** A blank identifier: nothing but white space (the empty one included). *)
Definition blank (s : string) : bool :=
  forallb JS.is_space (list_ascii_of_string s).

(** The stem of a display name: what precedes its first dot. *)
Fixpoint stem (name : string) : string :=
  match name with
  | EmptyString => EmptyString
  | String c r => if Ascii.eqb c "." then EmptyString else String c (stem r)
  end.

(** A second count rendered as [HH:MM:SS]: [floor(s/3600)] hours,
    [floor(s/60) mod 60] minutes and [floor(s) mod 60] seconds, each padded
    with zeros to two digits. *)
Definition HH_MM_SS (s : Q) : string :=
  JS.padStart0 2 (JS.toString (Qfloor s / 3600)) ++ ":" ++
  JS.padStart0 2 (JS.toString ((Qfloor s / 60) mod 60)) ++ ":" ++
  JS.padStart0 2 (JS.toString (Qfloor s mod 60)).

(** The count invariant: the stored list is as long as the declared count. *)
Definition count_invariant (numSpeakers : JS.num) (speakerNames : list string) : Prop :=
  numSpeakers = JS.Num (Z.of_nat (List.length speakerNames)).

(** What a handler may send, whatever the answers: [P] holds of every
    action of the tree. *)
Fixpoint sends_only (St A : Type) (P : forall R, Action R -> Prop) (p : prog St A) : Prop :=
  match p with
  | Ret _ | Throw _ => True
  | Upd _ k => sends_only P k
  | Act a k => P _ a /\ forall o, sends_only P (k o)
  end.

Definition logged_only (P : forall R, Action R -> Prop) (e : Event) : Prop :=
  match e with
  | Ev a _ => P _ a
  end.

(** The [speaker_names] field of a submission to the transcription
    endpoint; other actions carry none. *)
Definition speaker_names_sent (R : Type) (a : Action R) : option (option (list string)) :=
  match a with
  | fetch (POST_transcribe rd _) => Some (speaker_names rd)
  | _ => None
  end.

(** What the specification asks of a submitted [speaker_names]: [null]
    under generic labelling, otherwise the identifiers that are not blank,
    in their order. *)
Definition speaker_names_as_specified (specify : bool) (names : list string)
    (R : Type) (a : Action R) : Prop :=
  match speaker_names_sent a with
  | None => True
  | Some field =>
      field = (if specify then Some (filter (fun n => negb (blank n)) names) else None) /\
      forall l, field = Some l -> Forall (fun n => blank n = false) l
  end.

(** The session fields other than the error message are those of [s]. *)
Definition Presigned_frame (s s' : Presigned.State) : Prop :=
  Presigned.file s' = Presigned.file s /\
  Presigned.caseInfo s' = Presigned.caseInfo s /\
  Presigned.specifySpeakers s' = Presigned.specifySpeakers s /\
  Presigned.numSpeakers s' = Presigned.numSpeakers s /\
  Presigned.speakerNames s' = Presigned.speakerNames s /\
  Presigned.isProcessing s' = Presigned.isProcessing s /\
  Presigned.statusMessage s' = Presigned.statusMessage s /\
  Presigned.transcriptTurns s' = Presigned.transcriptTurns s /\
  Presigned.geminiFileName s' = Presigned.geminiFileName s /\
  Presigned.r2ObjectKey s' = Presigned.r2ObjectKey s /\
  Presigned.audioDuration s' = Presigned.audioDuration s.

Definition Transcoding_frame (s s' : Transcoding.State) : Prop :=
  Transcoding.file s' = Transcoding.file s /\
  Transcoding.caseInfo s' = Transcoding.caseInfo s /\
  Transcoding.specifySpeakers s' = Transcoding.specifySpeakers s /\
  Transcoding.numSpeakers s' = Transcoding.numSpeakers s /\
  Transcoding.speakerNames s' = Transcoding.speakerNames s /\
  Transcoding.isProcessing s' = Transcoding.isProcessing s /\
  Transcoding.statusMessage s' = Transcoding.statusMessage s /\
  Transcoding.transcriptTurns s' = Transcoding.transcriptTurns s /\
  Transcoding.geminiFileName s' = Transcoding.geminiFileName s /\
  Transcoding.audioDuration s' = Transcoding.audioDuration s /\
  Transcoding.ffmpegLoaded s' = Transcoding.ffmpegLoaded s.

(** *** Sample inputs *)

Definition recording : File :=
  {| name := "hearing.mp3"; type := "audio/mpeg"; content := "ID3" |}.

Definition other_recording : File :=
  {| name := "deposition.mp4"; type := "video/mp4"; content := "ftyp" |}.

Definition response_200 : Response :=
  {| ok := true; status := 200; statusText := "OK"; content_disposition := None |}.

Definition response_500 : Response :=
  {| ok := false; status := 500; statusText := "Internal Server Error";
     content_disposition := None |}.

Definition response_named : Response :=
  {| ok := true; status := 200; statusText := "OK";
     content_disposition := Some "attachment; filename=report.docx" |}.

Definition sample_turns : list TranscriptTurn :=
  [ {| speaker := "SPEAKER 1"; text := "Good morning." |};
    {| speaker := "SPEAKER 2"; text := "Good morning, counsel." |} ].

Definition sample_body : JsonBody :=
  {| detail := None; upload_url := Some "https://r2.example/put";
     object_key := Some "uploads/hearing.mp3";
     transcript_turns := Some sample_turns;
     gemini_file_name := Some "files/abc123"; r2_object_key := None |}.

Definition error_body : JsonBody :=
  {| detail := Some "Transcription failed"; upload_url := None; object_key := None;
     transcript_turns := None; gemini_file_name := None; r2_object_key := None |}.

(** Everything succeeds; the recording lasts two and a half minutes. *)
Definition env_ok : Env := fun _ R a =>
  match a in Action R return outcome R with
  | fetch _ => Resolve response_200
  | json _ => Resolve sample_body
  | blob _ => Resolve "PK"
  | loadedmetadata _ => Resolve (inject_Z 150)
  | download _ _ => Resolve tt
  | fetchFile f => Resolve (content f)
  | ffmpeg_writeFile _ _ => Resolve tt
  | ffmpeg_exec _ => Resolve tt
  | ffmpeg_readFile _ => Resolve "MP3"
  end.

(** The same, except that the audio element cannot read the file. *)
Definition env_no_duration : Env := fun tr R a =>
  match a in Action R return outcome R with
  | loadedmetadata _ => Reject (Bare "error")
  | a' => env_ok tr a'
  end.

(** The network is down: every fetch rejects. *)
Definition env_offline : Env := fun tr R a =>
  match a in Action R return outcome R with
  | fetch _ => Reject (Error "Failed to fetch")
  | a' => env_ok tr a'
  end.

(** The transcription endpoint answers 500 with a detail; the staging
    endpoints succeed. *)
Definition env_transcribe_500 : Env := fun tr R a =>
  match a in Action R return outcome R with
  | fetch (POST_transcribe _ _) => Resolve response_500
  | json r => if ok r then Resolve sample_body else Resolve error_body
  | a' => env_ok tr a'
  end.

(** The export endpoint names the document. *)
Definition env_named : Env := fun tr R a =>
  match a in Action R return outcome R with
  | fetch (POST_generate_docx _) => Resolve response_named
  | a' => env_ok tr a'
  end.

Definition Presigned_selected : Presigned.State :=
  Presigned.set_file (Some recording) Presigned.init.

Definition Presigned_ready : Presigned.State :=
  final env_ok (Presigned.handleSubmit Presigned_selected) Presigned_selected.

Definition Transcoding_selected : Transcoding.State :=
  Transcoding.set_file (Some recording) Transcoding.init.

Definition Transcoding_ready : Transcoding.State :=
  final env_ok (Transcoding.handleSubmit Transcoding_selected) Transcoding_selected.

(** *** Release *)

Definition resolved (e : Event) : bool :=
  match e with
  | Ev _ (Resolve _) => true
  | Ev _ (Reject _) => false
  end.

(** A release: one invocation of [cleanupFiles] by the render [s].  And
    the [cleanupFiles] of the render that follows, invoked in its turn, as
    the clean-up button does when it is clicked again.  What the effect of the
    page does on its own after a release is [Presigned_commit]. *)
Definition release (env : Env) (s : Presigned.State) : Presigned.State * list Event :=
  fst (run env (Presigned.cleanupFiles s) s []).

Definition release_again (env : Env) (s : Presigned.State)
  : Presigned.State * list Event :=
  let '(s1, tr1) := release env s in
  fst (run env (Presigned.cleanupFiles s1) s1 tr1).

(** After a release attempt both handles are cleared and a repeated release
    adds no network effect. *)
Definition release_clears_handles (env : Env) (s : Presigned.State) : Prop :=
  Presigned.geminiFileName (fst (release env s)) = None /\
  Presigned.r2ObjectKey (fst (release env s)) = None /\
  network_calls (snd (release_again env s)) = network_calls (snd (release env s)).

(** *** Replacing the asset while a run is in flight *)

(** The run of [handleSubmit] started in [s], after [n] of its awaited
    actions have settled. *)
Definition submitted (env : Env) (n : nat) (s : Presigned.State)
  : Presigned.State * list Event * prog Presigned.State unit :=
  run_steps env n (Presigned.handleSubmit s) s [].

Definition in_flight (env : Env) (n : nat) (s : Presigned.State) : bool :=
  suspended (snd (submitted env n s)).

(** The user then picks [f']: the session right after [handleFileChange]. *)
Definition replaced (env : Env) (n : nat) (f' : option File) (s : Presigned.State)
  : Presigned.State :=
  final env (Presigned.handleFileChange f') (fst (fst (submitted env n s))).

(** The suspended run then resumes and runs to its end. *)
Definition late_completion (env : Env) (n : nat) (f' : option File)
    (s : Presigned.State) : Presigned.State * list Event :=
  fst (run env (snd (submitted env n s)) (replaced env n f' s)
           (snd (fst (submitted env n s)))).

(** The session after replacement is idle. *)
Definition idle (f' : option File) (s : Presigned.State) : Prop :=
  Presigned.file s = f' /\ Presigned.transcriptTurns s = None /\
  Presigned.geminiFileName s = None /\ Presigned.r2ObjectKey s = None /\
  Presigned.audioDuration s = None /\ Presigned.error s = None /\
  Presigned.statusMessage s = EmptyString.

(** The response of the superseded run is discarded: it changes nothing of
    the session the replacement left. *)
Definition discards_late_response (env : Env) (n : nat) (f' : option File)
    (s : Presigned.State) : Prop :=
  fst (late_completion env n f' s) = replaced env n f' s.

(** The late completion is applied: the session [fin] it leaves, with log
    [tr], against the session [fin0] and log [tr0] of the same run left
    alone.  The requests and the answers are the same, the outcome shown to
    the user is the same, and when the run succeeds and the replacement came
    before the transcription was stored ([n <= 4]), the transcript, the
    handles and the duration of the superseded run are stored next to the
    new file [f']. *)
Definition late_completion_applied (n : nat) (f' : option File)
    (late : Presigned.State * list Event) (alone : Presigned.State * list Event)
  : Prop :=
  let fin := fst late in
  let fin0 := fst alone in
  snd late = snd alone /\
  Presigned.file fin = f' /\
  Presigned.isProcessing fin = false /\
  Presigned.error fin = Presigned.error fin0 /\
  Presigned.statusMessage fin = Presigned.statusMessage fin0 /\
  (n <= 4 -> Presigned.error fin0 = None ->
   Presigned.transcriptTurns fin = Presigned.transcriptTurns fin0 /\
   Presigned.geminiFileName fin = Presigned.geminiFileName fin0 /\
   Presigned.r2ObjectKey fin = Presigned.r2ObjectKey fin0 /\
   Presigned.audioDuration fin = Presigned.audioDuration fin0).

(** *** Failure of the transcription request *)

(** In the log [tr] the transcription endpoint answered [resp], and reading
    the body of [resp] as JSON settled as [b]. *)
Definition transcription_answer (tr : list Event) (resp : Response)
    (b : outcome JsonBody) : Prop :=
  (exists rd part, In (Some (POST_transcribe rd part, Resolve resp)) (map fetch_of tr)) /\
  In (Some (resp, b)) (map json_of tr).

(** The message asked for: the service's detail when the body has one, the
    transport status text otherwise. *)
Definition claimed_message (resp : Response) (b : outcome JsonBody) : string :=
  match b with
  | Resolve tj =>
      match detail tj with
      | Some d => d
      | None => statusText resp
      end
  | Reject _ => statusText resp
  end.

Definition failure_message_as_claimed (tr : list Event) (err : option string) : Prop :=
  forall resp b,
    transcription_answer tr resp b -> ok resp = false ->
    err = Some (claimed_message resp b).

(** *** Export *)

(** In the log [tr] the export endpoint answered [resp] and the body of
    [resp] was read in full: the export succeeded. *)
Definition export_answer (tr : list Event) (resp : Response) : Prop :=
  (exists body, In (Some (POST_generate_docx body, Resolve resp)) (map fetch_of tr)) /\
  (exists data, In (Some (resp, Resolve data)) (map blob_of tr)) /\
  ok resp = true.

(** A file name free of quotes and line breaks. *)
Definition plain_name (n : string) : bool :=
  forallb (fun c => negb (is_quote c || Ascii.eqb c LF || Ascii.eqb c CR))
          (list_ascii_of_string n).

(** The header a service sends to name the attachment [n]. *)
Definition attachment_named (n : string) : string :=
  "attachment; filename=" ++ String DQUOTE (n ++ String DQUOTE EmptyString).

(* ===================================================================== *)
(** ** The rest of the pages: case fields, controls, readings of a log     *)
(* ===================================================================== *)

(** The [name] attributes of the six case inputs, which are the keys
    [handleCaseChange] (page.tsx) and [handleCaseInfoChange] (transcoding
    variant) can write: [setCaseInfo((p) => ({ ...p, [name]: value }))]. *)
Inductive CaseKey : Type :=
| key_case_name
| key_case_number
| key_firm_name
| key_input_date
| key_input_time
| key_location.

(** [p[name]] *)
Definition case_get (k : CaseKey) (p : CaseInfo) : option string :=
  match k with
  | key_case_name => case_name p
  | key_case_number => case_number p
  | key_firm_name => firm_name p
  | key_input_date => input_date p
  | key_input_time => input_time p
  | key_location => location p
  end.

(** [{ ...p, [name]: value }] *)
Definition case_put (k : CaseKey) (value : string) (p : CaseInfo) : CaseInfo :=
  match k with
  | key_case_name =>
      {| case_name := Some value; case_number := case_number p; firm_name := firm_name p;
         input_date := input_date p; input_time := input_time p; location := location p |}
  | key_case_number =>
      {| case_name := case_name p; case_number := Some value; firm_name := firm_name p;
         input_date := input_date p; input_time := input_time p; location := location p |}
  | key_firm_name =>
      {| case_name := case_name p; case_number := case_number p; firm_name := Some value;
         input_date := input_date p; input_time := input_time p; location := location p |}
  | key_input_date =>
      {| case_name := case_name p; case_number := case_number p; firm_name := firm_name p;
         input_date := Some value; input_time := input_time p; location := location p |}
  | key_input_time =>
      {| case_name := case_name p; case_number := case_number p; firm_name := firm_name p;
         input_date := input_date p; input_time := Some value; location := location p |}
  | key_location =>
      {| case_name := case_name p; case_number := case_number p; firm_name := firm_name p;
         input_date := input_date p; input_time := input_time p; location := Some value |}
  end.

Definition Presigned_set_caseInfo (v : CaseInfo) (s : Presigned.State) : Presigned.State :=
  {| Presigned.file := Presigned.file s; Presigned.caseInfo := v;
     Presigned.specifySpeakers := Presigned.specifySpeakers s;
     Presigned.numSpeakers := Presigned.numSpeakers s;
     Presigned.speakerNames := Presigned.speakerNames s;
     Presigned.isProcessing := Presigned.isProcessing s;
     Presigned.statusMessage := Presigned.statusMessage s;
     Presigned.error := Presigned.error s;
     Presigned.transcriptTurns := Presigned.transcriptTurns s;
     Presigned.geminiFileName := Presigned.geminiFileName s;
     Presigned.r2ObjectKey := Presigned.r2ObjectKey s;
     Presigned.audioDuration := Presigned.audioDuration s |}.

(** [handleCaseChange] of page.tsx; the arguments are [e.target.name] and
    [e.target.value]. *)
Definition Presigned_handleCaseChange (k : CaseKey) (value : string)
  : prog Presigned.State unit :=
  upd (fun st => Presigned_set_caseInfo (case_put k value (Presigned.caseInfo st)) st).

(** The controls of page.tsx.  The submit button has
    [disabled={!file || isProcessing}]; the transcript block is rendered
    under [transcriptTurns &&]; in it the download button has
    [disabled={isProcessing || !geminiFileName}] and the clean-up button is
    rendered under [(geminiFileName || r2ObjectKey) &&] with
    [disabled={isProcessing}]. *)
Definition is_some (A : Type) (o : option A) : bool :=
  match o with
  | Some _ => true
  | None => false
  end.

Definition Presigned_submit_enabled (s : Presigned.State) : bool :=
  negb (negb (is_some (Presigned.file s)) || Presigned.isProcessing s).

Definition Presigned_download_enabled (s : Presigned.State) : bool :=
  is_some (Presigned.transcriptTurns s) &&
  negb (Presigned.isProcessing s || negb (JS.truthy (Presigned.geminiFileName s))).

Definition Presigned_cleanup_enabled (s : Presigned.State) : bool :=
  is_some (Presigned.transcriptTurns s) &&
  (JS.truthy (Presigned.geminiFileName s) || JS.truthy (Presigned.r2ObjectKey s)) &&
  negb (Presigned.isProcessing s).

(** The controls of the transcoding variant: the same submit button; the
    transcript block is rendered under
    [transcriptTurns && transcriptTurns.length > 0], with the same download
    button in it. *)
Definition Transcoding_submit_enabled (s : Transcoding.State) : bool :=
  negb (negb (is_some (Transcoding.file s)) || Transcoding.isProcessing s).

Definition Transcoding_download_enabled (s : Transcoding.State) : bool :=
  match Transcoding.transcriptTurns s with
  | Some turns => (0 <? List.length turns)%nat
  | None => false
  end &&
  negb (Transcoding.isProcessing s || negb (JS.truthy (Transcoding.geminiFileName s))).

(** The endpoints a log called, in order. *)
Inductive Endpoint : Type :=
| generate_r2_presigned
| upload
| transcribe
| cleanup
| cleanup_r2
| generate_docx.

Definition endpoint_of (r : Request) : Endpoint :=
  match r with
  | GET_generate_r2_presigned _ _ => generate_r2_presigned
  | PUT_upload _ _ _ => upload
  | POST_transcribe _ _ => transcribe
  | POST_cleanup _ _ => cleanup
  | POST_cleanup_r2 _ => cleanup_r2
  | POST_generate_docx _ => generate_docx
  end.

Fixpoint endpoints (tr : list Event) : list Endpoint :=
  match tr with
  | [] => []
  | e :: rest =>
      match fetch_of e with
      | Some (r, _) => endpoint_of r :: endpoints rest
      | None => endpoints rest
      end
  end.

(** The JSON bodies a log read, and the durations it probed, in order. *)
Fixpoint json_bodies (tr : list Event) : list JsonBody :=
  match tr with
  | [] => []
  | e :: rest =>
      match json_of e with
      | Some (_, Resolve b) => b :: json_bodies rest
      | _ => json_bodies rest
      end
  end.

Fixpoint durations (tr : list Event) : list Q :=
  match tr with
  | [] => []
  | e :: rest =>
      match metadata_of e with
      | Some (_, Resolve d) => d :: durations rest
      | _ => durations rest
      end
  end.

(** What an action submits to the transcription and to the export
    endpoint. *)
Definition transcribe_sent (R : Type) (a : Action R) : option (RequestData * Payload) :=
  match a with
  | fetch (POST_transcribe rd part) => Some (rd, part)
  | _ => None
  end.

Definition docx_sent (R : Type) (a : Action R) : option DocxRequest :=
  match a with
  | fetch (POST_generate_docx body) => Some body
  | _ => None
  end.

(** The requests a log sent, in order. *)
Fixpoint requests (tr : list Event) : list Request :=
  match tr with
  | [] => []
  | e :: rest =>
      match fetch_of e with
      | Some (r, _) => r :: requests rest
      | None => requests rest
      end
  end.

(** An action that, if it submits to the transcription, submits the case
    fields [c]. *)
Definition carries_case (c : CaseInfo) (R : Type) (a : Action R) : Prop :=
  match transcribe_sent a with
  | Some (rd, _) => case_fields rd = c
  | None => True
  end.

(** An action that, if it submits to the export, submits the case fields
    [c], the transcript [turns] and the handle [handle]. *)
Definition exports_held (c : CaseInfo) (turns : option (list TranscriptTurn))
    (handle : option string) (R : Type) (a : Action R) : Prop :=
  match docx_sent a with
  | Some b =>
      title_case (docx_title_data b) = c /\
      turns = Some (docx_transcript_turns b) /\
      handle = Some (docx_gemini_file_name b)
  | None => True
  end.

(** An action that, if it submits to the export, titles the document with
    the duration [N/A]. *)
Definition titled_without_duration (R : Type) (a : Action R) : Prop :=
  match docx_sent a with
  | Some b => FILE_DURATION (docx_title_data b) = "N/A"
  | None => True
  end.

(** An action that, if it submits to the transcription, submits [v] under
    the case key [k]. *)
Definition carries_case_value (k : CaseKey) (v : string) (R : Type) (a : Action R)
  : Prop :=
  match transcribe_sent a with
  | Some (rd, _) => case_get k (case_fields rd) = Some v
  | None => True
  end.

(** The engine of the transcoding variant is touched by these actions. *)
Definition uses_engine (e : Event) : bool :=
  match e with
  | Ev (ffmpeg_writeFile _ _) _ => true
  | Ev (ffmpeg_exec _) _ => true
  | Ev (ffmpeg_readFile _) _ => true
  | Ev _ _ => false
  end.

(** The commands the engine ran and the files read back from it. *)
Definition exec_of (e : Event) : option (list string * outcome unit) :=
  match e with
  | Ev (ffmpeg_exec args) o => Some (args, o)
  | Ev _ _ => None
  end.

Definition readFile_of (e : Event) : option (string * outcome string) :=
  match e with
  | Ev (ffmpeg_readFile path) o => Some (path, o)
  | Ev _ _ => None
  end.

(** A file name that can stand unquoted in a header: no quote, no semicolon,
    no line feed. *)
Definition token_name (n : string) : bool :=
  forallb (fun c => negb (is_quote c || Ascii.eqb c ";" || Ascii.eqb c LF))
          (list_ascii_of_string n).

(** The cells a release or an export has no business with. *)
Definition Presigned_keeps_work (s s' : Presigned.State) : Prop :=
  Presigned.file s' = Presigned.file s /\
  Presigned.caseInfo s' = Presigned.caseInfo s /\
  Presigned.specifySpeakers s' = Presigned.specifySpeakers s /\
  Presigned.numSpeakers s' = Presigned.numSpeakers s /\
  Presigned.speakerNames s' = Presigned.speakerNames s /\
  Presigned.transcriptTurns s' = Presigned.transcriptTurns s /\
  Presigned.audioDuration s' = Presigned.audioDuration s.

Definition Transcoding_keeps_work (s s' : Transcoding.State) : Prop :=
  Transcoding.file s' = Transcoding.file s /\
  Transcoding.caseInfo s' = Transcoding.caseInfo s /\
  Transcoding.specifySpeakers s' = Transcoding.specifySpeakers s /\
  Transcoding.numSpeakers s' = Transcoding.numSpeakers s /\
  Transcoding.speakerNames s' = Transcoding.speakerNames s /\
  Transcoding.transcriptTurns s' = Transcoding.transcriptTurns s /\
  Transcoding.geminiFileName s' = Transcoding.geminiFileName s /\
  Transcoding.audioDuration s' = Transcoding.audioDuration s /\
  Transcoding.ffmpegLoaded s' = Transcoding.ffmpegLoaded s.

(** *** More sample inputs *)

Definition video_selected : Transcoding.State :=
  Transcoding.set_file (Some other_recording) Transcoding.init.

Definition spreadsheet : File :=
  {| name := "exhibits.csv"; type := "text/csv"; content := "a,b" |}.

Definition spreadsheet_selected : Transcoding.State :=
  Transcoding.set_file (Some spreadsheet) Transcoding.init.

(** The engine has loaded, and an audio file is selected. *)
Definition engine_loaded : Transcoding.State :=
  {| Transcoding.file := Some recording;
     Transcoding.caseInfo := Transcoding.caseInfo Transcoding.init;
     Transcoding.specifySpeakers := false;
     Transcoding.numSpeakers := JS.Num 1;
     Transcoding.speakerNames := [EmptyString];
     Transcoding.isProcessing := false;
     Transcoding.transcriptTurns := None;
     Transcoding.error := None;
     Transcoding.statusMessage := "FFmpeg loaded.";
     Transcoding.geminiFileName := None;
     Transcoding.audioDuration := None;
     Transcoding.ffmpegLoaded := true |}.

(** The engine fails every command it is given. *)
Definition env_engine_fails : Env := fun tr R a =>
  match a in Action R return outcome R with
  | ffmpeg_exec _ => Reject (Error "ffmpeg exited with code 1")
  | a' => env_ok tr a'
  end.

(** The staging service refuses to presign. *)
Definition response_403 : Response :=
  {| ok := false; status := 403; statusText := "Forbidden"; content_disposition := None |}.

Definition env_presign_403 : Env := fun tr R a =>
  match a in Action R return outcome R with
  | fetch (GET_generate_r2_presigned _ _) => Resolve response_403
  | a' => env_ok tr a'
  end.

(** The upload to the presigned address is refused. *)
Definition env_upload_403 : Env := fun tr R a =>
  match a in Action R return outcome R with
  | fetch (PUT_upload _ _ _) => Resolve response_403
  | a' => env_ok tr a'
  end.

(** The export endpoint fails with a body that is not JSON. *)
Definition env_export_500 : Env := fun tr R a =>
  match a in Action R return outcome R with
  | fetch (POST_generate_docx _) => Resolve response_500
  | json _ => Reject (Error "Unexpected token < in JSON")
  | a' => env_ok tr a'
  end.

(* ===================================================================== *)
(** ** The page around the handlers: its effect, other handlers, bounds    *)
(* ===================================================================== *)

(** The effect of page.tsx,
    [useEffect(() => { return () => { if (geminiFileName || r2ObjectKey)
    cleanupFiles(); }; }, [geminiFileName, r2ObjectKey])].

    The destructor installed by the render [r] reads the handles of [r] and
    calls the [cleanupFiles] of [r]; the call is not awaited.  React runs it
    when the page is left, and also whenever a later render commits with
    other dependencies. *)
Definition Presigned_destructor (r : Presigned.State) : prog Presigned.State unit :=
  if JS.truthy (Presigned.geminiFileName r) || JS.truthy (Presigned.r2ObjectKey r)
  then Presigned.cleanupFiles r
  else Ret tt.

(** The comparison of the dependency arrays of two renders. *)
Definition same_handle (a b : option string) : bool :=
  match a, b with
  | Some x, Some y => String.eqb x y
  | None, None => true
  | _, _ => false
  end.

Definition same_deps (r s : Presigned.State) : bool :=
  same_handle (Presigned.geminiFileName r) (Presigned.geminiFileName s) &&
  same_handle (Presigned.r2ObjectKey r) (Presigned.r2ObjectKey s).

(** The render of the session [s] commits while the effect of the render
    [r] is installed.  The updates a handler makes between two of its awaits
    are committed together (React batches them), so that [s] is the session
    as a handler leaves it when it suspends or ends.  With the same
    dependencies nothing happens.  With others the destructor of [r] runs on
    the session, and the effect of the committed render is installed in its
    place.  The clean-up call the destructor may make is taken to settle
    before anything else happens on the page.  The result is the session, the
    log and the render whose effect is now installed. *)
Definition Presigned_commit (env : Env) (r s : Presigned.State) (tr : list Event)
  : Presigned.State * list Event * Presigned.State :=
  if same_deps r s then (s, tr, r)
  else (fst (run env (Presigned_destructor r) s tr), s).

(** A handler running among others: while it is suspended on an action,
    other handlers of the page may do to the session whatever [others] says,
    knowing the log so far; between two of its awaits it runs undisturbed. *)
Fixpoint run_among (St A : Type) (env : Env) (others : list Event -> St -> St)
    (p : prog St A) (st : St) (tr : list Event) : St * list Event * outcome A :=
  match p with
  | Ret a => (st, tr, Resolve a)
  | Throw e => (st, tr, Reject e)
  | Upd f k => run_among env others k (f st) tr
  | Act a k =>
      let o := env tr _ a in
      let tr' := (tr ++ [Ev a o])%list in
      run_among env others (k o) (others tr' st) tr'
  end.

(** The largest length of an array, which [Array(n)] and the spread of
    [changeNumSpeakers] cannot exceed (a [RangeError] beyond), and the bound
    below which a number of seconds and its quotients are computed exactly. *)
Definition max_array_length : Z := 4294967295.
Definition max_exact_seconds : Z := 9007199254740992.

(** The cells of the session other than the case fields are those of [s]. *)
Definition Presigned_same_but_case (s s' : Presigned.State) : Prop :=
  Presigned.file s' = Presigned.file s /\
  Presigned.specifySpeakers s' = Presigned.specifySpeakers s /\
  Presigned.numSpeakers s' = Presigned.numSpeakers s /\
  Presigned.speakerNames s' = Presigned.speakerNames s /\
  Presigned.isProcessing s' = Presigned.isProcessing s /\
  Presigned.statusMessage s' = Presigned.statusMessage s /\
  Presigned.error s' = Presigned.error s /\
  Presigned.transcriptTurns s' = Presigned.transcriptTurns s /\
  Presigned.geminiFileName s' = Presigned.geminiFileName s /\
  Presigned.r2ObjectKey s' = Presigned.r2ObjectKey s /\
  Presigned.audioDuration s' = Presigned.audioDuration s.

(** The [speaker_names] the specification asks a submission to carry. *)
Definition speaker_names_expected (specify : bool) (names : list string)
  : option (list string) :=
  if specify then Some (filter (fun n => negb (blank n)) names) else None.

(** An action that went through: it resolved, with a success status when
    it is a fetch.  A run is staged when its first three actions went through
    (in page.tsx the presign request, its body and the upload). *)
Definition accepted (e : Event) : bool :=
  resolved e &&
  match fetch_of e with
  | Some (_, Resolve resp) => ok resp
  | _ => true
  end.

Definition staged (tr : list Event) : bool := forallb accepted (firstn 3 tr).

(** Every action of the log other than a fetch resolved. *)
Definition prepared (tr : list Event) : bool :=
  forallb (fun e => is_fetch e || resolved e) tr.

(** The one clean-up request [cleanupFiles] of the render [s] makes. *)
Definition cleanup_request (s : Presigned.State) : list Request :=
  if JS.truthy (Presigned.geminiFileName s)
  then [POST_cleanup (JS.or_str (Presigned.geminiFileName s) EmptyString)
                     (if JS.truthy (Presigned.r2ObjectKey s)
                      then Presigned.r2ObjectKey s else None)]
  else if JS.truthy (Presigned.r2ObjectKey s)
       then [POST_cleanup_r2 (JS.or_str (Presigned.r2ObjectKey s) EmptyString)]
       else [].

(** *** Sample inputs with identifiers and headers *)

(** Four identifier fields, two of them left blank. *)
Definition typed_names : list string := ["JUDGE"; "  "; EmptyString; "COUNSEL"].

Definition Presigned_named : Presigned.State :=
  {| Presigned.file := Some recording;
     Presigned.caseInfo := Presigned.caseInfo Presigned.init;
     Presigned.specifySpeakers := true;
     Presigned.numSpeakers := JS.Num 4;
     Presigned.speakerNames := typed_names;
     Presigned.isProcessing := false;
     Presigned.statusMessage := EmptyString;
     Presigned.error := None;
     Presigned.transcriptTurns := None;
     Presigned.geminiFileName := None;
     Presigned.r2ObjectKey := None;
     Presigned.audioDuration := None |}.

Definition Transcoding_named : Transcoding.State :=
  {| Transcoding.file := Some recording;
     Transcoding.caseInfo := Transcoding.caseInfo Transcoding.init;
     Transcoding.specifySpeakers := true;
     Transcoding.numSpeakers := JS.Num 4;
     Transcoding.speakerNames := typed_names;
     Transcoding.isProcessing := false;
     Transcoding.transcriptTurns := None;
     Transcoding.error := None;
     Transcoding.statusMessage := "FFmpeg loaded.";
     Transcoding.geminiFileName := None;
     Transcoding.audioDuration := None;
     Transcoding.ffmpegLoaded := true |}.

(** The export endpoint names the document in a header that is not an
    attachment. *)
Definition response_inline : Response :=
  {| ok := true; status := 200; statusText := "OK";
     content_disposition := Some "inline; filename=report.docx" |}.

Definition env_inline : Env := fun tr R a =>
  match a in Action R return outcome R with
  | fetch (POST_generate_docx _) => Resolve response_inline
  | a' => env_ok tr a'
  end.

(** A header from which the expression draws no name: it does not match,
    or its group 1 is empty. *)
Definition no_usable_filename (d : string) : bool :=
  match filenameRegex_exec d with
  | Some g => negb (JS.nonempty g)
  | None => true
  end.

(** What the catch of [loadFFmpeg] (transcoding variant) does to the
    session when the engine fails to load, whenever that happens. *)
Definition load_failed (tr : list Event) (st : Transcoding.State) : Transcoding.State :=
  Transcoding.set_statusMessage EmptyString
    (Transcoding.set_error
       (Some "Failed to load FFmpeg component. Video conversion unavailable.") st).

(* ===================================================================== *)
(** * Properties                                                           *)
(* ===================================================================== *)

#[global] Arguments JS.toString : simpl never.
#[global] Arguments JS.or_str : simpl never.
#[global] Arguments JS.or : simpl never.
#[global] Arguments hhmmss : simpl never.
#[global] Arguments filter_trim : simpl never.
#[global] Arguments filter_name_and_trim : simpl never.
#[global] Arguments default_download_name : simpl never.
#[global] Arguments downloadFilename : simpl never.
#[global] Arguments JS.last_segment : simpl never.
#[global] Arguments String.append : simpl never.
#[global] Arguments late_completion_applied : simpl never.
#[global] Arguments idle : simpl never.

(** ** Strings *)

Lemma trimStart_blank (s : string) :
  blank s = true -> JS.trimStart s = EmptyString.
Proof.
  induction s as [|c r IH]; simpl; [reflexivity|].
  unfold blank in *; simpl.
  destruct (JS.is_space c); simpl; [exact IH | discriminate].
Qed.

Lemma trimEnd_nonblank (s : string) :
  blank s = false -> JS.nonempty (JS.trimEnd s) = true.
Proof.
  induction s as [|c r IH]; unfold blank in *; simpl; [discriminate|].
  destruct (JS.is_space c) eqn:Hc; simpl; intros H.
  - specialize (IH H). destruct (JS.trimEnd r); [discriminate | reflexivity].
  - destruct (JS.trimEnd r); reflexivity.
Qed.

Lemma trimStart_nonblank (s : string) :
  blank s = false -> blank (JS.trimStart s) = false.
Proof.
  induction s as [|c r IH]; unfold blank in *; simpl; [discriminate|].
  destruct (JS.is_space c) eqn:Hc; simpl; intros H.
  - exact (IH H).
  - rewrite Hc. reflexivity.
Qed.

(** The test of page.tsx, [s.trim()] taken as a boolean, holds of the
    identifiers that are not blank. *)
Lemma trim_truthy_iff_not_blank (s : string) :
  JS.nonempty (JS.trim s) = negb (blank s).
Proof.
  unfold JS.trim. destruct (blank s) eqn:Hb; simpl.
  - rewrite (trimStart_blank s Hb). reflexivity.
  - apply trimEnd_nonblank, trimStart_nonblank, Hb.
Qed.

(** So does the test of the transcoding variant,
    [name && name.trim() !== '']. *)
Lemma name_and_trim_iff_not_blank (s : string) :
  JS.nonempty s && negb (String.eqb (JS.trim s) EmptyString) = negb (blank s).
Proof.
  rewrite <- trim_truthy_iff_not_blank.
  destruct s as [|c r]; [reflexivity|].
  simpl JS.nonempty at 1. simpl andb.
  destruct (JS.trim (String c r)); reflexivity.
Qed.

Lemma filter_trim_spec (names : list string) :
  filter_trim names = filter (fun s => negb (blank s)) names.
Proof.
  unfold filter_trim. apply filter_ext. intros s. apply trim_truthy_iff_not_blank.
Qed.

Lemma filter_name_and_trim_spec (names : list string) :
  filter_name_and_trim names = filter (fun s => negb (blank s)) names.
Proof.
  unfold filter_name_and_trim. apply filter_ext. intros s.
  apply name_and_trim_iff_not_blank.
Qed.

Lemma filter_not_blank_Forall (names : list string) :
  Forall (fun s => blank s = false) (filter (fun s => negb (blank s)) names).
Proof.
  apply Forall_forall. intros s Hs. apply filter_In in Hs.
  destruct Hs as [_ Hs]. now apply negb_true_iff in Hs.
Qed.

(** [name.split(".")[0]] is the stem. *)
Lemma split_dot_nonempty (s : string) : JS.split_dot s <> [].
Proof.
  destruct s as [|c r]; simpl; [discriminate|].
  destruct (Ascii.eqb c "."); [discriminate|].
  destruct (JS.split_dot r); discriminate.
Qed.

Lemma first_segment_stem (s : string) : JS.first_segment s = stem s.
Proof.
  unfold JS.first_segment.
  induction s as [|c r IH]; simpl; [reflexivity|].
  destruct (Ascii.eqb c "."); [reflexivity|].
  destruct (JS.split_dot r) eqn:E; simpl in *.
  - now apply split_dot_nonempty in E.
  - now rewrite IH.
Qed.

(** ** Durations *)

Lemma Qfloor_div_pos (s : Q) (d : positive) :
  Qfloor (s / inject_Z (Zpos d))%Q = (Qfloor s / Zpos d)%Z.
Proof.
  destruct s as [p q]. unfold Qdiv, Qinv, Qmult, inject_Z, Qfloor. simpl.
  rewrite Z.mul_1_r, Pos2Z.inj_mul.
  rewrite Z.div_div by lia. reflexivity.
Qed.

Lemma Qfloor_sub_Z (s : Q) (k : Z) :
  Qfloor (s - inject_Z k)%Q = (Qfloor s - k)%Z.
Proof.
  destruct s as [p q]. unfold Qminus, Qplus, Qopp, inject_Z, Qfloor. simpl.
  rewrite Z.mul_1_r, Pos.mul_1_r.
  replace (p + - k * Z.pos q)%Z with (p + (- k) * Z.pos q)%Z by ring.
  rewrite Z.div_add by lia. ring.
Qed.

Lemma Qtrunc_div_nonneg (s : Q) (d : positive) :
  (0 <= s)%Q -> JS.Qtrunc (s / inject_Z (Zpos d))%Q = (Qfloor s / Zpos d)%Z.
Proof.
  intros Hs. unfold JS.Qtrunc.
  replace (Qnum (s / inject_Z (Z.pos d)) <? 0)%Z with false.
  - apply Qfloor_div_pos.
  - symmetry. apply Z.ltb_ge. destruct s as [p q].
    unfold Qle in Hs. simpl in *. lia.
Qed.

Lemma Qrem_floor (s : Q) (d : positive) :
  (0 <= s)%Q ->
  (JS.Qrem s (Zpos d) == s - inject_Z (Zpos d * (Qfloor s / Zpos d)))%Q.
Proof.
  intros Hs. unfold JS.Qrem. rewrite (Qtrunc_div_nonneg d Hs).
  rewrite inject_Z_mult. reflexivity.
Qed.

Lemma Qfloor_nonneg (s : Q) : (0 <= s)%Q -> (0 <= Qfloor s)%Z.
Proof.
  intros Hs. destruct s as [p q]. unfold Qle in Hs. simpl in *.
  apply Z.div_pos; lia.
Qed.

Lemma formatDuration_HH_MM_SS (s : Q) :
  (0 <= s)%Q -> formatDuration s = HH_MM_SS s.
Proof.
  intros Hs. pose proof (Qfloor_nonneg Hs) as HF.
  unfold formatDuration, HH_MM_SS.
  rewrite (Qfloor_div_pos s 3600).
  rewrite (Qfloor_div_pos (JS.Qrem s 3600) 60).
  rewrite (Qfloor_comp _ _ (Qrem_floor 3600 Hs)).
  rewrite (Qfloor_comp _ _ (Qrem_floor 60 Hs)).
  rewrite !Qfloor_sub_Z.
  set (F := Qfloor s) in *.
  replace ((F - 3600 * (F / 3600)) / 60)%Z with ((F / 60) mod 60)%Z.
  2:{ rewrite <- (Z.mod_eq F 3600) by lia.
      change 3600%Z with (60 * 60)%Z.
      rewrite Z.rem_mul_r by lia.
      rewrite (Z.mul_comm 60 ((F / 60) mod 60)), Z.div_add by lia.
      rewrite (Z.div_small (F mod 60) 60) by (apply Z.mod_pos_bound; lia).
      reflexivity. }
  replace (F - 60 * (F / 60))%Z with (F mod 60)%Z.
  2:{ rewrite (Z.mod_eq F 60) by lia. reflexivity. }
  reflexivity.
Qed.

Lemma hhmmss_HH_MM_SS (s : Q) :
  (0 <= s)%Q -> (s < 216000)%Q -> hhmmss s = HH_MM_SS s.
Proof.
  intros Hs Hlt. pose proof (Qfloor_nonneg Hs) as HF.
  assert (HF' : (Qfloor s < 216000)%Z).
  { destruct s as [p q]. unfold Qlt in Hlt. simpl in *.
    apply Z.div_lt_upper_bound; lia. }
  unfold hhmmss, HH_MM_SS. cbn [map JS.join_colon].
  rewrite (Qfloor_div_pos s 3600), (Qfloor_div_pos s 60), (Qfloor_div_pos s 1).
  set (F := Qfloor s) in *.
  rewrite Z.div_1_r.
  rewrite !Z.rem_mod_nonneg by (try apply Z.div_pos; lia).
  rewrite (Z.mod_small (F / 3600) 60).
  2:{ split; [apply Z.div_pos; lia | apply Z.div_lt_upper_bound; lia]. }
  reflexivity.
Qed.

(** C8.  The two formatters disagree from sixty hours on: [hhmmss] takes
    the hours modulo 60 like the minutes and the seconds, [formatDuration]
    does not.  At 216000 seconds the first renders [00:00:00] and the second
    [60:00:00], which is what [HH:MM:SS] asks for. *)
Theorem C8_hhmmss_wraps_hours :
  hhmmss (inject_Z 216000) = "00:00:00" /\
  formatDuration (inject_Z 216000) = "60:00:00" /\
  HH_MM_SS (inject_Z 216000) = "60:00:00" /\
  hhmmss (inject_Z 216000) <> formatDuration (inject_Z 216000).
Proof.
  assert (H1 : hhmmss (inject_Z 216000) = "00:00:00") by (vm_compute; reflexivity).
  assert (H2 : formatDuration (inject_Z 216000) = "60:00:00") by (vm_compute; reflexivity).
  split; [exact H1 | split; [exact H2 | split]].
  - vm_compute; reflexivity.
  - intros E. rewrite H1, H2 in E. discriminate E.
Qed.

(** Below sixty hours the two formatters agree, on [HH:MM:SS]. *)
Lemma formatters_agree_below_60h (s : Q) :
  (0 <= s)%Q -> (s < 216000)%Q -> hhmmss s = formatDuration s.
Proof.
  intros H0 H1. rewrite (hhmmss_HH_MM_SS H0 H1), (formatDuration_HH_MM_SS H0).
  reflexivity.
Qed.

(** ** The speaker count *)

Lemma resize_length (z : Z) (prev : list string) :
  (1 <= z)%Z -> Z.of_nat (List.length (JS.resize (JS.Num z) prev)) = z.
Proof.
  intros Hz. unfold JS.resize, JS.gt_length.
  destruct (Z.of_nat (List.length prev) <? z)%Z eqn:E.
  - apply Z.ltb_lt in E. unfold JS.pad_empty.
    rewrite length_app, repeat_length. lia.
  - apply Z.ltb_ge in E. unfold JS.slice0.
    replace (z <? 0)%Z with false by (symmetry; apply Z.ltb_ge; lia).
    rewrite length_firstn. lia.
Qed.

Lemma max1_or1_ge_1 (n : JS.num) :
  exists z, JS.max1 (JS.or1 n) = JS.Num z /\ (1 <= z)%Z.
Proof.
  destruct n as [|z]; simpl.
  - exists 1%Z. split; [reflexivity | lia].
  - destruct z; simpl; eexists; (split; [reflexivity | lia]).
Qed.

(** The restyled variant guards both the unreadable and the negative count,
    and keeps the invariant on every input. *)
Lemma Restyled_count_invariant (value : string) (prev : list string) :
  count_invariant (fst (Restyled.handleNumSpeakersChange value prev))
                  (snd (Restyled.handleNumSpeakersChange value prev)).
Proof.
  unfold Restyled.handleNumSpeakersChange, count_invariant. simpl.
  destruct (max1_or1_ge_1 (JS.parseInt value)) as [z [Hz Hge]].
  rewrite Hz. f_equal. symmetry. apply resize_length. exact Hge.
Qed.

(** page.tsx keeps it whenever [parseInt] reads a number. *)
Lemma Presigned_count_invariant (env : Env) (value : string) (z : Z)
    (s : Presigned.State) :
  JS.parseInt (if JS.nonempty value then value else "1") = JS.Num z ->
  let s' := final env (Presigned.changeNumSpeakers value) s in
  count_invariant (Presigned.numSpeakers s') (Presigned.speakerNames s').
Proof.
  intros Hp. unfold final, Presigned.changeNumSpeakers, count_invariant.
  rewrite Hp. simpl. f_equal. symmetry. apply resize_length. lia.
Qed.

(** C9.  The invariant is lost on an input whose count cannot be read
    (page.tsx: [Math.max(1, NaN)] is [NaN], and [slice(0, NaN)] empties the
    list) and on a negative count (transcoding variant: [-3 || 1] is [-3],
    and [slice(0, -3)] drops the last three entries). *)
Theorem C9_count_invariant_lost :
  (let s' := final (fun _ _ _ => Reject (Bare EmptyString))
                   (Presigned.changeNumSpeakers ".5") Presigned.init in
   Presigned.numSpeakers s' = JS.NaN /\ Presigned.speakerNames s' = [] /\
   ~ count_invariant (Presigned.numSpeakers s') (Presigned.speakerNames s')) /\
  (let s' := final (fun _ _ _ => Reject (Bare EmptyString))
                   (Transcoding.handleNumSpeakersChange "-3") Transcoding.init in
   Transcoding.numSpeakers s' = JS.Num (-3) /\ Transcoding.speakerNames s' = [] /\
   ~ count_invariant (Transcoding.numSpeakers s') (Transcoding.speakerNames s')).
Proof.
  split; cbv zeta; (split; [reflexivity | split; [reflexivity |]]);
    unfold count_invariant; discriminate.
Qed.

(** ** Running handlers *)

Section RunFacts.
Variable St : Type.
Variable env : Env.

Lemma run_bind (A B : Type) (m : prog St A) (f : A -> prog St B) st tr :
  run env (bind m f) st tr =
  match run env m st tr with
  | (st', tr', Resolve a) => run env (f a) st' tr'
  | (st', tr', Reject e) => (st', tr', Reject e)
  end.
Proof.
  revert st tr. induction m as [a|e|g k IH|R a k IH]; intros st tr; simpl.
  - reflexivity.
  - reflexivity.
  - apply IH.
  - apply IH.
Qed.

Lemma run_try_catch (A : Type) (m : prog St A) (h : Thrown -> prog St A) st tr :
  run env (try_catch m h) st tr =
  match run env m st tr with
  | (st', tr', Resolve a) => (st', tr', Resolve a)
  | (st', tr', Reject e) => run env (h e) st' tr'
  end.
Proof.
  revert st tr. induction m as [a|e|g k IH|R a k IH]; intros st tr; simpl;
    try reflexivity; apply IH.
Qed.

(** The log only grows, and by nothing but what the handler may send. *)
Lemma run_sends_only (A : Type) (P : forall R, Action R -> Prop)
      (p : prog St A) st tr :
  sends_only P p -> Forall (logged_only P) tr ->
  Forall (logged_only P) (snd (fst (run env p st tr))).
Proof.
  revert st tr. induction p as [a|e|g k IH|R a k IH]; intros st tr Hp Htr; simpl.
  - exact Htr.
  - exact Htr.
  - apply IH; assumption.
  - destruct Hp as [Ha Hk]. apply IH; [apply Hk|].
    apply Forall_app. split; [exact Htr|]. constructor; [exact Ha | constructor].
Qed.

Lemma sends_only_bind (A B : Type) (P : forall R, Action R -> Prop)
      (m : prog St A) (f : A -> prog St B) :
  sends_only P m -> (forall a, sends_only P (f a)) -> sends_only P (bind m f).
Proof.
  intros Hm Hf. induction m as [a|e|g k IH|R a k IH]; simpl in *.
  - apply Hf.
  - exact I.
  - apply IH, Hm.
  - destruct Hm as [Ha Hk]. split; [exact Ha|]. intros o. apply IH, Hk.
Qed.

Lemma sends_only_try_catch (A : Type) (P : forall R, Action R -> Prop)
      (m : prog St A) (h : Thrown -> prog St A) :
  sends_only P m -> (forall e, sends_only P (h e)) -> sends_only P (try_catch m h).
Proof.
  intros Hm Hh. induction m as [a|e|g k IH|R a k IH]; simpl in *.
  - exact I.
  - apply Hh.
  - apply IH, Hm.
  - destruct Hm as [Ha Hk]. split; [exact Ha|]. intros o. apply IH, Hk.
Qed.

Lemma sends_only_finally (A : Type) (P : forall R, Action R -> Prop)
      (m : prog St A) (fin : prog St unit) :
  sends_only P m -> sends_only P fin -> sends_only P (finally m fin).
Proof.
  intros Hm Hf. induction m as [a|e|g k IH|R a k IH]; simpl in *.
  - apply sends_only_bind; [exact Hf | intros; exact I].
  - apply sends_only_bind; [exact Hf | intros; exact I].
  - apply IH, Hm.
  - destruct Hm as [Ha Hk]. split; [exact Ha|]. intros o. apply IH, Hk.
Qed.

Lemma sends_only_await (R : Type) (P : forall R, Action R -> Prop) (a : Action R) :
  P _ a -> sends_only P (await (St := St) a).
Proof. intros Ha. split; [exact Ha|]. intros [r|e]; exact I. Qed.

Lemma sends_only_await_catch (R : Type) (P : forall R, Action R -> Prop)
      (a : Action R) (d : R) :
  P _ a -> sends_only P (await_catch (St := St) a d).
Proof. intros Ha. split; [exact Ha|]. intros [r|e]; exact I. Qed.

Lemma sends_only_upd (P : forall R, Action R -> Prop) (f : St -> St) :
  sends_only P (upd f).
Proof. exact I. Qed.
End RunFacts.

(** Walks a handler written with [bind], [try], [finally] and [await],
    leaving one goal per action. *)
Ltac walk :=
  repeat match goal with
    | |- True => exact I
    | |- sends_only _ (Ret _) => exact I
    | |- sends_only _ (Throw _) => exact I
    | |- sends_only _ (upd _) => apply sends_only_upd
    | |- sends_only _ (bind _ _) => apply sends_only_bind; [| intros ?]
    | |- sends_only _ (try_catch _ _) => apply sends_only_try_catch; [| intros ?]
    | |- sends_only _ (finally _ _) => apply sends_only_finally
    | |- sends_only _ (await _) => apply sends_only_await
    | |- sends_only _ (await_catch _ _) => apply sends_only_await_catch
    | |- sends_only _ (if ?b then _ else _) => destruct b
    | |- sends_only _ (let _ := _ in _) => cbv zeta
    | |- sends_only _ (?h _) => unfold h
    end.

(** ** Tactics for runs *)

(** Case analysis along a run: every settled action, every test on a
    response or on the session. *)
Ltac branch env :=
  match goal with
  | |- context [env ?t ?R ?a] =>
      let o := fresh "o" in
      destruct (env t R a) as [o|o]; simpl
  | |- context [if negb ?b then _ else _] => destruct b eqn:?; simpl
  | |- context [if ?b then _ else _] => destruct b eqn:?; simpl
  end.

(** Reads a membership in a projected log, entry by entry. *)
Ltac entries H :=
  simpl in H;
  repeat match type of H with
         | _ \/ _ => destruct H as [H|H]
         | False => contradiction
         | None = Some _ => discriminate H
         | Some _ = Some _ => inversion H; clear H; subst
         end.

Lemma speaker_names_field_ok (specify : bool) (names l : list string) :
  l = filter (fun n => negb (blank n)) names ->
  (if specify then Some l else None)
  = (if specify then Some (filter (fun n => negb (blank n)) names) else None) /\
  forall l', (if specify then Some l else None) = Some l' ->
             Forall (fun n => blank n = false) l'.
Proof.
  intros ->. split; [reflexivity|].
  destruct specify; intros l' E; inversion E; subst.
  apply filter_not_blank_Forall.
Qed.

Lemma Presigned_handleSubmit_sends (s : Presigned.State) :
  sends_only (speaker_names_as_specified (Presigned.specifySpeakers s)
                                         (Presigned.speakerNames s))
             (Presigned.handleSubmit s).
Proof.
  unfold Presigned.handleSubmit, Presigned.getDuration.
  destruct (Presigned.file s) as [f|]; [|exact I].
  walk; try exact I; try (split; [exact I | intros [?|?]; exact I]).
  unfold speaker_names_as_specified. simpl.
  apply speaker_names_field_ok, filter_trim_spec.
Qed.

Lemma Transcoding_handleSubmit_sends (s : Transcoding.State) :
  sends_only (speaker_names_as_specified (Transcoding.specifySpeakers s)
                                         (Transcoding.speakerNames s))
             (Transcoding.handleSubmit s).
Proof.
  unfold Transcoding.handleSubmit, Transcoding.probe.
  destruct (Transcoding.file s) as [f|]; [|exact I].
  walk; try exact I.
  unfold speaker_names_as_specified. simpl.
  apply speaker_names_field_ok, filter_name_and_trim_spec.
Qed.

Lemma filter_trim_expected (specify : bool) (names : list string) :
  (if specify then Some (filter_trim names) else None)
  = speaker_names_expected specify names.
Proof. unfold speaker_names_expected. now rewrite filter_trim_spec. Qed.

Lemma filter_name_and_trim_expected (specify : bool) (names : list string) :
  (if specify then Some (filter_name_and_trim names) else None)
  = speaker_names_expected specify names.
Proof. unfold speaker_names_expected. now rewrite filter_name_and_trim_spec. Qed.

(** C4.  In both variants every submission to the transcription endpoint
    carries a [speaker_names] that is [null] when generic labelling is
    selected and otherwise the user's identifiers without the blank ones,
    so that no submitted identifier is empty or made of white space.  And
    the submission is sent: in page.tsx, with a file selected, once the
    presign request, its body and the upload have gone through; in the
    transcoding variant, for a video or audio file, once the local preparation
    has gone through (the engine loaded, for a video).  It then carries the
    case fields and exactly that [speaker_names]. *)
Theorem C4_speaker_names_never_blank :
  (forall (env : Env) (s : Presigned.State),
      Forall (logged_only (speaker_names_as_specified
                             (Presigned.specifySpeakers s) (Presigned.speakerNames s)))
             (events env (Presigned.handleSubmit s) s)) /\
  (forall (env : Env) (s : Presigned.State),
      Presigned.file s <> None ->
      staged (events env (Presigned.handleSubmit s) s) = true ->
      exists part o,
        In (Some (POST_transcribe
                    {| case_fields := Presigned.caseInfo s;
                       speaker_names :=
                         speaker_names_expected (Presigned.specifySpeakers s)
                                                (Presigned.speakerNames s) |}
                    part, o))
           (map fetch_of (events env (Presigned.handleSubmit s) s))) /\
  (forall (env : Env) (s : Transcoding.State),
      Forall (logged_only (speaker_names_as_specified
                             (Transcoding.specifySpeakers s) (Transcoding.speakerNames s)))
             (events env (Transcoding.handleSubmit s) s)) /\
  (forall (env : Env) (s : Transcoding.State) (f : File),
      Transcoding.file s = Some f ->
      prefix "video/" (type f) || prefix "audio/" (type f) = true ->
      (prefix "video/" (type f) = true -> Transcoding.ffmpegLoaded s = true) ->
      prepared (events env (Transcoding.handleSubmit s) s) = true ->
      exists part o,
        In (Some (POST_transcribe
                    {| case_fields := Transcoding.caseInfo s;
                       speaker_names :=
                         speaker_names_expected (Transcoding.specifySpeakers s)
                                                (Transcoding.speakerNames s) |}
                    part, o))
           (map fetch_of (events env (Transcoding.handleSubmit s) s))).
Proof.
  split; [|split; [|split]].
  - intros env s. unfold events. apply run_sends_only; [|constructor].
    apply Presigned_handleSubmit_sends.
  - intros env s Hf. unfold events, staged, Presigned.handleSubmit.
    rewrite <- filter_trim_expected.
    destruct (Presigned.file s) as [f|]; [clear Hf|congruence].
    simpl. repeat branch env; intros H; simpl in H; unfold accepted in H; simpl in H;
      repeat match goal with E : ok _ = _ |- _ => rewrite E in H; clear E end;
      try discriminate H;
      do 2 eexists; do 3 right; left; reflexivity.
  - intros env s. unfold events. apply run_sends_only; [|constructor].
    apply Transcoding_handleSubmit_sends.
  - intros env s f Hf Ht Hv. unfold events, prepared, Transcoding.handleSubmit,
      Transcoding.probe.
    rewrite <- filter_name_and_trim_expected. rewrite Hf.
    destruct (prefix "video/" (type f)) eqn:Ev.
    + rewrite (Hv eq_refl). simpl. repeat branch env; intros H; try discriminate H;
        do 2 eexists; simpl; tauto.
    + simpl in Ht. rewrite Ht. simpl. repeat branch env; intros H; try discriminate H;
        do 2 eexists; simpl; tauto.
Qed.

Lemma C4_speaker_names_never_blank_witness :
  (Presigned.file Presigned_named <> None /\
   staged (events env_ok (Presigned.handleSubmit Presigned_named) Presigned_named)
   = true /\
   exists part o,
     In (Some (POST_transcribe
                 {| case_fields := Presigned.caseInfo Presigned_named;
                    speaker_names := Some ["JUDGE"; "COUNSEL"] |}
                 part, o))
        (map fetch_of (events env_ok (Presigned.handleSubmit Presigned_named)
                              Presigned_named))) /\
  (Transcoding.file Transcoding_named = Some recording /\
   prefix "video/" (type recording) || prefix "audio/" (type recording) = true /\
   prepared (events env_ok (Transcoding.handleSubmit Transcoding_named)
                    Transcoding_named) = true /\
   exists part o,
     In (Some (POST_transcribe
                 {| case_fields := Transcoding.caseInfo Transcoding_named;
                    speaker_names := Some ["JUDGE"; "COUNSEL"] |}
                 part, o))
        (map fetch_of (events env_ok (Transcoding.handleSubmit Transcoding_named)
                              Transcoding_named))).
Proof.
  assert (HP : Presigned.file Presigned_named <> None) by discriminate.
  split.
  - split; [exact HP|]. split; [reflexivity|].
    exact (proj1 (proj2 C4_speaker_names_never_blank) env_ok Presigned_named
             HP eq_refl).
  - split; [reflexivity|]. split; [reflexivity|]. split; [reflexivity|].
    refine (proj2 (proj2 (proj2 C4_speaker_names_never_blank)) env_ok Transcoding_named
              recording eq_refl eq_refl _ eq_refl).
    intros H. discriminate H.
Defined.

(** The log of the sample run does hold a submission. *)
Example Presigned_sample_submission :
  exists rd part o,
    nth_error (events env_ok (Presigned.handleSubmit Presigned_selected)
                      Presigned_selected) 3
    = Some (Ev (fetch (POST_transcribe rd part)) o) /\
    speaker_names rd = None.
Proof.
  do 3 eexists. split; reflexivity.
Qed.

(** ** Guards *)

(** C10.  Submitting with no file selected sets the error message and
    nothing else: no action is performed, so no request is made, and every
    other cell of the session is unchanged.  Both variants. *)
Theorem C10_submit_without_file :
  (forall (env : Env) (s : Presigned.State),
      Presigned.file s = None ->
      let s' := final env (Presigned.handleSubmit s) s in
      Presigned.error s' = Some "Choose a file first." /\
      events env (Presigned.handleSubmit s) s = [] /\
      Presigned_frame s s') /\
  (forall (env : Env) (s : Transcoding.State),
      Transcoding.file s = None ->
      let s' := final env (Transcoding.handleSubmit s) s in
      Transcoding.error s' = Some "Please select a file first." /\
      events env (Transcoding.handleSubmit s) s = [] /\
      Transcoding_frame s s').
Proof.
  split; intros env s H; unfold final, events.
  - unfold Presigned.handleSubmit. rewrite H. simpl.
    unfold Presigned_frame. simpl. repeat split; reflexivity.
  - unfold Transcoding.handleSubmit. rewrite H. simpl.
    unfold Transcoding_frame. simpl. repeat split; reflexivity.
Qed.

Lemma C10_submit_without_file_witness :
  Presigned.file Presigned.init = None /\
  (let s' := final env_ok (Presigned.handleSubmit Presigned.init) Presigned.init in
   Presigned.error s' = Some "Choose a file first." /\
   events env_ok (Presigned.handleSubmit Presigned.init) Presigned.init = [] /\
   Presigned_frame Presigned.init s') /\
  Transcoding.file Transcoding.init = None /\
  (let s' := final env_ok (Transcoding.handleSubmit Transcoding.init) Transcoding.init in
   Transcoding.error s' = Some "Please select a file first." /\
   events env_ok (Transcoding.handleSubmit Transcoding.init) Transcoding.init = [] /\
   Transcoding_frame Transcoding.init s').
Proof.
  split; [reflexivity|]. split.
  - apply (proj1 C10_submit_without_file env_ok Presigned.init). reflexivity.
  - split; [reflexivity|].
    apply (proj2 C10_submit_without_file env_ok Transcoding.init). reflexivity.
Defined.

(** C6.  Exporting while the transcript or the transcription handle is
    absent (an empty handle counts as absent) fails on the spot: the error
    message is set, no action is performed, so no request is made, and every
    other cell of the session is unchanged.  Both variants. *)
Theorem C6_nothing_to_export :
  (forall (env : Env) (s : Presigned.State),
      Presigned.transcriptTurns s = None \/ JS.truthy (Presigned.geminiFileName s) = false ->
      let s' := final env (Presigned.handleDownloadDocx s) s in
      Presigned.error s' = Some "Nothing to download." /\
      events env (Presigned.handleDownloadDocx s) s = [] /\
      Presigned_frame s s') /\
  (forall (env : Env) (s : Transcoding.State),
      Transcoding.transcriptTurns s = None \/
      JS.truthy (Transcoding.geminiFileName s) = false ->
      let s' := final env (Transcoding.handleDownloadDocx s) s in
      Transcoding.error s'
      = Some "No transcript available to download or missing file identifier." /\
      events env (Transcoding.handleDownloadDocx s) s = [] /\
      Transcoding_frame s s').
Proof.
  split; intros env s H; unfold final, events.
  - unfold Presigned.handleDownloadDocx.
    destruct H as [H|H]; rewrite H;
      [| destruct (Presigned.transcriptTurns s)]; simpl;
      unfold Presigned_frame; simpl; repeat split; reflexivity.
  - unfold Transcoding.handleDownloadDocx.
    destruct H as [H|H]; rewrite H;
      [| destruct (Transcoding.transcriptTurns s)]; simpl;
      unfold Transcoding_frame; simpl; repeat split; reflexivity.
Qed.

Lemma C6_nothing_to_export_witness :
  (Presigned.transcriptTurns Presigned_selected = None \/
   JS.truthy (Presigned.geminiFileName Presigned_selected) = false) /\
  (let s' := final env_ok (Presigned.handleDownloadDocx Presigned_selected)
                   Presigned_selected in
   Presigned.error s' = Some "Nothing to download." /\
   events env_ok (Presigned.handleDownloadDocx Presigned_selected) Presigned_selected = [] /\
   Presigned_frame Presigned_selected s') /\
  (Transcoding.transcriptTurns Transcoding_selected = None \/
   JS.truthy (Transcoding.geminiFileName Transcoding_selected) = false) /\
  (let s' := final env_ok (Transcoding.handleDownloadDocx Transcoding_selected)
                   Transcoding_selected in
   Transcoding.error s'
   = Some "No transcript available to download or missing file identifier." /\
   events env_ok (Transcoding.handleDownloadDocx Transcoding_selected)
          Transcoding_selected = [] /\
   Transcoding_frame Transcoding_selected s').
Proof.
  split; [left; reflexivity|]. split.
  - apply (proj1 C6_nothing_to_export env_ok Presigned_selected). left; reflexivity.
  - split; [left; reflexivity|].
    apply (proj2 C6_nothing_to_export env_ok Transcoding_selected). left; reflexivity.
Defined.

(** ** Release *)

(** C1, as stated, fails when the network is down: the release call
    rejects, both handles stay in the session, and the repeated release sends
    the call again. *)
Lemma C1_release_offline_keeps_handles :
  ~ release_clears_handles env_offline Presigned_ready.
Proof.
  unfold release_clears_handles. intros [H _].
  vm_compute in H. discriminate H.
Qed.

(** C1, amended.  A release is a no-op when neither handle is set.
    Otherwise it performs exactly one action, a network call, the clean-up
    request of the handles held.  When that call resolves, whatever its
    status, both handles are cleared and the status message says that the
    temporary files are deleted; nothing else of the session changes.  When
    it rejects, both handles are kept and only the status message changes, so
    that a repeated release sends the same request again. *)
Theorem C1_release_amended (env env' : Env) (s : Presigned.State) :
  let s1 := fst (release env s) in
  let tr1 := snd (release env s) in
  if negb (JS.truthy (Presigned.geminiFileName s)) &&
     negb (JS.truthy (Presigned.r2ObjectKey s))
  then s1 = s /\ tr1 = []
  else exists e, tr1 = [e] /\ is_fetch e = true /\
       requests tr1 = cleanup_request s /\
       if resolved e
       then s1 = Presigned.set_statusMessage "Temporary files deleted."
                   (Presigned.set_r2ObjectKey None
                      (Presigned.set_geminiFileName None s))
       else s1 = Presigned.set_statusMessage
                   "Cleanup attempted (see server logs for details)." s /\
            requests (snd (release env' s1)) = requests tr1.
Proof.
  unfold release, Presigned.cleanupFiles, cleanup_request.
  destruct (Presigned.geminiFileName s) as [[|c g]|] eqn:Eg;
    destruct (Presigned.r2ObjectKey s) as [[|d r]|] eqn:Er; simpl;
    try (split; reflexivity);
    match goal with
    | |- context [env [] ?R ?a] => destruct (env [] R a) as [resp|err] eqn:E1
    end; simpl;
    eexists; (split; [reflexivity|]); (split; [reflexivity|]);
    (split; [reflexivity|]); simpl;
    try reflexivity;
    (split; [reflexivity|]);
    rewrite ?Eg, ?Er; simpl;
    match goal with
    | |- context [env' ?t ?R ?a] => destruct (env' t R a) as [resp2|err2]
    end; simpl; reflexivity.
Qed.

(** ** The duration probe *)

(** The transcoding variant catches a failed probe on the spot: it never
    throws and leaves the session as it was. *)
Lemma Transcoding_probe_swallowed (env : Env) (inputFileName : string)
    (st : Transcoding.State) (tr : list Event) :
  exists o, run env (Transcoding.probe inputFileName) st tr
            = (st, (tr ++ [Ev (ffmpeg_exec (Transcoding.probe_args inputFileName)) o])%list,
               Resolve tt).
Proof.
  unfold Transcoding.probe. simpl.
  destruct (env tr unit (ffmpeg_exec (Transcoding.probe_args inputFileName)))
    as [[]|e] eqn:E; simpl; eexists; reflexivity.
Qed.

(** page.tsx: whenever the probe of a run rejects, the run ends with the
    probe's message as its error and with its status message cleared. *)
Lemma Presigned_probe_failure_surfaces (env : Env) (s : Presigned.State)
    (b : File) (e : Thrown) :
  In (Some (b, Reject e)) (map metadata_of (events env (Presigned.handleSubmit s) s)) ->
  Presigned.error (final env (Presigned.handleSubmit s) s)
  = Some "Could not read duration" /\
  Presigned.statusMessage (final env (Presigned.handleSubmit s) s) = EmptyString.
Proof.
  unfold final, events, Presigned.handleSubmit, Presigned.getDuration.
  destruct (Presigned.file s) as [f|]; [|simpl; tauto].
  simpl. repeat branch env; intros H; entries H; split; reflexivity.
Qed.

(** C2.  In page.tsx the probe is awaited inside the [try] of the run: when
    the audio element cannot read the file, the rejection reaches the
    [catch], which shows it as the error of a run whose transcript and
    handles are already stored, and the final status is never set. *)
Theorem C2_duration_failure_surfaces :
  let s' := final env_no_duration (Presigned.handleSubmit Presigned_selected)
                  Presigned_selected in
  Presigned.transcriptTurns s' = Some sample_turns /\
  Presigned.geminiFileName s' = Some "files/abc123" /\
  Presigned.error s' = Some "Could not read duration" /\
  Presigned.statusMessage s' = EmptyString /\
  Presigned.statusMessage s' <> "Transcription complete!" /\
  Presigned.audioDuration s' = None.
Proof.
  vm_compute. repeat split; try reflexivity. discriminate.
Qed.

(** ** Replacing the asset during a run *)


Lemma replaced_idle (env : Env) (n : nat) (f' : option File) (s : Presigned.State) :
  idle f' (replaced env n f' s).
Proof.
  unfold replaced, final. simpl. unfold idle. simpl. repeat split; reflexivity.
Qed.



(** What the sample run stores for the new file. *)
Example C3_sample_late_completion :
  let fin := fst (late_completion env_ok 3 (Some other_recording) Presigned_selected) in
  Presigned.file fin = Some other_recording /\
  Presigned.transcriptTurns fin = Some sample_turns /\
  Presigned.geminiFileName fin = Some "files/abc123" /\
  Presigned.audioDuration fin = Some "00:02:30".
Proof. vm_compute. repeat split; reflexivity. Qed.

(** ** Failure of the transcription request *)

(** C5, as stated, fails in the transcoding variant, whose message wraps
    the detail of the service. *)
Lemma C5_transcoding_message_wrapped :
  Transcoding.error (final env_transcribe_500 (Transcoding.handleSubmit Transcoding_selected)
                           Transcoding_selected)
  = Some "API Error (500): Transcription failed" /\
  ~ failure_message_as_claimed
      (events env_transcribe_500 (Transcoding.handleSubmit Transcoding_selected)
              Transcoding_selected)
      (Transcoding.error (final env_transcribe_500
                                (Transcoding.handleSubmit Transcoding_selected)
                                Transcoding_selected)).
Proof.
  split; [vm_compute; reflexivity|].
  intros H. specialize (H response_500 (Resolve error_body)).
  assert (A : transcription_answer
                (events env_transcribe_500 (Transcoding.handleSubmit Transcoding_selected)
                        Transcoding_selected) response_500 (Resolve error_body)).
  { split.
    - do 2 eexists. vm_compute. left. reflexivity.
    - vm_compute. right. left. reflexivity. }
  specialize (H A eq_refl). vm_compute in H. discriminate H.
Qed.

(** C5, amended.  When the transcription endpoint answers with a
    non-success response, the run fails with a message made from the answer.
    In page.tsx, when the body reads as JSON, the message is the detail of
    the service if it has one that is not empty, and the status text
    otherwise.  In the transcoding variant the message is
    [API Error (<status>): ] followed by the detail if the body reads as JSON
    and has one that is not empty, by [Unknown error] if it reads as JSON
    without one, and by the status text (or [Unknown error] if that is
    empty) if it does not read as JSON. *)
Theorem C5_failure_message_amended :
  (forall (env : Env) (s : Presigned.State) (resp : Response) (tj : JsonBody),
      transcription_answer (events env (Presigned.handleSubmit s) s) resp (Resolve tj) ->
      ok resp = false ->
      Presigned.error (final env (Presigned.handleSubmit s) s)
      = Some (JS.or_str (detail tj) (statusText resp))) /\
  (forall (env : Env) (s : Transcoding.State) (resp : Response) (b : outcome JsonBody),
      transcription_answer (events env (Transcoding.handleSubmit s) s) resp b ->
      ok resp = false ->
      Transcoding.error (final env (Transcoding.handleSubmit s) s)
      = Some ("API Error (" ++ JS.toString (status resp) ++ "): " ++
              match b with
              | Resolve tj => JS.or_str (detail tj) "Unknown error"
              | Reject _ => JS.or_str (Some (statusText resp)) "Unknown error"
              end)).
Proof.
  split.
  - intros env s resp tj [[rd [part Hf]] Hj] Hok. revert Hf Hj.
    unfold final, events, Presigned.handleSubmit.
    destruct (Presigned.file s) as [f|]; [|simpl; tauto].
    simpl. repeat branch env; intros Hf Hj;
      entries Hf; entries Hj; try congruence; reflexivity.
  - intros env s resp b [[rd [part Hf]] Hj] Hok. revert Hf Hj.
    unfold final, events, Transcoding.handleSubmit, Transcoding.probe.
    destruct (Transcoding.file s) as [f|]; [|simpl; tauto].
    simpl. repeat branch env; intros Hf Hj;
      entries Hf; entries Hj; try congruence; reflexivity.
Qed.

Lemma C5_failure_message_amended_witness :
  Presigned.error (final env_transcribe_500 (Presigned.handleSubmit Presigned_selected)
                         Presigned_selected)
  = Some (JS.or_str (detail error_body) (statusText response_500)) /\
  Transcoding.error (final env_transcribe_500 (Transcoding.handleSubmit Transcoding_selected)
                           Transcoding_selected)
  = Some ("API Error (" ++ JS.toString (status response_500) ++ "): " ++
          JS.or_str (detail error_body) "Unknown error").
Proof.
  split.
  - apply (proj1 C5_failure_message_amended env_transcribe_500 Presigned_selected
                 response_500 error_body); [|reflexivity].
    split.
    + do 2 eexists. vm_compute. do 3 right. left. reflexivity.
    + vm_compute. do 4 right. left. reflexivity.
  - apply (proj2 C5_failure_message_amended env_transcribe_500 Transcoding_selected
                 response_500 (Resolve error_body)); [|reflexivity].
    split.
    + do 2 eexists. vm_compute. left. reflexivity.
    + vm_compute. right. left. reflexivity.
Defined.

(** ** Export *)

Lemma until_quote_plain (n : string) :
  plain_name n = true ->
  until_quote DQUOTE (n ++ String DQUOTE EmptyString) = Some (n ++ String DQUOTE EmptyString).
Proof.
  unfold plain_name.
  induction n as [|c r IH]; intros H.
  - reflexivity.
  - simpl in H. apply andb_true_iff in H. destruct H as [Hc Hr].
    apply negb_true_iff in Hc. apply orb_false_iff in Hc. destruct Hc as [Hc Hcr].
    apply orb_false_iff in Hc. destruct Hc as [Hq Hlf].
    unfold is_quote in Hq. apply orb_false_iff in Hq. destruct Hq as [_ Hdq].
    change (String c r ++ String DQUOTE EmptyString)
      with (String c (r ++ String DQUOTE EmptyString)).
    simpl. rewrite Hdq, Hlf, Hcr. simpl. rewrite (IH Hr). reflexivity.
Qed.

Lemma strip_quotes_plain (n : string) :
  plain_name n = true ->
  strip_quotes (n ++ String DQUOTE EmptyString) = n.
Proof.
  unfold plain_name.
  induction n as [|c r IH]; intros H.
  - reflexivity.
  - simpl in H. apply andb_true_iff in H. destruct H as [Hc Hr].
    apply negb_true_iff in Hc. apply orb_false_iff in Hc. destruct Hc as [Hc _].
    apply orb_false_iff in Hc. destruct Hc as [Hq _].
    change (String c r ++ String DQUOTE EmptyString)
      with (String c (r ++ String DQUOTE EmptyString)).
    simpl. rewrite Hq. rewrite (IH Hr). reflexivity.
Qed.

Lemma attachment_named_shape (n : string) :
  JS.nonempty (attachment_named n) = true /\
  JS.includes "attachment" (attachment_named n) = true /\
  filenameRegex_exec (attachment_named n)
  = Some (group1 (String DQUOTE (n ++ String DQUOTE EmptyString))).
Proof.
  repeat split; reflexivity.
Qed.

(** A quoted name in an attachment header is the name suggested. *)
Lemma downloadFilename_named (file : option File) (n : string) :
  plain_name n = true ->
  downloadFilename file (Some (attachment_named n)) = n.
Proof.
  intros H. unfold downloadFilename.
  destruct (attachment_named_shape n) as [H1 [H2 H3]].
  rewrite H1, H2, H3. simpl andb. cbv iota.
  unfold group1. change (is_quote DQUOTE) with true. cbv iota.
  rewrite (until_quote_plain n H). simpl JS.nonempty. cbv iota.
  change (strip_quotes (String DQUOTE (n ++ String DQUOTE EmptyString)))
    with (strip_quotes (n ++ String DQUOTE EmptyString)).
  apply strip_quotes_plain, H.
Qed.

Lemma downloadFilename_default (file : option File) (d : string) :
  JS.includes "attachment" d = false ->
  downloadFilename file None = default_download_name file /\
  downloadFilename file (Some d) = default_download_name file.
Proof.
  intros H. unfold downloadFilename. rewrite H, andb_false_r. split; reflexivity.
Qed.

Lemma default_download_name_stem (file : option File) :
  default_download_name file
  = match file with
    | Some f => if JS.nonempty (stem (name f)) then stem (name f) else "transcript"
    | None => "transcript"
    end ++ "_transcript.docx".
Proof.
  unfold default_download_name. destruct file as [f|]; simpl; [|reflexivity].
  rewrite first_segment_stem. destruct (stem (name f)); reflexivity.
Qed.

Lemma run_value_token (n rest : string) :
  token_name n = true ->
  run_value n = n /\ run_value (n ++ String ";" rest) = n.
Proof.
  unfold token_name. induction n as [|c r IH]; intros H.
  - split; reflexivity.
  - simpl in H. apply andb_true_iff in H. destruct H as [Hc Hr].
    apply negb_true_iff in Hc. apply orb_false_iff in Hc. destruct Hc as [Hc Hlf].
    apply orb_false_iff in Hc. destruct Hc as [_ Hsemi].
    destruct (IH Hr) as [IH1 IH2].
    change (String c r ++ String ";" rest) with (String c (r ++ String ";" rest)).
    simpl. rewrite Hsemi, Hlf. simpl. rewrite IH1, IH2. split; reflexivity.
Qed.

Lemma strip_quotes_token (n : string) : token_name n = true -> strip_quotes n = n.
Proof.
  unfold token_name. induction n as [|c r IH]; intros H; [reflexivity|].
  simpl in H. apply andb_true_iff in H. destruct H as [Hc Hr].
  apply negb_true_iff in Hc. apply orb_false_iff in Hc. destruct Hc as [Hc _].
  apply orb_false_iff in Hc. destruct Hc as [Hq _].
  simpl. rewrite Hq, (IH Hr). reflexivity.
Qed.

Lemma group1_token (c : ascii) (r rest : string) :
  token_name (String c r) = true ->
  group1 (String c r) = String c r /\
  group1 (String c r ++ String ";" rest) = String c r.
Proof.
  intros H. destruct (@run_value_token _ rest H) as [H1 H2].
  assert (Hq : is_quote c = false).
  { unfold token_name in H. simpl in H. apply andb_true_iff in H. destruct H as [Hc _].
    apply negb_true_iff in Hc. apply orb_false_iff in Hc. destruct Hc as [Hc _].
    apply orb_false_iff in Hc. tauto. }
  change (String c r ++ String ";" rest) with (String c (r ++ String ";" rest)) in *.
  unfold group1. rewrite Hq. split; assumption.
Qed.

Lemma strip_prefix_prefix (p s r : string) :
  strip_prefix p s = Some r -> prefix p s = true.
Proof.
  revert s. induction p as [|a p IH]; intros s H.
  - destruct s; reflexivity.
  - destruct s as [|b s]; simpl in *; [discriminate|].
    destruct (Ascii.eqb a b) eqn:E; [|discriminate].
    apply Ascii.eqb_eq in E. subst b.
    destruct (ascii_dec a a) as [_|N]; [|congruence].
    apply (IH s H).
Qed.

(** A header in which the word [filename] does not occur has no name to
    give. *)
Lemma filenameRegex_exec_no_filename (d : string) :
  JS.includes "filename" d = false -> filenameRegex_exec d = None.
Proof.
  induction d as [|c d IH]; intros H.
  - reflexivity.
  - unfold JS.includes in H; fold JS.includes in H.
    apply orb_false_iff in H. destruct H as [Hp Hr].
    unfold filenameRegex_exec; fold filenameRegex_exec.
    destruct (strip_prefix "filename" (String c d)) as [rest|] eqn:E.
    + apply strip_prefix_prefix in E. congruence.
    + apply IH, Hr.
Qed.

Lemma downloadFilename_no_filename (file : option File) (d : string) :
  JS.includes "filename" d = false ->
  downloadFilename file (Some d) = default_download_name file.
Proof.
  intros H. unfold downloadFilename.
  rewrite (filenameRegex_exec_no_filename d H).
  destruct (JS.nonempty d && JS.includes "attachment" d); reflexivity.
Qed.

(** Whatever the header, without a usable name in it the default name is
    suggested. *)
Lemma downloadFilename_no_usable (file : option File) (d : string) :
  no_usable_filename d = true ->
  downloadFilename file (Some d) = default_download_name file.
Proof.
  unfold no_usable_filename, downloadFilename.
  destruct (filenameRegex_exec d) as [g|]; intros H.
  - apply negb_true_iff in H. rewrite H.
    destruct (JS.nonempty d && JS.includes "attachment" d); reflexivity.
  - destruct (JS.nonempty d && JS.includes "attachment" d); reflexivity.
Qed.

(** An attachment header with a usable name in it: the name without its
    quotes is suggested. *)
Lemma downloadFilename_usable (file : option File) (d g : string) :
  JS.includes "attachment" d = true ->
  filenameRegex_exec d = Some g -> JS.nonempty g = true ->
  downloadFilename file (Some d) = strip_quotes g.
Proof.
  intros Ha Hm Hg. unfold downloadFilename. rewrite Ha, Hm, Hg.
  destruct d as [|c d]; [discriminate Ha|]. reflexivity.
Qed.

Lemma downloadFilename_empty_value (file : option File) (rest : string) :
  downloadFilename file (Some "attachment; filename=") = default_download_name file /\
  downloadFilename file (Some ("attachment; filename=" ++ String ";" rest))
  = default_download_name file.
Proof. split; reflexivity. Qed.

Lemma downloadFilename_token (file : option File) (n rest : string) :
  token_name n = true -> n <> EmptyString ->
  downloadFilename file (Some ("attachment; filename=" ++ n)) = n /\
  downloadFilename file (Some ("attachment; filename=" ++ n ++ String ";" rest)) = n.
Proof.
  intros H Hn. destruct n as [|c r]; [congruence|].
  destruct (@group1_token _ _ rest H) as [G1 G2].
  pose proof (@strip_quotes_token _ H) as HS.
  split.
  - unfold downloadFilename.
    change (JS.nonempty ("attachment; filename=" ++ String c r)) with true.
    change (JS.includes "attachment" ("attachment; filename=" ++ String c r)) with true.
    change (filenameRegex_exec ("attachment; filename=" ++ String c r))
      with (Some (group1 (String c r))).
    rewrite G1. simpl andb. cbv iota. simpl JS.nonempty. cbv iota. exact HS.
  - unfold downloadFilename.
    change (JS.nonempty ("attachment; filename=" ++ String c r ++ String ";" rest))
      with true.
    change (JS.includes "attachment"
              ("attachment; filename=" ++ String c r ++ String ";" rest)) with true.
    change (filenameRegex_exec ("attachment; filename=" ++ String c r ++ String ";" rest))
      with (Some (group1 (String c r ++ String ";" rest))).
    rewrite G2. simpl andb. cbv iota. simpl JS.nonempty. cbv iota. exact HS.
Qed.

(** page.tsx never reads the header: the service names the document
    [report.docx] in an attachment header and the browser is told
    [hearing_transcript.docx]. *)
Lemma Presigned_export_ignores_header :
  export_answer (events env_named (Presigned.handleDownloadDocx Presigned_ready)
                        Presigned_ready) response_named /\
  content_disposition response_named = Some "attachment; filename=report.docx" /\
  suggested_names (events env_named (Presigned.handleDownloadDocx Presigned_ready)
                          Presigned_ready)
  = ["hearing_transcript.docx"] /\
  suggested_names (events env_named (Presigned.handleDownloadDocx Presigned_ready)
                          Presigned_ready)
  <> ["report.docx"].
Proof.
  split; [|split; [reflexivity | split; [vm_compute; reflexivity|]]].
  - split; [|split; [|reflexivity]].
    + eexists. vm_compute. left. reflexivity.
    + eexists. vm_compute. right. left. reflexivity.
  - vm_compute. discriminate.
Qed.

(** C7, as stated, fails in the transcoding variant by its own gate: the
    service names the document [report.docx] in a header that is not an
    attachment, and the browser is told [hearing_transcript.docx]. *)
Lemma C7_inline_header_not_honoured :
  export_answer (events env_inline (Transcoding.handleDownloadDocx Transcoding_ready)
                        Transcoding_ready) response_inline /\
  content_disposition response_inline = Some "inline; filename=report.docx" /\
  suggested_names (events env_inline (Transcoding.handleDownloadDocx Transcoding_ready)
                          Transcoding_ready)
  = ["hearing_transcript.docx"] /\
  suggested_names (events env_inline (Transcoding.handleDownloadDocx Transcoding_ready)
                          Transcoding_ready)
  <> ["report.docx"].
Proof.
  split; [|split; [reflexivity | split; [vm_compute; reflexivity|]]].
  - split; [|split; [|reflexivity]].
    + eexists. vm_compute. left. reflexivity.
    + eexists. vm_compute. right. left. reflexivity.
  - vm_compute. discriminate.
Qed.

(** C7, amended.  On a successful export the transcoding variant suggests
    the name its header parsing gives, and page.tsx, when the response has no
    content-disposition, the default name.  The default name is the stem of
    the display name (what precedes its first dot), or [transcript] when that
    is empty or no file is selected, followed by [_transcript.docx].  The
    header parsing gives the default name when there is no content-disposition,
    when it does not contain [attachment], and whenever it holds no usable
    name: no [filename] in it, or nothing after the equals sign.  It gives the
    name the service supplies, its quotes removed, when an attachment header
    holds one, quoted or not. *)
Theorem C7_export_name_amended :
  (forall (env : Env) (s : Presigned.State) (resp : Response),
      export_answer (events env (Presigned.handleDownloadDocx s) s) resp ->
      content_disposition resp = None ->
      suggested_names (events env (Presigned.handleDownloadDocx s) s)
      = [default_download_name (Presigned.file s)]) /\
  (forall (env : Env) (s : Transcoding.State) (resp : Response),
      export_answer (events env (Transcoding.handleDownloadDocx s) s) resp ->
      suggested_names (events env (Transcoding.handleDownloadDocx s) s)
      = [downloadFilename (Transcoding.file s) (content_disposition resp)]) /\
  (forall file : option File,
      default_download_name file
      = match file with
        | Some f => if JS.nonempty (stem (name f)) then stem (name f) else "transcript"
        | None => "transcript"
        end ++ "_transcript.docx") /\
  (forall (file : option File) (d : string),
      JS.includes "attachment" d = false ->
      downloadFilename file None = default_download_name file /\
      downloadFilename file (Some d) = default_download_name file) /\
  (forall (file : option File) (d : string),
      no_usable_filename d = true ->
      downloadFilename file (Some d) = default_download_name file) /\
  (forall (file : option File) (d : string),
      JS.includes "filename" d = false ->
      no_usable_filename d = true /\
      downloadFilename file (Some d) = default_download_name file) /\
  (forall (file : option File) (rest : string),
      downloadFilename file (Some "attachment; filename=") = default_download_name file /\
      downloadFilename file (Some ("attachment; filename=" ++ String ";" rest))
      = default_download_name file) /\
  (forall (file : option File) (d g : string),
      JS.includes "attachment" d = true ->
      filenameRegex_exec d = Some g -> JS.nonempty g = true ->
      downloadFilename file (Some d) = strip_quotes g) /\
  (forall (file : option File) (n : string),
      plain_name n = true ->
      downloadFilename file (Some (attachment_named n)) = n) /\
  (forall (file : option File) (n rest : string),
      token_name n = true -> n <> EmptyString ->
      downloadFilename file (Some ("attachment; filename=" ++ n)) = n /\
      downloadFilename file (Some ("attachment; filename=" ++ n ++ String ";" rest)) = n).
Proof.
  split; [|split; [|split; [|split; [|split; [|split; [|split; [|split; [|split]]]]]]]].
  - intros env s resp [[body Hf] [[data Hb] Hok]] _. revert Hf Hb.
    unfold events, Presigned.handleDownloadDocx.
    destruct (Presigned.transcriptTurns s) as [turns|]; [|simpl; tauto].
    destruct (JS.truthy (Presigned.geminiFileName s)); [|simpl; tauto].
    simpl. repeat branch env; intros Hf Hb;
      entries Hf; entries Hb; try congruence; reflexivity.
  - intros env s resp [[body Hf] [[data Hb] Hok]]. revert Hf Hb.
    unfold events, Transcoding.handleDownloadDocx.
    destruct (Transcoding.transcriptTurns s) as [turns|]; [|simpl; tauto].
    destruct (JS.truthy (Transcoding.geminiFileName s)); [|simpl; tauto].
    simpl. repeat branch env; intros Hf Hb;
      entries Hf; entries Hb; try congruence; reflexivity.
  - apply default_download_name_stem.
  - apply downloadFilename_default.
  - apply downloadFilename_no_usable.
  - intros file d H. split.
    + unfold no_usable_filename. now rewrite (filenameRegex_exec_no_filename d H).
    + apply downloadFilename_no_filename, H.
  - apply downloadFilename_empty_value.
  - apply downloadFilename_usable.
  - apply downloadFilename_named.
  - apply downloadFilename_token.
Qed.

Lemma C7_export_name_amended_witness :
  (content_disposition response_200 = None /\
   suggested_names (events env_ok (Presigned.handleDownloadDocx Presigned_ready)
                           Presigned_ready)
   = [default_download_name (Presigned.file Presigned_ready)]) /\
  suggested_names (events env_named (Transcoding.handleDownloadDocx Transcoding_ready)
                          Transcoding_ready)
  = [downloadFilename (Transcoding.file Transcoding_ready)
                      (content_disposition response_named)] /\
  downloadFilename (Some recording) (Some "inline") = default_download_name (Some recording) /\
  (no_usable_filename "attachment; filename=" = true /\
   downloadFilename (Some recording) (Some "attachment; filename=")
   = default_download_name (Some recording)) /\
  (JS.includes "filename" "attachment" = false /\
   downloadFilename (Some recording) (Some "attachment")
   = default_download_name (Some recording)) /\
  downloadFilename (Some recording) (Some "attachment; filename='a b.docx'; size=3")
  = strip_quotes "'a b.docx'" /\
  downloadFilename (Some recording) (Some (attachment_named "report.docx")) = "report.docx" /\
  downloadFilename (Some recording) (Some ("attachment; filename=" ++ "report.docx"))
  = "report.docx".
Proof.
  pose proof C7_export_name_amended
    as [P1 [P2 [_ [P4 [P5 [P6 [_ [P8 [P9 P10]]]]]]]]].
  split; [|split; [|split; [|split; [|split; [|split; [|split]]]]]].
  - split; [reflexivity|].
    apply (P1 env_ok Presigned_ready response_200); [|reflexivity].
    split; [|split; [|reflexivity]].
    + eexists. vm_compute. left. reflexivity.
    + eexists. vm_compute. right. left. reflexivity.
  - apply (P2 env_named Transcoding_ready response_named).
    split; [|split; [|reflexivity]].
    + eexists. vm_compute. left. reflexivity.
    + eexists. vm_compute. right. left. reflexivity.
  - apply (P4 (Some recording) "inline"). reflexivity.
  - split; [reflexivity|].
    apply (P5 (Some recording) "attachment; filename="). reflexivity.
  - split; [reflexivity|].
    apply (P6 (Some recording) "attachment"). reflexivity.
  - apply (P8 (Some recording) "attachment; filename='a b.docx'; size=3" "'a b.docx'");
      reflexivity.
  - apply (P9 (Some recording) "report.docx"). reflexivity.
  - apply (P10 (Some recording) "report.docx" EmptyString); [reflexivity|discriminate].
Defined.

(** ** Sample values *)

Example hhmmss_150 : hhmmss (inject_Z 150) = "00:02:30".
Proof. vm_compute. reflexivity. Qed.

Example formatDuration_150 : formatDuration (inject_Z 150) = "00:02:30".
Proof. vm_compute. reflexivity. Qed.

Example parseInt_ex :
  JS.parseInt "12" = JS.Num 12 /\ JS.parseInt " -3x" = JS.Num (-3) /\
  JS.parseInt ".5" = JS.NaN /\ JS.parseInt "2.5" = JS.Num 2 /\
  JS.parseInt EmptyString = JS.NaN.
Proof. vm_compute. repeat split. Qed.

Example split_ex :
  JS.split_dot "my.rec.mp3" = ["my"; "rec"; "mp3"] /\
  JS.first_segment ".hidden" = EmptyString /\ JS.last_segment "a.b." = EmptyString /\
  JS.trim "  a b " = "a b" /\ JS.includes "att" "x; attachment" = true.
Proof. vm_compute. repeat split. Qed.

(* ===================================================================== *)
(** * Further properties of the handlers                                  *)
(* ===================================================================== *)

(** ** More on durations *)

Lemma string_length_append (a b : string) :
  String.length (a ++ b) = String.length a + String.length b.
Proof.
  induction a as [|c a IH]; [reflexivity|].
  change (String c a ++ b) with (String c (a ++ b)). simpl. now rewrite IH.
Qed.

Lemma pad2_below_60 (z : Z) :
  (0 <= z < 60)%Z -> String.length (JS.padStart0 2 (JS.toString z)) = 2.
Proof.
  intros H. rewrite <- (Z2Nat.id z) by lia.
  assert (Hn : Z.to_nat z < 60) by lia.
  generalize dependent (Z.to_nat z). intros n Hn.
  do 60 (destruct n as [|n]; [vm_compute; reflexivity|]). lia.
Qed.

(** X1.  [formatDuration] renders a non-negative number of seconds below
    2^53, where the source computes exactly, as [HH:MM:SS]: [floor(s/3600)]
    hours, however many, then the minutes and the seconds below sixty, each
    padded to two digits. *)
Theorem X1_formatDuration_renders (s : Q) :
  (0 <= s)%Q -> (s < inject_Z max_exact_seconds)%Q ->
  formatDuration s = HH_MM_SS s.
Proof. intros H _. apply formatDuration_HH_MM_SS, H. Qed.

Lemma X1_formatDuration_renders_witness :
  (0 <= 7325 # 2)%Q /\ (7325 # 2 < inject_Z max_exact_seconds)%Q /\
  formatDuration (7325 # 2)%Q = HH_MM_SS (7325 # 2)%Q.
Proof.
  split; [unfold Qle; simpl; lia|].
  split; [unfold Qlt, max_exact_seconds; simpl; lia|].
  apply (@X1_formatDuration_renders (7325 # 2)%Q).
  - unfold Qle; simpl; lia.
  - unfold Qlt, max_exact_seconds; simpl; lia.
Defined.

(** X2.  [hhmmss] renders a non-negative number of seconds below 2^53,
    where the source computes exactly, with all three fields taken modulo
    sixty, the hours included, so that its result has the eight characters of
    [dd:dd:dd]; fractions of a second are dropped. *)
Theorem X2_hhmmss_renders (s : Q) :
  (0 <= s)%Q -> (s < inject_Z max_exact_seconds)%Q ->
  hhmmss s =
    JS.padStart0 2 (JS.toString ((Qfloor s / 3600) mod 60)) ++ ":" ++
    JS.padStart0 2 (JS.toString ((Qfloor s / 60) mod 60)) ++ ":" ++
    JS.padStart0 2 (JS.toString (Qfloor s mod 60)) /\
  String.length (hhmmss s) = 8.
Proof.
  intros Hs _. pose proof (Qfloor_nonneg Hs) as HF.
  assert (E : hhmmss s =
    JS.padStart0 2 (JS.toString ((Qfloor s / 3600) mod 60)) ++ ":" ++
    JS.padStart0 2 (JS.toString ((Qfloor s / 60) mod 60)) ++ ":" ++
    JS.padStart0 2 (JS.toString (Qfloor s mod 60))).
  { unfold hhmmss. cbn [map JS.join_colon].
    rewrite (Qfloor_div_pos s 3600), (Qfloor_div_pos s 60), (Qfloor_div_pos s 1).
    rewrite Z.div_1_r.
    rewrite !Z.rem_mod_nonneg by (try apply Z.div_pos; lia).
    reflexivity. }
  split; [exact E|]. rewrite E.
  rewrite !string_length_append.
  rewrite !pad2_below_60 by (apply Z.mod_pos_bound; lia).
  reflexivity.
Qed.

Lemma X2_hhmmss_renders_witness :
  (0 <= inject_Z 216061)%Q /\ (inject_Z 216061 < inject_Z max_exact_seconds)%Q /\
  hhmmss (inject_Z 216061) = "00:01:01".
Proof.
  split; [unfold Qle; simpl; lia|].
  split; [unfold Qlt, max_exact_seconds; simpl; lia|].
  rewrite (proj1 (@X2_hhmmss_renders (inject_Z 216061)
                    ltac:(unfold Qle; simpl; lia)
                    ltac:(unfold Qlt, max_exact_seconds; simpl; lia))).
  vm_compute. reflexivity.
Defined.

(** X3.  Below sixty hours the two formatters give the same [HH:MM:SS]. *)
Theorem X3_formatters_agree (s : Q) :
  (0 <= s)%Q -> (s < 216000)%Q ->
  hhmmss s = HH_MM_SS s /\ formatDuration s = HH_MM_SS s.
Proof.
  intros H0 H1. split.
  - apply hhmmss_HH_MM_SS; assumption.
  - apply formatDuration_HH_MM_SS; assumption.
Qed.

Lemma X3_formatters_agree_witness :
  (0 <= inject_Z 150)%Q /\ (inject_Z 150 < 216000)%Q /\
  hhmmss (inject_Z 150) = HH_MM_SS (inject_Z 150) /\
  formatDuration (inject_Z 150) = HH_MM_SS (inject_Z 150).
Proof.
  split; [unfold Qle; simpl; lia|]. split; [unfold Qlt; simpl; lia|].
  apply (@X3_formatters_agree (inject_Z 150)).
  - unfold Qle; simpl; lia.
  - unfold Qlt; simpl; lia.
Defined.

(** ** More on the speaker count *)

Lemma resize_firstn_repeat (z : Z) (prev : list string) :
  (1 <= z)%Z ->
  JS.resize (JS.Num z) prev
  = (firstn (Z.to_nat z) prev ++ repeat EmptyString (Z.to_nat z - List.length prev))%list.
Proof.
  intros Hz. unfold JS.resize, JS.gt_length.
  destruct (Z.of_nat (List.length prev) <? z)%Z eqn:E.
  - apply Z.ltb_lt in E. unfold JS.pad_empty.
    rewrite firstn_all2 by lia. f_equal. f_equal. lia.
  - apply Z.ltb_ge in E. unfold JS.slice0.
    replace (z <? 0)%Z with false by (symmetry; apply Z.ltb_ge; lia).
    replace (Z.to_nat z - List.length prev) with 0 by lia.
    simpl. now rewrite app_nil_r.
Qed.

Lemma filter_trim_repeat_empty (n : nat) : filter_trim (repeat EmptyString n) = [].
Proof. induction n as [|n IH]; [reflexivity|]. simpl. exact IH. Qed.

Lemma filter_trim_app (a b : list string) :
  filter_trim (a ++ b) = (filter_trim a ++ filter_trim b)%list.
Proof. unfold filter_trim. apply filter_app. Qed.

Lemma Presigned_names_after_change (env : Env) (value : string) (z : Z)
    (s : Presigned.State) :
  JS.parseInt (if JS.nonempty value then value else "1") = JS.Num z ->
  Presigned.speakerNames (final env (Presigned.changeNumSpeakers value) s)
  = (firstn (Z.to_nat (Z.max 1 z)) (Presigned.speakerNames s)
     ++ repeat EmptyString
          (Z.to_nat (Z.max 1 z) - List.length (Presigned.speakerNames s)))%list.
Proof.
  intros Hp. unfold final, Presigned.changeNumSpeakers.
  rewrite Hp. simpl. apply resize_firstn_repeat. lia.
Qed.

(** X4.  page.tsx: whenever [parseInt] reads in the count field a number
    that an array can have as its length (at most 2^32 - 1), the stored count
    is that number raised to at least 1, and the list of identifiers becomes
    the identifiers already typed, in order, up to the new count, followed by
    empty entries up to the new count; so it has exactly as many entries as
    the count says. *)
Theorem X4_Presigned_count_change (env : Env) (value : string) (z : Z)
    (s : Presigned.State) :
  JS.parseInt (if JS.nonempty value then value else "1") = JS.Num z ->
  (z <= max_array_length)%Z ->
  let s' := final env (Presigned.changeNumSpeakers value) s in
  let m := Z.to_nat (Z.max 1 z) in
  Presigned.numSpeakers s' = JS.Num (Z.max 1 z) /\
  Presigned.speakerNames s'
  = (firstn m (Presigned.speakerNames s)
     ++ repeat EmptyString (m - List.length (Presigned.speakerNames s)))%list /\
  List.length (Presigned.speakerNames s') = m.
Proof.
  intros Hp _. cbv zeta. split; [|split].
  - unfold final, Presigned.changeNumSpeakers. rewrite Hp. reflexivity.
  - apply Presigned_names_after_change, Hp.
  - rewrite (Presigned_names_after_change env value s Hp).
    rewrite length_app, length_firstn, repeat_length. lia.
Qed.

Lemma X4_Presigned_count_change_witness :
  JS.parseInt (if JS.nonempty "3" then "3" else "1") = JS.Num 3 /\
  (3 <= max_array_length)%Z /\
  Presigned.speakerNames
    (final env_ok (Presigned.changeNumSpeakers "3")
           (Presigned.set_speakerNames ["JUDGE"; "COUNSEL"] Presigned.init))
  = ["JUDGE"; "COUNSEL"; EmptyString].
Proof.
  assert (Hb : (3 <= max_array_length)%Z) by (unfold max_array_length; lia).
  split; [reflexivity|]. split; [exact Hb|].
  rewrite (proj1 (proj2 (@X4_Presigned_count_change env_ok "3" 3
             (Presigned.set_speakerNames ["JUDGE"; "COUNSEL"] Presigned.init)
             eq_refl Hb))).
  reflexivity.
Defined.

(** X5.  Restyled variant: on every input of the count field, unreadable,
    or read as a number that an array can have as its length (at most
    2^32 - 1), the stored count is at least 1 and the list of identifiers has
    exactly that many entries. *)
Theorem X5_Restyled_count_kept (value : string) (prev : list string) :
  (forall z, JS.parseInt value = JS.Num z -> (z <= max_array_length)%Z) ->
  exists z : Z,
    fst (Restyled.handleNumSpeakersChange value prev) = JS.Num z /\
    (1 <= z <= max_array_length)%Z /\
    Z.of_nat (List.length (snd (Restyled.handleNumSpeakersChange value prev))) = z.
Proof.
  intros Hb. unfold Restyled.handleNumSpeakersChange. simpl.
  destruct (max1_or1_ge_1 (JS.parseInt value)) as [z [Hz Hge]].
  exists z. rewrite Hz. split; [reflexivity|]. split.
  - split; [exact Hge|].
    destruct (JS.parseInt value) as [|p] eqn:E.
    + simpl in Hz. injection Hz as <-. unfold max_array_length. lia.
    + specialize (Hb p eq_refl). revert Hz. unfold JS.max1, JS.or1.
      destruct p as [|q|q]; simpl; intros Hz; injection Hz as <-;
        unfold max_array_length in *; lia.
  - apply resize_length, Hge.
Qed.

Lemma X5_Restyled_count_kept_witness :
  (forall z, JS.parseInt "3" = JS.Num z -> (z <= max_array_length)%Z) /\
  exists z : Z,
    fst (Restyled.handleNumSpeakersChange "3" ["JUDGE"; "COUNSEL"]) = JS.Num z /\
    (1 <= z <= max_array_length)%Z /\
    Z.of_nat (List.length (snd (Restyled.handleNumSpeakersChange "3" ["JUDGE"; "COUNSEL"])))
    = z.
Proof.
  assert (H : forall z, JS.parseInt "3" = JS.Num z -> (z <= max_array_length)%Z).
  { intros z E. change (JS.parseInt "3") with (JS.Num 3) in E.
    injection E as <-. unfold max_array_length. lia. }
  split; [exact H|].
  apply (@X5_Restyled_count_kept "3" ["JUDGE"; "COUNSEL"] H).
Defined.

(** X6.  Transcoding variant: whenever the count field does not read as a
    negative number (an unreadable one and zero count as 1) nor as one beyond
    the largest length of an array (2^32 - 1), the stored count is at least 1
    and the list of identifiers has exactly that many entries. *)
Theorem X6_Transcoding_count_kept (env : Env) (value : string)
    (s : Transcoding.State) :
  (forall z, JS.parseInt value = JS.Num z -> (0 <= z <= max_array_length)%Z) ->
  let s' := final env (Transcoding.handleNumSpeakersChange value) s in
  exists c : Z,
    Transcoding.numSpeakers s' = JS.Num c /\ (1 <= c <= max_array_length)%Z /\
    Z.of_nat (List.length (Transcoding.speakerNames s')) = c.
Proof.
  intros Hp. unfold final, Transcoding.handleNumSpeakersChange. simpl.
  destruct (JS.parseInt value) as [|z] eqn:E; simpl.
  - exists 1%Z. repeat split; try (unfold max_array_length; lia).
    apply resize_length. lia.
  - specialize (Hp z eq_refl). destruct z as [|p|p]; simpl; try lia.
    + exists 1%Z. repeat split; try (unfold max_array_length; lia).
      apply resize_length. lia.
    + exists (Z.pos p). repeat split; try lia. apply resize_length. lia.
Qed.

Lemma X6_Transcoding_count_kept_witness :
  (forall z, JS.parseInt "abc" = JS.Num z -> (0 <= z <= max_array_length)%Z) /\
  (let s' := final env_ok (Transcoding.handleNumSpeakersChange "abc") Transcoding.init in
   exists c : Z,
     Transcoding.numSpeakers s' = JS.Num c /\ (1 <= c <= max_array_length)%Z /\
     Z.of_nat (List.length (Transcoding.speakerNames s')) = c).
Proof.
  assert (H : forall z, JS.parseInt "abc" = JS.Num z -> (0 <= z <= max_array_length)%Z)
    by (intros z E; discriminate E).
  split; [exact H|].
  apply (@X6_Transcoding_count_kept env_ok "abc" Transcoding.init H).
Defined.

(** X7.  page.tsx: raising the count, to no more than the largest length
    of an array (2^32 - 1), and then setting it back restores the list of
    identifiers exactly. *)
Theorem X7_Presigned_count_round_trip (env : Env) (up back : string) (z : Z)
    (s : Presigned.State) :
  let len := Z.of_nat (List.length (Presigned.speakerNames s)) in
  (1 <= len)%Z -> (len <= z)%Z -> (z <= max_array_length)%Z ->
  JS.parseInt (if JS.nonempty up then up else "1") = JS.Num z ->
  JS.parseInt (if JS.nonempty back then back else "1") = JS.Num len ->
  let s1 := final env (Presigned.changeNumSpeakers up) s in
  let s2 := final env (Presigned.changeNumSpeakers back) s1 in
  Presigned.speakerNames s2 = Presigned.speakerNames s.
Proof.
  intros len H1 Hz _ Hup Hback. cbv zeta.
  rewrite (Presigned_names_after_change env back _ Hback).
  rewrite (Presigned_names_after_change env up s Hup).
  fold len. set (old := Presigned.speakerNames s) in *.
  replace (Z.to_nat (Z.max 1 len)) with (List.length old) by lia.
  rewrite (firstn_all2 (n := Z.to_nat (Z.max 1 z)) old) by lia.
  rewrite firstn_app, firstn_all, Nat.sub_diag. simpl firstn. rewrite app_nil_r.
  rewrite length_app, repeat_length.
  replace (List.length old - (List.length old + (Z.to_nat (Z.max 1 z) - List.length old)))
    with 0 by lia.
  simpl. apply app_nil_r.
Qed.

Lemma X7_Presigned_count_round_trip_witness :
  ((1 <= 2)%Z /\ (2 <= 5)%Z /\ (5 <= max_array_length)%Z) /\
  Presigned.speakerNames
    (final env_ok (Presigned.changeNumSpeakers "2")
           (final env_ok (Presigned.changeNumSpeakers "5")
                  (Presigned.set_speakerNames ["JUDGE"; "COUNSEL"] Presigned.init)))
  = ["JUDGE"; "COUNSEL"].
Proof.
  split; [unfold max_array_length; lia|].
  apply (@X7_Presigned_count_round_trip env_ok "5" "2" 5
           (Presigned.set_speakerNames ["JUDGE"; "COUNSEL"] Presigned.init)).
  - simpl. lia.
  - simpl. lia.
  - unfold max_array_length. lia.
  - reflexivity.
  - reflexivity.
Defined.

(** X8.  page.tsx: the entries a raised count adds are blank, so raising
    the count, to no more than the largest length of an array (2^32 - 1),
    never changes the identifiers a submission sends. *)
Theorem X8_Presigned_padding_not_submitted (env : Env) (value : string) (z : Z)
    (s : Presigned.State) :
  JS.parseInt (if JS.nonempty value then value else "1") = JS.Num z ->
  (Z.of_nat (List.length (Presigned.speakerNames s)) <= z)%Z ->
  (z <= max_array_length)%Z ->
  filter_trim (Presigned.speakerNames (final env (Presigned.changeNumSpeakers value) s))
  = filter_trim (Presigned.speakerNames s).
Proof.
  intros Hp Hz _. rewrite (Presigned_names_after_change env value s Hp).
  rewrite filter_trim_app, filter_trim_repeat_empty, app_nil_r.
  rewrite firstn_all2 by lia. reflexivity.
Qed.

Lemma X8_Presigned_padding_not_submitted_witness :
  (5 <= max_array_length)%Z /\
  let s := Presigned.set_speakerNames ["JUDGE"; "COUNSEL"] Presigned.init in
  filter_trim (Presigned.speakerNames (final env_ok (Presigned.changeNumSpeakers "5") s))
  = ["JUDGE"; "COUNSEL"].
Proof.
  assert (Hb : (5 <= max_array_length)%Z) by (unfold max_array_length; lia).
  split; [exact Hb|]. cbv zeta.
  rewrite (@X8_Presigned_padding_not_submitted env_ok "5" 5
             (Presigned.set_speakerNames ["JUDGE"; "COUNSEL"] Presigned.init)
             eq_refl ltac:(simpl; lia) Hb).
  reflexivity.
Defined.

(** ** More on submission *)

(** X9.  A submission with a file selected, whose awaited actions all
    settle, ends with the processing flag down and with one of two things
    shown: the status [Transcription complete!], or an error and an empty
    status.  This holds whatever the other handlers of the page do to the
    session while the run is suspended.  When none of them sets the error
    (as the failed loading of the engine does in the transcoding variant), a
    run that ends with [Transcription complete!] ends without error.  Both
    variants. *)
Theorem X9_submit_outcome :
  (forall (env : Env) (others : list Event -> Presigned.State -> Presigned.State)
          (s : Presigned.State),
      Presigned.file s <> None ->
      let s' := fst (fst (run_among env others (Presigned.handleSubmit s) s [])) in
      Presigned.isProcessing s' = false /\
      (Presigned.statusMessage s' = "Transcription complete!" \/
       (exists m, Presigned.error s' = Some m /\
                  Presigned.statusMessage s' = EmptyString)) /\
      ((forall tr st, Presigned.error (others tr st) = Presigned.error st) ->
       Presigned.statusMessage s' = "Transcription complete!" ->
       Presigned.error s' = None)) /\
  (forall (env : Env) (others : list Event -> Transcoding.State -> Transcoding.State)
          (s : Transcoding.State),
      Transcoding.file s <> None ->
      let s' := fst (fst (run_among env others (Transcoding.handleSubmit s) s [])) in
      Transcoding.isProcessing s' = false /\
      (Transcoding.statusMessage s' = "Transcription complete!" \/
       (exists m, Transcoding.error s' = Some m /\
                  Transcoding.statusMessage s' = EmptyString)) /\
      ((forall tr st, Transcoding.error (others tr st) = Transcoding.error st) ->
       Transcoding.statusMessage s' = "Transcription complete!" ->
       Transcoding.error s' = None)).
Proof.
  split; intros env others s Hf.
  - unfold Presigned.handleSubmit, Presigned.getDuration.
    destruct (Presigned.file s) as [f|]; [clear Hf|congruence].
    simpl. repeat branch env;
      (split; [reflexivity|]);
      (split; [first [ left; reflexivity | right; eexists; split; reflexivity ]|]);
      intros He Hs; try discriminate Hs;
      repeat (rewrite He; simpl); reflexivity.
  - unfold Transcoding.handleSubmit, Transcoding.probe.
    destruct (Transcoding.file s) as [f|]; [clear Hf|congruence].
    simpl. repeat branch env;
      (split; [reflexivity|]);
      (split; [first [ left; reflexivity | right; eexists; split; reflexivity ]|]);
      intros He Hs; try discriminate Hs;
      repeat (rewrite He; simpl); reflexivity.
Qed.

Lemma X9_submit_outcome_witness :
  (Presigned.file Presigned_selected <> None /\
   let s' := fst (fst (run_among env_ok (fun _ st => st)
                         (Presigned.handleSubmit Presigned_selected)
                         Presigned_selected [])) in
   Presigned.isProcessing s' = false /\
   Presigned.statusMessage s' = "Transcription complete!" /\
   Presigned.error s' = None) /\
  (Transcoding.file Transcoding_selected <> None /\
   let s' := fst (fst (run_among env_ok load_failed
                         (Transcoding.handleSubmit Transcoding_selected)
                         Transcoding_selected [])) in
   Transcoding.isProcessing s' = false /\
   Transcoding.statusMessage s' = "Transcription complete!" /\
   Transcoding.error s'
   = Some "Failed to load FFmpeg component. Video conversion unavailable.").
Proof.
  assert (HP : Presigned.file Presigned_selected <> None) by discriminate.
  assert (HT : Transcoding.file Transcoding_selected <> None) by discriminate.
  split.
  - split; [exact HP|]. cbv zeta.
    pose proof (proj1 X9_submit_outcome env_ok (fun _ st => st) Presigned_selected HP)
      as H.
    cbv zeta in H. destruct H as [H1 [_ H3]].
    split; [exact H1|]. split; [reflexivity|].
    exact (H3 (fun _ _ => eq_refl) eq_refl).
  - split; [exact HT|]. cbv zeta.
    pose proof (proj2 X9_submit_outcome env_ok load_failed Transcoding_selected HT) as H.
    cbv zeta in H. destruct H as [H1 _].
    split; [exact H1|]. split; reflexivity.
Defined.

(** X10.  The steps of a submission are strictly in sequence.  In page.tsx
    the endpoints called are, in this order and with nothing else, the
    presign, the upload and the transcription, the run stopping after any of
    them; with a file selected the presign is always called.  In the
    transcoding variant the only endpoint ever called is the transcription,
    at most once. *)
Theorem X10_submit_sequence :
  (forall (env : Env) (s : Presigned.State),
      let called := endpoints (events env (Presigned.handleSubmit s) s) in
      (exists rest, (called ++ rest)%list = [generate_r2_presigned; upload; transcribe]) /\
      (Presigned.file s <> None -> hd_error called = Some generate_r2_presigned)) /\
  (forall (env : Env) (s : Transcoding.State),
      let called := endpoints (events env (Transcoding.handleSubmit s) s) in
      called = [] \/ called = [transcribe]).
Proof.
  split; intros env s; unfold events.
  - unfold Presigned.handleSubmit, Presigned.getDuration.
    destruct (Presigned.file s) as [f|].
    + simpl. repeat branch env;
        (split; [eexists; simpl; reflexivity | intros _; reflexivity]).
    + simpl. split; [eexists; simpl; reflexivity | congruence].
  - unfold Transcoding.handleSubmit, Transcoding.probe.
    destruct (Transcoding.file s) as [f|]; [|left; reflexivity].
    simpl. repeat branch env;
      first [ left; reflexivity | right; reflexivity ].
Qed.

Lemma X10_submit_sequence_witness :
  Presigned.file Presigned_selected <> None /\
  hd_error (endpoints (events env_offline (Presigned.handleSubmit Presigned_selected)
                              Presigned_selected)) = Some generate_r2_presigned.
Proof.
  assert (HP : Presigned.file Presigned_selected <> None) by discriminate.
  split; [exact HP|].
  exact (proj2 (proj1 X10_submit_sequence env_offline Presigned_selected) HP).
Defined.

(** X11.  page.tsx: when the staging service answers the presign request
    with a non-success status, the run fails with [presign <status>] and
    neither the upload nor the transcription is attempted; when the upload is
    answered with a non-success status, the run fails with [upload <status>]
    and the transcription is not attempted. *)
Theorem X11_Presigned_staging_failure (env : Env) (s : Presigned.State) :
  let log := events env (Presigned.handleSubmit s) s in
  let s' := final env (Presigned.handleSubmit s) s in
  (forall n c pre,
      In (Some (GET_generate_r2_presigned n c, Resolve pre)) (map fetch_of log) ->
      ok pre = false ->
      Presigned.error s' = Some ("presign " ++ JS.toString (status pre)) /\
      endpoints log = [generate_r2_presigned]) /\
  (forall u c b put,
      In (Some (PUT_upload u c b, Resolve put)) (map fetch_of log) ->
      ok put = false ->
      Presigned.error s' = Some ("upload " ++ JS.toString (status put)) /\
      endpoints log = [generate_r2_presigned; upload]).
Proof.
  unfold final, events, Presigned.handleSubmit, Presigned.getDuration.
  destruct (Presigned.file s) as [f|]; [|simpl; split; intros; tauto].
  simpl. repeat branch env;
    (split; [intros n c pre H Hok | intros u c b put H Hok]);
    entries H; try congruence; split; reflexivity.
Qed.

Lemma X11_Presigned_staging_failure_witness :
  Presigned.error (final env_presign_403 (Presigned.handleSubmit Presigned_selected)
                         Presigned_selected)
  = Some ("presign " ++ JS.toString (status response_403)) /\
  Presigned.error (final env_upload_403 (Presigned.handleSubmit Presigned_selected)
                         Presigned_selected)
  = Some ("upload " ++ JS.toString (status response_403)).
Proof.
  split.
  - apply (proj1 (X11_Presigned_staging_failure env_presign_403 Presigned_selected)
             "hearing.mp3" "audio/mpeg" response_403); [|reflexivity].
    vm_compute. left. reflexivity.
  - apply (proj2 (X11_Presigned_staging_failure env_upload_403 Presigned_selected)
             (Some "https://r2.example/put") "audio/mpeg" recording response_403);
      [|reflexivity].
    vm_compute. do 2 right. left. reflexivity.
Defined.

(** X12.  page.tsx: when a request of the run cannot be made at all (the
    fetch rejects), the run fails with the message of the rejection, whichever
    of the three requests it was. *)
Theorem X12_Presigned_network_failure (env : Env) (s : Presigned.State)
    (req : Request) (e : Thrown) :
  In (Some (req, Reject e)) (map fetch_of (events env (Presigned.handleSubmit s) s)) ->
  Presigned.error (final env (Presigned.handleSubmit s) s) = Some (message_of e) /\
  Presigned.statusMessage (final env (Presigned.handleSubmit s) s) = EmptyString.
Proof.
  unfold final, events, Presigned.handleSubmit, Presigned.getDuration.
  destruct (Presigned.file s) as [f|]; [|simpl; tauto].
  simpl. repeat branch env; intros H; entries H; split; reflexivity.
Qed.

Lemma X12_Presigned_network_failure_witness :
  Presigned.error (final env_offline (Presigned.handleSubmit Presigned_selected)
                         Presigned_selected) = Some "Failed to fetch" /\
  Presigned.statusMessage (final env_offline (Presigned.handleSubmit Presigned_selected)
                                 Presigned_selected) = EmptyString.
Proof.
  apply (@X12_Presigned_network_failure env_offline Presigned_selected
           (GET_generate_r2_presigned "hearing.mp3" "audio/mpeg")
           (Error "Failed to fetch")).
  vm_compute. left. reflexivity.
Defined.

Lemma same_handle_eq (a b : option string) : same_handle a b = true -> a = b.
Proof.
  destruct a as [x|], b as [y|]; simpl; intros H; try discriminate H; [|reflexivity].
  apply String.eqb_eq in H. now subst.
Qed.

Lemma Presigned_destructor_idle (env : Env) (r s : Presigned.State) :
  JS.truthy (Presigned.geminiFileName s) = false ->
  JS.truthy (Presigned.r2ObjectKey s) = false ->
  same_deps r s = true ->
  forall st tr, run env (Presigned_destructor r) st tr = (st, tr, Resolve tt).
Proof.
  intros Hg Hr Hd st tr. unfold same_deps in Hd.
  apply andb_true_iff in Hd. destruct Hd as [H1 H2].
  apply same_handle_eq in H1. apply same_handle_eq in H2.
  unfold Presigned_destructor. rewrite H1, H2, Hg, Hr. reflexivity.
Qed.

(** X13.  page.tsx, for a session that holds no handle when the run
    starts: the effect installed on the page has nothing to clean up when the
    run stores its handles, and a run that ends without error has called the
    three endpoints, read two bodies and probed one duration, and has stored
    what the transcription answered: its turns as they came, its handle, the
    staging key it echoes or else the key of the presign answer, and, for a
    probed duration of at least zero and below 2^53 seconds, that duration
    rendered by [hhmmss]. *)
Theorem X13_Presigned_success_stores (env : Env) (s : Presigned.State) :
  Presigned.file s <> None ->
  JS.truthy (Presigned.geminiFileName s) = false ->
  JS.truthy (Presigned.r2ObjectKey s) = false ->
  let log := events env (Presigned.handleSubmit s) s in
  let s' := final env (Presigned.handleSubmit s) s in
  Presigned.error s' = None ->
  (forall r, same_deps r s = true ->
     forall st tr, run env (Presigned_destructor r) st tr = (st, tr, Resolve tt)) /\
  exists pj tj d,
    json_bodies log = [pj; tj] /\ durations log = [d] /\
    endpoints log = [generate_r2_presigned; upload; transcribe] /\
    Presigned.transcriptTurns s' = transcript_turns tj /\
    Presigned.geminiFileName s' = gemini_file_name tj /\
    Presigned.r2ObjectKey s' = JS.or (r2_object_key tj) (object_key pj) /\
    ((0 <= d)%Q -> (d < inject_Z max_exact_seconds)%Q ->
     Presigned.audioDuration s' = Some (hhmmss d)) /\
    Presigned.statusMessage s' = "Transcription complete!".
Proof.
  intros Hf Hg Hr. cbv zeta. intros He. split.
  - intros r Hd. apply Presigned_destructor_idle with (s := s); assumption.
  - revert He. unfold final, events, Presigned.handleSubmit, Presigned.getDuration.
    destruct (Presigned.file s) as [f|]; [clear Hf|congruence].
    simpl. clear Hg Hr. repeat branch env; intros H; try discriminate H;
      do 3 eexists; repeat split; reflexivity.
Qed.

Lemma X13_Presigned_success_stores_witness :
  Presigned.file Presigned_selected <> None /\
  JS.truthy (Presigned.geminiFileName Presigned_selected) = false /\
  JS.truthy (Presigned.r2ObjectKey Presigned_selected) = false /\
  Presigned.error (final env_ok (Presigned.handleSubmit Presigned_selected)
                         Presigned_selected) = None /\
  (forall r, same_deps r Presigned_selected = true ->
     forall st tr, run env_ok (Presigned_destructor r) st tr = (st, tr, Resolve tt)) /\
  exists pj tj d,
    json_bodies (events env_ok (Presigned.handleSubmit Presigned_selected)
                        Presigned_selected) = [pj; tj] /\
    durations (events env_ok (Presigned.handleSubmit Presigned_selected)
                      Presigned_selected) = [d] /\
    endpoints (events env_ok (Presigned.handleSubmit Presigned_selected)
                      Presigned_selected)
    = [generate_r2_presigned; upload; transcribe] /\
    Presigned.transcriptTurns (final env_ok (Presigned.handleSubmit Presigned_selected)
                                     Presigned_selected) = transcript_turns tj /\
    Presigned.geminiFileName (final env_ok (Presigned.handleSubmit Presigned_selected)
                                    Presigned_selected) = gemini_file_name tj /\
    Presigned.r2ObjectKey (final env_ok (Presigned.handleSubmit Presigned_selected)
                                 Presigned_selected)
    = JS.or (r2_object_key tj) (object_key pj) /\
    ((0 <= d)%Q -> (d < inject_Z max_exact_seconds)%Q ->
     Presigned.audioDuration (final env_ok (Presigned.handleSubmit Presigned_selected)
                                    Presigned_selected) = Some (hhmmss d)) /\
    Presigned.statusMessage (final env_ok (Presigned.handleSubmit Presigned_selected)
                                   Presigned_selected) = "Transcription complete!".
Proof.
  assert (HP : Presigned.file Presigned_selected <> None) by discriminate.
  split; [exact HP|]. do 3 (split; [reflexivity|]).
  apply (@X13_Presigned_success_stores env_ok Presigned_selected HP eq_refl eq_refl).
  reflexivity.
Defined.

(** ** The transcoding variant's submission *)

(** X14.  Transcoding variant: a file that is neither video nor audio fails
    at once with [Unsupported file type: <type>]; nothing is done to the
    engine or to the network, and the transcript and the handle of an earlier
    run are gone. *)
Theorem X14_Transcoding_unsupported_type (env : Env) (s : Transcoding.State) (f : File) :
  Transcoding.file s = Some f ->
  prefix "video/" (type f) = false -> prefix "audio/" (type f) = false ->
  let s' := final env (Transcoding.handleSubmit s) s in
  events env (Transcoding.handleSubmit s) s = [] /\
  Transcoding.error s' = Some ("Unsupported file type: " ++ type f) /\
  Transcoding.transcriptTurns s' = None /\
  Transcoding.geminiFileName s' = None /\
  Transcoding.isProcessing s' = false.
Proof.
  intros Hf Hv Ha. unfold final, events, Transcoding.handleSubmit.
  rewrite Hf, Hv, Ha. simpl. repeat split; reflexivity.
Qed.

Lemma X14_Transcoding_unsupported_type_witness :
  events env_ok (Transcoding.handleSubmit spreadsheet_selected) spreadsheet_selected = [] /\
  Transcoding.error (final env_ok (Transcoding.handleSubmit spreadsheet_selected)
                           spreadsheet_selected)
  = Some ("Unsupported file type: " ++ "text/csv").
Proof.
  pose proof (@X14_Transcoding_unsupported_type env_ok spreadsheet_selected spreadsheet
                eq_refl eq_refl eq_refl) as H.
  cbv zeta in H. destruct H as [H1 [H2 _]]. split; [exact H1 | exact H2].
Defined.

(** X15.  Transcoding variant: a video submitted while the engine has not
    loaded fails at once with [FFmpeg not loaded. Cannot convert video.];
    nothing is done to the engine or to the network. *)
Theorem X15_Transcoding_engine_unavailable (env : Env) (s : Transcoding.State)
    (f : File) :
  Transcoding.file s = Some f ->
  prefix "video/" (type f) = true -> Transcoding.ffmpegLoaded s = false ->
  let s' := final env (Transcoding.handleSubmit s) s in
  events env (Transcoding.handleSubmit s) s = [] /\
  Transcoding.error s' = Some "FFmpeg not loaded. Cannot convert video." /\
  Transcoding.statusMessage s' = EmptyString /\
  Transcoding.isProcessing s' = false.
Proof.
  intros Hf Hv Hl. unfold final, events, Transcoding.handleSubmit.
  rewrite Hf, Hv, Hl. simpl. repeat split; reflexivity.
Qed.

Lemma X15_Transcoding_engine_unavailable_witness :
  events env_ok (Transcoding.handleSubmit video_selected) video_selected = [] /\
  Transcoding.error (final env_ok (Transcoding.handleSubmit video_selected) video_selected)
  = Some "FFmpeg not loaded. Cannot convert video.".
Proof.
  pose proof (@X15_Transcoding_engine_unavailable env_ok video_selected other_recording
                eq_refl eq_refl eq_refl) as H.
  cbv zeta in H. destruct H as [H1 [H2 _]]. split; [exact H1 | exact H2].
Defined.

Lemma Transcoding_no_duration (env : Env) (s : Transcoding.State) :
  Transcoding.file s <> None ->
  Transcoding.audioDuration (final env (Transcoding.handleSubmit s) s) = None.
Proof.
  intros Hf. unfold final, Transcoding.handleSubmit, Transcoding.probe.
  destruct (Transcoding.file s) as [f|]; [clear Hf|congruence].
  simpl. repeat branch env; reflexivity.
Qed.

Lemma Transcoding_export_sends_NA (s : Transcoding.State) :
  Transcoding.audioDuration s = None ->
  sends_only titled_without_duration
             (Transcoding.handleDownloadDocx s).
Proof.
  intros Hd. unfold Transcoding.handleDownloadDocx.
  destruct (Transcoding.transcriptTurns s) as [turns|]; [|exact I].
  destruct (JS.truthy (Transcoding.geminiFileName s)); [|exact I].
  walk; try exact I.
  unfold titled_without_duration. simpl. rewrite Hd. reflexivity.
Qed.

(** X16.  Transcoding variant: no submission ever stores a duration,
    whatever the probe does, so every export that follows a submission titles
    the document with the duration [N/A]. *)
Theorem X16_Transcoding_duration_never_known (env env' : Env) (s : Transcoding.State) :
  Transcoding.file s <> None ->
  let s1 := final env (Transcoding.handleSubmit s) s in
  Transcoding.audioDuration s1 = None /\
  Forall (logged_only titled_without_duration)
         (events env' (Transcoding.handleDownloadDocx s1) s1).
Proof.
  intros Hf. cbv zeta. split; [apply Transcoding_no_duration, Hf|].
  unfold events. apply run_sends_only; [|constructor].
  apply Transcoding_export_sends_NA, Transcoding_no_duration, Hf.
Qed.

Lemma X16_Transcoding_duration_never_known_witness :
  Transcoding.file Transcoding_selected <> None /\
  Transcoding.audioDuration Transcoding_ready = None /\
  Forall (logged_only titled_without_duration)
         (events env_ok (Transcoding.handleDownloadDocx Transcoding_ready)
                 Transcoding_ready).
Proof.
  assert (HT : Transcoding.file Transcoding_selected <> None) by discriminate.
  split; [exact HT|].
  exact (@X16_Transcoding_duration_never_known env_ok env_ok Transcoding_selected HT).
Defined.

(** X17.  Transcoding variant: while the engine has not loaded, a
    submission never touches it: an audio file goes to the transcription
    unprobed. *)
Theorem X17_Transcoding_engine_untouched (env : Env) (s : Transcoding.State) :
  Transcoding.ffmpegLoaded s = false ->
  Forall (fun e => uses_engine e = false) (events env (Transcoding.handleSubmit s) s).
Proof.
  intros Hl. unfold events, Transcoding.handleSubmit, Transcoding.probe.
  destruct (Transcoding.file s) as [f|]; [|constructor].
  rewrite Hl. simpl. repeat branch env; repeat constructor.
Qed.

Lemma X17_Transcoding_engine_untouched_witness :
  Transcoding.ffmpegLoaded Transcoding_selected = false /\
  Forall (fun e => uses_engine e = false)
         (events env_ok (Transcoding.handleSubmit Transcoding_selected)
                 Transcoding_selected).
Proof.
  split; [reflexivity|].
  apply (@X17_Transcoding_engine_untouched env_ok Transcoding_selected). reflexivity.
Defined.

(** X18.  Transcoding variant: what is sent to the transcription is the
    selected file itself when it is not a video, and for a video the bytes
    the engine gave back for [output.mp3]. *)
Theorem X18_Transcoding_payload (env : Env) (s : Transcoding.State) (f : File)
    (rd : RequestData) (part : Payload) (o : outcome Response) :
  Transcoding.file s = Some f ->
  In (Some (POST_transcribe rd part, o))
     (map fetch_of (events env (Transcoding.handleSubmit s) s)) ->
  if prefix "video/" (type f)
  then exists data,
         In (Some ("output.mp3", Resolve data))
            (map readFile_of (events env (Transcoding.handleSubmit s) s)) /\
         part = part_audio_file (Mp3 data)
  else part = part_audio_file (OfFile f).
Proof.
  intros Hf. unfold events, Transcoding.handleSubmit, Transcoding.probe.
  rewrite Hf. simpl. repeat branch env; intros H; entries H;
    first [ reflexivity
          | eexists; split; [simpl; do 3 right; left; reflexivity | reflexivity] ].
Qed.

Lemma X18_Transcoding_payload_witness :
  Transcoding.file Transcoding_selected = Some recording /\
  In (Some (POST_transcribe
              {| case_fields := Transcoding.caseInfo Transcoding_selected;
                 speaker_names := None |}
              (part_audio_file (OfFile recording)), Resolve response_200))
     (map fetch_of (events env_ok (Transcoding.handleSubmit Transcoding_selected)
                           Transcoding_selected)) /\
  (if prefix "video/" (type recording)
   then exists data,
          In (Some ("output.mp3", Resolve data))
             (map readFile_of (events env_ok (Transcoding.handleSubmit Transcoding_selected)
                                      Transcoding_selected)) /\
          part_audio_file (OfFile recording) = part_audio_file (Mp3 data)
   else part_audio_file (OfFile recording) = part_audio_file (OfFile recording)).
Proof.
  assert (HI : In (Some (POST_transcribe
                           {| case_fields := Transcoding.caseInfo Transcoding_selected;
                              speaker_names := None |}
                           (part_audio_file (OfFile recording)), Resolve response_200))
                  (map fetch_of (events env_ok (Transcoding.handleSubmit Transcoding_selected)
                                        Transcoding_selected)))
    by (left; reflexivity).
  split; [reflexivity|]. split; [exact HI|].
  exact (@X18_Transcoding_payload env_ok Transcoding_selected recording _ _ _ eq_refl HI).
Defined.

(** X19.  Transcoding variant: a failed duration probe never stops the run:
    the transcription is requested all the same. *)
Theorem X19_Transcoding_probe_failure_ignored (env : Env) (s : Transcoding.State)
    (inputFileName : string) (e : Thrown) :
  In (Some (Transcoding.probe_args inputFileName, Reject e))
     (map exec_of (events env (Transcoding.handleSubmit s) s)) ->
  endpoints (events env (Transcoding.handleSubmit s) s) = [transcribe].
Proof.
  unfold events, Transcoding.handleSubmit, Transcoding.probe.
  destruct (Transcoding.file s) as [f|]; [|simpl; tauto].
  simpl. repeat branch env; intros H; entries H; reflexivity.
Qed.

Lemma X19_Transcoding_probe_failure_ignored_witness :
  In (Some (Transcoding.probe_args "input.mp3", Reject (Error "ffmpeg exited with code 1")))
     (map exec_of (events env_engine_fails (Transcoding.handleSubmit engine_loaded)
                          engine_loaded)) /\
  endpoints (events env_engine_fails (Transcoding.handleSubmit engine_loaded) engine_loaded)
  = [transcribe].
Proof.
  assert (HI : In (Some (Transcoding.probe_args "input.mp3",
                         Reject (Error "ffmpeg exited with code 1")))
                  (map exec_of (events env_engine_fails
                                       (Transcoding.handleSubmit engine_loaded)
                                       engine_loaded)))
    by (vm_compute; do 2 right; left; reflexivity).
  split; [exact HI|].
  exact (@X19_Transcoding_probe_failure_ignored env_engine_fails engine_loaded _ _ HI).
Defined.

(** ** More on export *)

(** X20.  An export, whatever becomes of it, leaves the transcript, the
    handles, the duration, the file and the form as they were; it can be
    repeated.  Both variants. *)
Theorem X20_export_keeps_work :
  (forall (env : Env) (s : Presigned.State),
      let s' := final env (Presigned.handleDownloadDocx s) s in
      Presigned_keeps_work s s' /\
      Presigned.geminiFileName s' = Presigned.geminiFileName s /\
      Presigned.r2ObjectKey s' = Presigned.r2ObjectKey s) /\
  (forall (env : Env) (s : Transcoding.State),
      Transcoding_keeps_work s (final env (Transcoding.handleDownloadDocx s) s)).
Proof.
  split; intros env s; unfold final.
  - unfold Presigned.handleDownloadDocx, Presigned_keeps_work.
    destruct (Presigned.transcriptTurns s) as [turns|] eqn:Et;
      destruct (JS.truthy (Presigned.geminiFileName s)); simpl;
      repeat branch env; rewrite ?Et; repeat split; reflexivity.
  - unfold Transcoding.handleDownloadDocx, Transcoding_keeps_work.
    destruct (Transcoding.transcriptTurns s) as [turns|] eqn:Et;
      destruct (JS.truthy (Transcoding.geminiFileName s)); simpl;
      repeat branch env; rewrite ?Et; repeat split; reflexivity.
Qed.

(** X21.  An export suggests a file to the browser at most once, and only
    after the export endpoint answered with success and its body was read in
    full; a failed export delivers nothing.  Both variants. *)
Theorem X21_export_delivers_on_success_only :
  (forall (env : Env) (s : Presigned.State),
      let log := events env (Presigned.handleDownloadDocx s) s in
      suggested_names log = [] \/
      exists resp n, export_answer log resp /\ suggested_names log = [n]) /\
  (forall (env : Env) (s : Transcoding.State),
      let log := events env (Transcoding.handleDownloadDocx s) s in
      suggested_names log = [] \/
      exists resp n, export_answer log resp /\ suggested_names log = [n]).
Proof.
  split; intros env s; unfold events.
  - unfold Presigned.handleDownloadDocx.
    destruct (Presigned.transcriptTurns s) as [turns|]; [|left; reflexivity].
    destruct (JS.truthy (Presigned.geminiFileName s)); [|left; reflexivity].
    simpl. repeat branch env;
      first [ left; reflexivity
            | right; do 2 eexists; split; [|reflexivity];
              split; [eexists; left; reflexivity|];
              split; [eexists; right; left; reflexivity | assumption] ].
  - unfold Transcoding.handleDownloadDocx.
    destruct (Transcoding.transcriptTurns s) as [turns|]; [|left; reflexivity].
    destruct (JS.truthy (Transcoding.geminiFileName s)); [|left; reflexivity].
    simpl. repeat branch env;
      first [ left; reflexivity
            | right; do 2 eexists; split; [|reflexivity];
              split; [eexists; left; reflexivity|];
              split; [eexists; right; left; reflexivity | assumption] ].
Qed.

(** X22.  When the export endpoint answers with a non-success status,
    nothing is delivered and the error shown is made from the answer.  In
    page.tsx it is the detail of the body, or the status text when the body
    has none or is not JSON, or [Download failed] when that is empty too.  In
    the transcoding variant it is [API Error (<status>): ] followed by the
    detail, where a body that is not JSON counts as one whose detail is the
    status text, or by [Failed to generate DOCX] when there is none. *)
Theorem X22_export_failure_message :
  (forall (env : Env) (s : Presigned.State) body resp b,
      let log := events env (Presigned.handleDownloadDocx s) s in
      In (Some (POST_generate_docx body, Resolve resp)) (map fetch_of log) ->
      ok resp = false ->
      In (Some (resp, b)) (map json_of log) ->
      let d := match b with Resolve d => d | Reject _ => empty_json end in
      Presigned.error (final env (Presigned.handleDownloadDocx s) s)
      = Some (JS.or_str (Some (JS.or_str (detail d) (statusText resp))) "Download failed") /\
      suggested_names log = []) /\
  (forall (env : Env) (s : Transcoding.State) body resp b,
      let log := events env (Transcoding.handleDownloadDocx s) s in
      In (Some (POST_generate_docx body, Resolve resp)) (map fetch_of log) ->
      ok resp = false ->
      In (Some (resp, b)) (map json_of log) ->
      let d := match b with
               | Resolve d => detail d
               | Reject _ => Some (statusText resp)
               end in
      Transcoding.error (final env (Transcoding.handleDownloadDocx s) s)
      = Some ("API Error (" ++ JS.toString (status resp) ++ "): "
              ++ JS.or_str d "Failed to generate DOCX") /\
      suggested_names log = []).
Proof.
  split; intros env s body resp b; unfold final, events.
  - unfold Presigned.handleDownloadDocx.
    destruct (Presigned.transcriptTurns s) as [turns|]; [|simpl; tauto].
    destruct (JS.truthy (Presigned.geminiFileName s)); [|simpl; tauto].
    simpl. repeat branch env; intros Hf Hok Hj;
      entries Hf; entries Hj; try congruence; split; reflexivity.
  - unfold Transcoding.handleDownloadDocx.
    destruct (Transcoding.transcriptTurns s) as [turns|]; [|simpl; tauto].
    destruct (JS.truthy (Transcoding.geminiFileName s)); [|simpl; tauto].
    simpl. repeat branch env; intros Hf Hok Hj;
      entries Hf; entries Hj; try congruence; split; reflexivity.
Qed.

Lemma X22_export_failure_message_witness :
  Presigned.error (final env_export_500 (Presigned.handleDownloadDocx Presigned_ready)
                         Presigned_ready)
  = Some "Internal Server Error" /\
  Transcoding.error (final env_export_500 (Transcoding.handleDownloadDocx Transcoding_ready)
                           Transcoding_ready)
  = Some "API Error (500): Internal Server Error".
Proof.
  split.
  - assert (A : exists body,
               In (Some (POST_generate_docx body, Resolve response_500))
                  (map fetch_of (events env_export_500
                                        (Presigned.handleDownloadDocx Presigned_ready)
                                        Presigned_ready)))
      by (eexists; vm_compute; left; reflexivity).
    destruct A as [body A].
    refine (proj1 (proj1 X22_export_failure_message env_export_500 Presigned_ready body
                         response_500 (Reject (Error "Unexpected token < in JSON"))
                         A eq_refl _)).
    vm_compute. right. left. reflexivity.
  - assert (A : exists body,
               In (Some (POST_generate_docx body, Resolve response_500))
                  (map fetch_of (events env_export_500
                                        (Transcoding.handleDownloadDocx Transcoding_ready)
                                        Transcoding_ready)))
      by (eexists; vm_compute; left; reflexivity).
    destruct A as [body A].
    refine (proj1 (proj2 X22_export_failure_message env_export_500 Transcoding_ready body
                         response_500 (Reject (Error "Unexpected token < in JSON"))
                         A eq_refl _)).
    vm_compute. right. left. reflexivity.
Defined.

(** ** What is passed on *)

Lemma truthy_or_str (o : option string) :
  JS.truthy o = true -> o = Some (JS.or_str o EmptyString).
Proof. destruct o as [[|c r]|]; simpl; intros H; try discriminate H; reflexivity. Qed.

Lemma Presigned_submit_passes_case (s : Presigned.State) :
  sends_only (carries_case (Presigned.caseInfo s)) (Presigned.handleSubmit s).
Proof.
  unfold Presigned.handleSubmit, Presigned.getDuration.
  destruct (Presigned.file s) as [f|]; [|exact I].
  walk; try exact I; try (split; [exact I | intros [?|?]; exact I]).
  reflexivity.
Qed.

Lemma Transcoding_submit_passes_case (s : Transcoding.State) :
  sends_only (carries_case (Transcoding.caseInfo s)) (Transcoding.handleSubmit s).
Proof.
  unfold Transcoding.handleSubmit, Transcoding.probe.
  destruct (Transcoding.file s) as [f|]; [|exact I].
  walk; try exact I. reflexivity.
Qed.

Lemma Presigned_export_passes (s : Presigned.State) :
  sends_only (exports_held (Presigned.caseInfo s) (Presigned.transcriptTurns s)
                           (Presigned.geminiFileName s))
             (Presigned.handleDownloadDocx s).
Proof.
  unfold Presigned.handleDownloadDocx.
  destruct (Presigned.transcriptTurns s) as [turns|]; [|exact I].
  destruct (JS.truthy (Presigned.geminiFileName s)) eqn:Eg; [|exact I].
  walk; try exact I.
  unfold exports_held. simpl. repeat split; try reflexivity. apply truthy_or_str, Eg.
Qed.

Lemma Transcoding_export_passes (s : Transcoding.State) :
  sends_only (exports_held (Transcoding.caseInfo s) (Transcoding.transcriptTurns s)
                           (Transcoding.geminiFileName s))
             (Transcoding.handleDownloadDocx s).
Proof.
  unfold Transcoding.handleDownloadDocx.
  destruct (Transcoding.transcriptTurns s) as [turns|]; [|exact I].
  destruct (JS.truthy (Transcoding.geminiFileName s)) eqn:Eg; [|exact I].
  walk; try exact I.
  unfold exports_held. simpl. repeat split; try reflexivity. apply truthy_or_str, Eg.
Qed.

(** X23.  The case fields of the form reach both services unmodified: every
    transcription request carries them as they are in the session, and every
    export request carries them together with the transcript held, turn for
    turn, and the transcription handle held.  Both variants. *)
Theorem X23_passed_on_unmodified :
  (forall (env : Env) (s : Presigned.State),
      Forall (logged_only (carries_case (Presigned.caseInfo s)))
             (events env (Presigned.handleSubmit s) s) /\
      Forall (logged_only (exports_held (Presigned.caseInfo s)
                                        (Presigned.transcriptTurns s)
                                        (Presigned.geminiFileName s)))
             (events env (Presigned.handleDownloadDocx s) s)) /\
  (forall (env : Env) (s : Transcoding.State),
      Forall (logged_only (carries_case (Transcoding.caseInfo s)))
             (events env (Transcoding.handleSubmit s) s) /\
      Forall (logged_only (exports_held (Transcoding.caseInfo s)
                                        (Transcoding.transcriptTurns s)
                                        (Transcoding.geminiFileName s)))
             (events env (Transcoding.handleDownloadDocx s) s)).
Proof.
  split; intros env s; split; unfold events; apply run_sends_only; try constructor.
  - apply Presigned_submit_passes_case.
  - apply Presigned_export_passes.
  - apply Transcoding_submit_passes_case.
  - apply Transcoding_export_passes.
Qed.

(** ** More on release and replacement *)

(** X24.  A release makes one call at most: the combined clean-up, carrying
    the staging key when there is one, whenever the transcription handle is
    set, and the staging clean-up when only the staging key is.  Whatever the
    answer, it leaves the transcript, the duration, the file, the form, the
    error and the processing flag as they were. *)
Theorem X24_release_call_and_frame (env : Env) (s : Presigned.State) :
  let s1 := fst (release env s) in
  let log := snd (release env s) in
  Presigned_keeps_work s s1 /\
  Presigned.error s1 = Presigned.error s /\
  Presigned.isProcessing s1 = Presigned.isProcessing s /\
  requests log
  = if JS.truthy (Presigned.geminiFileName s)
    then [POST_cleanup (JS.or_str (Presigned.geminiFileName s) EmptyString)
                       (if JS.truthy (Presigned.r2ObjectKey s)
                        then Presigned.r2ObjectKey s else None)]
    else if JS.truthy (Presigned.r2ObjectKey s)
         then [POST_cleanup_r2 (JS.or_str (Presigned.r2ObjectKey s) EmptyString)]
         else [].
Proof.
  unfold release, Presigned.cleanupFiles, Presigned_keeps_work.
  destruct (Presigned.geminiFileName s) as [[|c g]|];
    destruct (Presigned.r2ObjectKey s) as [[|d r]|]; simpl;
    repeat branch env; repeat split; reflexivity.
Qed.

(** X25.  After a release in which nothing was rejected, the transcript is
    still held but it cannot be exported any more: the export fails on the
    spot with [Nothing to download.] and sends nothing. *)
Theorem X25_no_export_after_release (env env' : Env) (s : Presigned.State) :
  forallb resolved (snd (release env s)) = true ->
  let s1 := fst (release env s) in
  let s2 := final env' (Presigned.handleDownloadDocx s1) s1 in
  events env' (Presigned.handleDownloadDocx s1) s1 = [] /\
  Presigned.error s2 = Some "Nothing to download." /\
  Presigned.transcriptTurns s2 = Presigned.transcriptTurns s.
Proof.
  unfold release, final, events, Presigned.cleanupFiles.
  destruct (Presigned.geminiFileName s) as [[|c g]|] eqn:Eg;
    destruct (Presigned.r2ObjectKey s) as [[|d r]|] eqn:Er; simpl;
    repeat branch env; intros H; try discriminate H;
    unfold Presigned.handleDownloadDocx; simpl; rewrite ?Eg;
    destruct (Presigned.transcriptTurns s) eqn:Et; simpl; rewrite ?Et;
    repeat split; reflexivity.
Qed.

Lemma X25_no_export_after_release_witness :
  forallb resolved (snd (release env_ok Presigned_ready)) = true /\
  Presigned.error
    (final env_ok (Presigned.handleDownloadDocx (fst (release env_ok Presigned_ready)))
           (fst (release env_ok Presigned_ready)))
  = Some "Nothing to download." /\
  Presigned.transcriptTurns (fst (release env_ok Presigned_ready)) = Some sample_turns.
Proof.
  split; [reflexivity|].
  pose proof (@X25_no_export_after_release env_ok env_ok Presigned_ready eq_refl) as H.
  cbv zeta in H. destruct H as [_ [H2 _]]. split; [exact H2 | reflexivity].
Defined.

(** X26.  page.tsx: replacing the file sends nothing itself and keeps the
    form and the processing flag of a run still in flight; but as the
    handles of the superseded run are dropped, the effect of the page sends
    their clean-up request (none when no handle was held), after which the
    session holds the new file, no transcript and no handle, and the page is
    at rest. *)
Theorem X26_replacement_released_by_effect (env env' : Env) (f' : option File)
    (s : Presigned.State) :
  let s1 := final env (Presigned.handleFileChange f') s in
  let page := Presigned_commit env' s s1 [] in
  let s2 := fst (fst page) in
  events env (Presigned.handleFileChange f') s = [] /\
  (Presigned.caseInfo s1 = Presigned.caseInfo s /\
   Presigned.specifySpeakers s1 = Presigned.specifySpeakers s /\
   Presigned.numSpeakers s1 = Presigned.numSpeakers s /\
   Presigned.speakerNames s1 = Presigned.speakerNames s /\
   Presigned.isProcessing s1 = Presigned.isProcessing s) /\
  requests (snd (fst page)) = cleanup_request s /\
  Presigned.file s2 = f' /\
  Presigned.transcriptTurns s2 = None /\
  Presigned.geminiFileName s2 = None /\
  Presigned.r2ObjectKey s2 = None /\
  same_deps (snd page) s2 = true.
Proof.
  cbv zeta. unfold Presigned_commit, Presigned_destructor, cleanup_request, same_deps,
    final, events, Presigned.cleanupFiles.
  destruct (Presigned.geminiFileName s) as [[|c g]|] eqn:Eg;
    destruct (Presigned.r2ObjectKey s) as [[|d r]|] eqn:Er; simpl;
    repeat branch env'; rewrite ?Eg, ?Er; simpl;
    repeat split; reflexivity.
Qed.

(** The sample session with a transcript: replacing its file makes the
    page send the clean-up of both its handles. *)
Example Presigned_sample_replacement :
  requests (snd (fst (Presigned_commit env_ok Presigned_ready
                        (final env_ok (Presigned.handleFileChange (Some other_recording))
                               Presigned_ready) [])))
  = cleanup_request Presigned_ready /\
  List.length (cleanup_request Presigned_ready) = 1.
Proof. split; reflexivity. Qed.

(** ** Controls *)

(** X27.  The buttons are enabled only where their handlers have work to
    do.  In page.tsx, an enabled submit button starts a run with the presign
    request, and an enabled download button sends the export request (the
    local [Nothing to download.] cannot be reached from it).  A click on an
    enabled clean-up button sends one clean-up request; when that request
    resolves the handles are cleared, and the effect of the page then sends
    the same request a second time, so that the page has sent two; when it
    rejects, the page has sent one.  Either way the page is then at rest.  In
    the transcoding variant an enabled download button sends the export
    request. *)
Theorem X27_enabled_controls_act :
  (forall (env : Env) (s : Presigned.State),
      (Presigned_submit_enabled s = true ->
       hd_error (endpoints (events env (Presigned.handleSubmit s) s))
       = Some generate_r2_presigned) /\
      (Presigned_download_enabled s = true ->
       hd_error (endpoints (events env (Presigned.handleDownloadDocx s) s))
       = Some generate_docx) /\
      (Presigned_cleanup_enabled s = true ->
       let s1 := fst (release env s) in
       let tr1 := snd (release env s) in
       let page := Presigned_commit env s s1 tr1 in
       requests tr1 = cleanup_request s /\ List.length (cleanup_request s) = 1 /\
       requests (snd (fst page))
       = (if forallb resolved tr1
          then cleanup_request s ++ cleanup_request s
          else cleanup_request s)%list /\
       same_deps (snd page) (fst (fst page)) = true)) /\
  (forall (env : Env) (s : Transcoding.State),
      Transcoding_download_enabled s = true ->
      hd_error (endpoints (events env (Transcoding.handleDownloadDocx s) s))
      = Some generate_docx).
Proof.
  split; [intros env s; split; [|split] | intros env s].
  - unfold Presigned_submit_enabled, events, Presigned.handleSubmit.
    destruct (Presigned.file s) as [f|]; simpl; [|discriminate].
    intros _. repeat branch env; reflexivity.
  - unfold Presigned_download_enabled, events, Presigned.handleDownloadDocx.
    destruct (Presigned.transcriptTurns s) as [turns|]; simpl; [|discriminate].
    destruct (JS.truthy (Presigned.geminiFileName s)); simpl;
      [|rewrite orb_true_r; discriminate].
    intros _. repeat branch env; reflexivity.
  - unfold Presigned_cleanup_enabled, Presigned_commit, Presigned_destructor,
      cleanup_request, same_deps, release, Presigned.cleanupFiles.
    destruct (Presigned.transcriptTurns s) as [turns|]; simpl; [|discriminate].
    destruct (Presigned.geminiFileName s) as [[|c g]|] eqn:Eg;
      destruct (Presigned.r2ObjectKey s) as [[|d r]|] eqn:Er; simpl;
      try discriminate; intros _;
      repeat (match goal with
              | |- context [env ?t ?R ?a] => destruct (env t R a) as [?|?]
              end;
              repeat (progress (simpl;
                                rewrite ?Eg, ?Er, ?Ascii.eqb_refl, ?String.eqb_refl)));
      repeat split; reflexivity.
  - unfold Transcoding_download_enabled, events, Transcoding.handleDownloadDocx.
    destruct (Transcoding.transcriptTurns s) as [turns|]; simpl; [|discriminate].
    destruct (JS.truthy (Transcoding.geminiFileName s)); simpl;
      [|rewrite orb_true_r, andb_false_r; discriminate].
    intros _. repeat branch env; reflexivity.
Qed.

Lemma X27_enabled_controls_act_witness :
  Presigned_submit_enabled Presigned_selected = true /\
  Presigned_download_enabled Presigned_ready = true /\
  Presigned_cleanup_enabled Presigned_ready = true /\
  Transcoding_download_enabled Transcoding_ready = true /\
  hd_error (endpoints (events env_ok (Presigned.handleSubmit Presigned_selected)
                              Presigned_selected)) = Some generate_r2_presigned /\
  hd_error (endpoints (events env_ok (Presigned.handleDownloadDocx Presigned_ready)
                              Presigned_ready)) = Some generate_docx /\
  requests (snd (fst (Presigned_commit env_ok Presigned_ready
                        (fst (release env_ok Presigned_ready))
                        (snd (release env_ok Presigned_ready)))))
  = (cleanup_request Presigned_ready ++ cleanup_request Presigned_ready)%list /\
  requests (snd (fst (Presigned_commit env_offline Presigned_ready
                        (fst (release env_offline Presigned_ready))
                        (snd (release env_offline Presigned_ready)))))
  = cleanup_request Presigned_ready /\
  hd_error (endpoints (events env_ok (Transcoding.handleDownloadDocx Transcoding_ready)
                              Transcoding_ready)) = Some generate_docx.
Proof.
  do 4 (split; [reflexivity|]).
  split; [|split; [|split; [|split]]].
  - exact (proj1 (proj1 X27_enabled_controls_act env_ok Presigned_selected) eq_refl).
  - exact (proj1 (proj2 (proj1 X27_enabled_controls_act env_ok Presigned_ready)) eq_refl).
  - exact (proj1 (proj2 (proj2
             (proj2 (proj2 (proj1 X27_enabled_controls_act env_ok Presigned_ready))
                    eq_refl)))).
  - exact (proj1 (proj2 (proj2
             (proj2 (proj2 (proj1 X27_enabled_controls_act env_offline Presigned_ready))
                    eq_refl)))).
  - exact (proj2 X27_enabled_controls_act env_ok Transcoding_ready eq_refl).
Defined.

(** ** Case fields *)

Lemma case_get_put_same (k : CaseKey) (v : string) (p : CaseInfo) :
  case_get k (case_put k v p) = Some v.
Proof. destruct k; reflexivity. Qed.

Lemma case_get_put_other (k k' : CaseKey) (v : string) (p : CaseInfo) :
  k' <> k -> case_get k' (case_put k v p) = case_get k' p.
Proof. destruct k, k'; intros H; try reflexivity; congruence. Qed.

Lemma Presigned_submit_carries_value (k : CaseKey) (v : string) (s : Presigned.State) :
  case_get k (Presigned.caseInfo s) = Some v ->
  sends_only (carries_case_value k v) (Presigned.handleSubmit s).
Proof.
  intros Hk. unfold Presigned.handleSubmit, Presigned.getDuration.
  destruct (Presigned.file s) as [f|]; [|exact I].
  walk; try exact I; try (split; [exact I | intros [?|?]; exact I]).
  exact Hk.
Qed.

(** X28.  page.tsx: typing into a case field sends nothing, stores the
    text under that field and under no other, leaves every other cell of the
    session as it was, and the text is what the next submission sends for
    that field. *)
Theorem X28_Presigned_case_field_round_trip (env env' : Env) (k : CaseKey)
    (v : string) (s : Presigned.State) :
  let s1 := final env (Presigned_handleCaseChange k v) s in
  case_get k (Presigned.caseInfo s1) = Some v /\
  (forall k', k' <> k ->
     case_get k' (Presigned.caseInfo s1) = case_get k' (Presigned.caseInfo s)) /\
  Presigned_same_but_case s s1 /\
  events env (Presigned_handleCaseChange k v) s = [] /\
  Forall (logged_only (carries_case_value k v))
         (events env' (Presigned.handleSubmit s1) s1).
Proof.
  cbv zeta. unfold final, events. simpl. split; [|split; [|split; [|split]]].
  - apply case_get_put_same.
  - intros k' Hk. apply case_get_put_other, Hk.
  - unfold Presigned_same_but_case. simpl. repeat split; reflexivity.
  - reflexivity.
  - apply run_sends_only; [|constructor].
    apply Presigned_submit_carries_value. simpl. apply case_get_put_same.
Qed.

(** ** More on the suggested file name *)

(** X29.  Transcoding variant: an attachment header that names the file
    without quotes is honoured too, up to the first semicolon: the name given,
    followed by other parameters or not, is the name suggested. *)
Theorem X29_downloadFilename_unquoted (file : option File) (n rest : string) :
  token_name n = true -> n <> EmptyString ->
  downloadFilename file (Some ("attachment; filename=" ++ n)) = n /\
  downloadFilename file (Some ("attachment; filename=" ++ n ++ String ";" rest)) = n.
Proof.
  intros H Hn. destruct n as [|c r]; [congruence|].
  destruct (@group1_token _ _ rest H) as [G1 G2].
  pose proof (@strip_quotes_token _ H) as HS.
  split.
  - unfold downloadFilename.
    change (JS.nonempty ("attachment; filename=" ++ String c r)) with true.
    change (JS.includes "attachment" ("attachment; filename=" ++ String c r)) with true.
    change (filenameRegex_exec ("attachment; filename=" ++ String c r))
      with (Some (group1 (String c r))).
    rewrite G1. simpl andb. cbv iota. simpl JS.nonempty. cbv iota. exact HS.
  - unfold downloadFilename.
    change (JS.nonempty ("attachment; filename=" ++ String c r ++ String ";" rest))
      with true.
    change (JS.includes "attachment"
              ("attachment; filename=" ++ String c r ++ String ";" rest)) with true.
    change (filenameRegex_exec ("attachment; filename=" ++ String c r ++ String ";" rest))
      with (Some (group1 (String c r ++ String ";" rest))).
    rewrite G2. simpl andb. cbv iota. simpl JS.nonempty. cbv iota. exact HS.
Qed.

Lemma X29_downloadFilename_unquoted_witness :
  token_name "report.docx" = true /\ "report.docx" <> EmptyString /\
  downloadFilename (Some recording) (Some ("attachment; filename=" ++ "report.docx"))
  = "report.docx" /\
  downloadFilename (Some recording)
    (Some ("attachment; filename=" ++ "report.docx" ++ String ";" " size=12"))
  = "report.docx".
Proof.
  assert (H1 : token_name "report.docx" = true) by reflexivity.
  assert (H2 : "report.docx" <> EmptyString) by discriminate.
  split; [exact H1|]. split; [exact H2|].
  exact (@X29_downloadFilename_unquoted (Some recording) "report.docx" " size=12" H1 H2).
Defined.

(** ** Closing the file dialog without a file *)

(** X30.  Closing the file dialog without choosing a file: the transcoding
    variant ignores it, the session and the log are untouched; page.tsx takes
    it as a replacement by no file, so that the transcript and the handles
    are dropped and the submission that follows is refused on the spot. *)
Theorem X30_no_file_chosen (env env' : Env) :
  (forall s : Transcoding.State,
      run env (Transcoding.handleFileChange None) s [] = (s, [], Resolve tt)) /\
  (forall s : Presigned.State,
      let s1 := final env (Presigned.handleFileChange None) s in
      idle None s1 /\
      events env' (Presigned.handleSubmit s1) s1 = [] /\
      Presigned.error (final env' (Presigned.handleSubmit s1) s1)
      = Some "Choose a file first." /\
      events env' (Presigned.handleDownloadDocx s1) s1 = []).
Proof.
  split; intros s; [reflexivity|].
  cbv zeta. unfold final, events. simpl. unfold idle. simpl.
  repeat split; reflexivity.
Qed.
